(** * SolProof analysis pipeline: a shallow embedding of the scoring,
    classification, aggregation and call-graph stages, and of the stages
    that report on their results.

    Conventions of the embedding.
    - A JavaScript number that is always an integer in the code (scores,
      lengths, counts of list elements) is a [Z]; one that can be fractional
      (volumes in SOL, thresholds such as [0.5 * total]) is a [Q], computed
      exactly.
    - A property that may be missing from an object is an [option]; reading a
      property of a missing object raises a [TypeError] in the source, which
      the embedding writes as [None] in the [option] monad, and every
      [try { ... } catch] of the source is a [match] on that result.
    - A number read from a missing property is [undefined]; it turns into
      [NaN] in arithmetic and makes every comparison false.  The type [num]
      is [option Q] with [None] standing for [undefined]/[NaN].
    - A parameter or property is an [option] when its absence changes the
      control flow: the code tests it ([!x], [x?.p]), or reads a property of
      it while a caller in the repository can build the object without it
      (the timeout fallbacks of cli.js).  The others have the type their
      documentation gives them.
    - An [async] function is its result; a rejected promise is a raised
      exception. *)

From Stdlib Require Import QArith Qround Qabs Lqa.
From Stdlib Require Strings.Byte.
From Stdlib Require Import Ascii.
From stdpp Require Import base option list strings pretty sorting gmap gmultiset.

(* [set_solver] clears hypotheses it has already consumed. *)
#[local] Set Warnings "-clear-no-such-hyp".

Local Open Scope string_scope.
Local Open Scope Z_scope.
Local Open Scope list_scope.

(** ** JavaScript values *)

Module JS.

(** A number that may be [undefined] (or [NaN]). *)
Definition num : Type := option Q.

Definition ofZ (z : Z) : num := Some (inject_Z z).

(** [a * b]: [NaN] as soon as one side is. *)
Definition mul (a b : num) : num :=
  match a, b with
  | Some x, Some y => Some (x * y)%Q
  | _, _ => None
  end.

(** [a > b] on exact rationals. *)
Definition Qgtb (x y : Q) : bool :=
  match (x ?= y)%Q with Gt => true | _ => false end.

(** [a > b]: false when one side is [undefined]/[NaN]. *)
Definition gt (a b : num) : bool :=
  match a, b with
  | Some x, Some y => Qgtb x y
  | _, _ => false
  end.

(** [a < b]. *)
Definition lt (a b : num) : bool := gt b a.

(** [Math.max(0, Math.min(100, x))] and [Math.min(100, x)] on integers. *)
Definition clamp0_100 (x : Z) : Z := Z.max 0 (Z.min 100 x).
Definition min100 (x : Z) : Z := Z.min 100 x.

End JS.

(** ** The objects passed between the stages *)

(** [{ branches, loops }] of the binary profile. *)
Record ControlFlow := mkControlFlow {
  branches : Z;
  loops : Z
}.

(** [analysis.insights].  The callers' timeout fallbacks build partial
    objects, so every property a consumer dereferences can be missing. *)
Record Insights := mkInsights {
  instructions : option Z;
  syscalls : option (list string);
  suspectedType : option string;
  reentrancyRisk : option string;
  controlFlow : option ControlFlow;
  usesBorsh : bool;
  hiddenMint : bool;
  authorityHolders : option (list string);
  address : string
}.

(** [analysis]: [None] at the outer level is a [null]/[undefined] argument,
    at the inner level a missing [insights] property. *)
Record Analysis := mkAnalysis {
  insights : option Insights
}.

(** [{ count, volumeSOL }] of one transaction kind. *)
Record TypeStat := mkTypeStat {
  count : JS.num;
  volumeSOL : JS.num
}.

Record TransactionTypes := mkTransactionTypes {
  swaps : option TypeStat;
  transfers : option TypeStat;
  mints : option TypeStat;
  burns : option TypeStat;
  governance : option TypeStat;
  nftMints : option TypeStat;
  others : option TypeStat
}.

(** The four values the flow extraction gives to [flowType]. *)
Inductive FlowType := Transfer | Swap | Vote | NftMint.

(** A token flow [{ account, amount, token, mint, flowType, txCount }]. *)
Record Flow := mkFlow {
  account : string;
  amount : Q;
  token : string;
  mint : string;
  flowType : FlowType;
  txCount : Z
}.

Record TokenFlowInsights := mkTokenFlowInsights {
  topOutflows : list Flow;
  topInflows : list Flow;
  concentrationRisk : bool
}.

Record TransactionVolumeAnalysis := mkTransactionVolumeAnalysis {
  meanVolumeSOL : JS.num;
  stdDevVolumeSOL : JS.num;
  highVolatility : bool
}.

Record EconomicInsights := mkEconomicInsights {
  totalVolumeSOL : JS.num;
  averageFeeSOL : JS.num;
  transactionCount : JS.num;
  transactionTypes : option TransactionTypes;
  suspiciousVolume : JS.num;
  tokenFlowInsights : option TokenFlowInsights;
  transactionVolumeAnalysis : option TransactionVolumeAnalysis
}.

(** A risk entry [{ issue, implication, mitigation }]. *)
Record Risk := mkRisk {
  issue : string;
  implication : string;
  mitigation : string
}.

Record SafetyAssessment := mkSafetyAssessment {
  safetyScore : Z;
  risks : list Risk
}.

(** An edge [{ from, to, action, count }] of the call graph. *)
Record Edge := mkEdge {
  from : string;
  to : string;
  action : string;
  edgeCount : Z
}.

Global Instance Edge_eq_dec : EqDecision Edge.
Proof. solve_decision. Defined.

Global Instance Edge_countable : Countable Edge.
Proof.
  refine (inj_countable'
            (λ e, (from e, to e, action e, edgeCount e))
            (λ t, let '(f, t', a, c) := t in
                  {| from := f; to := t'; action := a; edgeCount := c |}) _).
  by intros [].
Defined.

Record CallGraph := mkCallGraph {
  nodes : list string;
  edges : list Edge
}.

(** One entry of [analyzeAuthorityHolders]'s result. *)
Record AuthorityInsight := mkAuthorityInsight {
  authority : string;
  totalSOLWithdrawn : Q;
  walletAgeDays : Z;
  tokenMintCount : Z
}.

(** An account of an instruction.  The code calls [.toBase58()] on it, which
    raises on anything that is not a public key. *)
Inductive AccountRef :=
  | PublicKey (base58 : string)
  | NotAKey.

Definition toBase58 (a : AccountRef) : option string :=
  match a with
  | PublicKey s => Some s
  | NotAKey => None
  end.

(** [ix.parsed], with its [type] property. *)
Record Parsed := mkParsed {
  parsedType : option string
}.

(** A (parsed or partially decoded) instruction; [programId] is given by its
    base-58 text. *)
Record Instruction := mkInstruction {
  programId : string;
  accounts : option (list AccountRef);
  parsed : option Parsed
}.

(** A classified transaction, as [getRecentTransactions] builds it. *)
Record Transaction := mkTransaction {
  signature : string;
  txInstructions : option (list Instruction);
  isNonStandard : bool;
  txType : string;
  txVolumeSOL : Q;
  txFee : Q
}.

(** [{ transactions, economicInsights }]. *)
Record TransactionData := mkTransactionData {
  transactions : option (list Transaction);
  economicInsights : option EconomicInsights
}.

(** ** SafetyAssessor: [assessSafety] (safetyAssessor.js) *)

Module SafetyAssessor.

Definition hiddenMintRisk : Risk :=
  {| issue := "Potential unchecked minting";
     implication := "Risk of unauthorized token issuance";
     mitigation := "Verify minting constraints" |}.

Definition singleAuthorityRisk : Risk :=
  {| issue := "Single authority";
     implication := "Centralization risk";
     mitigation := "Monitor authority actions" |}.

Definition suspiciousVolumeRisk : Risk :=
  {| issue := "High suspicious volume";
     implication := "Potential laundering";
     mitigation := "Trace top accounts" |}.

Definition complexInteractionsRisk : Risk :=
  {| issue := "Complex interactions";
     implication := "Increased risk of hidden logic";
     mitigation := "Review call graph" |}.

(** The mutable pair [(safetyScore, risks)] of the function body. *)
Definition state : Type := Z * list Risk.

(** [risks.push(r); safetyScore -= p]. *)
Definition penalize (r : Risk) (p : Z) (s : state) : state :=
  (fst s - p, snd s ++ [r]).

(** [if (c) { risks.push(r); safetyScore -= p }]. *)
Definition rule (c : bool) (r : Risk) (p : Z) (s : state) : state :=
  if c then penalize r p s else s.

(** The four conditions, as the source tests them. *)
Definition hiddenMintSignal (ins : Insights) : bool := hiddenMint ins.

Definition singleAuthority (authorityInsights : list AuthorityInsight) : bool :=
  bool_decide (length authorityInsights = 1%nat).

Definition highSuspiciousVolume (eco : EconomicInsights) : bool :=
  JS.gt (suspiciousVolume eco) (JS.mul (totalVolumeSOL eco) (Some (1 # 2))).

Definition complexGraph (callGraph : CallGraph) : bool :=
  bool_decide (50 < length (edges callGraph))%nat.

(** The body of the [try] block; [None] is a raised exception. *)
Definition assessSafety_try (analysis : option Analysis)
    (authorityInsights : list AuthorityInsight)
    (transactions : option TransactionData) (callGraph : CallGraph)
    : option SafetyAssessment :=
  ins ← analysis ≫= insights;
  eco ← transactions ≫= economicInsights;
  let s := (80, []) in
  let s := rule (hiddenMintSignal ins) hiddenMintRisk 20 s in
  let s := rule (singleAuthority authorityInsights) singleAuthorityRisk 10 s in
  let s := rule (highSuspiciousVolume eco) suspiciousVolumeRisk 15 s in
  let s := rule (complexGraph callGraph) complexInteractionsRisk 10 s in
  Some {| safetyScore := JS.clamp0_100 (fst s); risks := snd s |}.

(** The value returned by the [catch] block. *)
Definition fallback : SafetyAssessment :=
  {| safetyScore := 50; risks := [] |}.

Definition assessSafety (analysis : option Analysis)
    (authorityInsights : list AuthorityInsight)
    (transactions : option TransactionData) (callGraph : CallGraph)
    : SafetyAssessment :=
  default fallback
    (assessSafety_try analysis authorityInsights transactions callGraph).

End SafetyAssessor.

(** ** BehaviorInferer: [inferBehavior] *)

Record Behavior := mkBehavior {
  scamProbability : Z;
  launderingLikelihood : Z;
  programTypeConfidence : list (string * Z)
}.

Module BehaviorInferer.

(** [if (c) x += d]. *)
Definition bump (c : bool) (d : Z) (x : Z) : Z := if c then x + d else x.

(** [insights.instructions > 500], false on [undefined]. *)
Definition instructionsAbove (n : Z) (ins : Insights) : bool :=
  match instructions ins with
  | Some k => bool_decide (n < k)
  | None => false
  end.

(** [s.count > economicInsights.transactionCount * f]. *)
Definition shareAbove (s : TypeStat) (eco : EconomicInsights) (f : Q) : bool :=
  JS.gt (count s) (JS.mul (transactionCount eco) (Some f)).

Definition scamScore (ins : Insights) (eco : EconomicInsights) : option Z :=
  let p := 10 in
  let p := bump (hiddenMint ins) 30 p in
  let p := bump (JS.gt (suspiciousVolume eco)
                       (JS.mul (totalVolumeSOL eco) (Some (1 # 2)))) 20 p in
  let p := bump (JS.lt (transactionCount eco) (JS.ofZ 10)
                 && JS.gt (totalVolumeSOL eco) (JS.ofZ 100)) 20 p in
  holders ← authorityHolders ins;
  Some (bump (bool_decide (length holders = 1%nat)) 10 p).

Definition launderingScore (ins : Insights) (eco : EconomicInsights) : option Z :=
  let l := 10 in
  flows ← tokenFlowInsights eco;
  let l := bump (concentrationRisk flows) 25 l in
  vol ← transactionVolumeAnalysis eco;
  let l := bump (highVolatility vol) 20 l in
  oth ← transactionTypes eco ≫= others;
  let l := bump (shareAbove oth eco (3 # 10)) 15 l in
  sys ← syscalls ins;
  Some (bump (bool_decide ("sol_invoke" ∈ sys) && instructionsAbove 500 ins) 10 l).

Definition typeConfidence (ins : Insights) (eco : EconomicInsights)
    : option (list (string * Z)) :=
  if bool_decide (suspectedType ins = Some "governance") then
    Some [("governance", 90); ("amm", 5); ("nft", 5)]
  else
    sw ← transactionTypes eco ≫= swaps;
    if shareAbove sw eco (1 # 2) then
      Some [("amm", 85); ("governance", 10); ("nft", 5)]
    else
      nm ← transactionTypes eco ≫= nftMints;
      if shareAbove nm eco (3 # 10) then
        Some [("nft", 80); ("amm", 10); ("governance", 10)]
      else
        Some [("unknown", 50); ("governance", 20); ("amm", 20); ("nft", 10)].

Definition inferBehavior_try (analysis : option Analysis)
    (transactionData : option TransactionData) : option Behavior :=
  ins ← analysis ≫= insights;
  eco ← transactionData ≫= economicInsights;
  scam ← scamScore ins eco;
  laundering ← launderingScore ins eco;
  conf ← typeConfidence ins eco;
  Some {| scamProbability := JS.min100 scam;
          launderingLikelihood := JS.min100 laundering;
          programTypeConfidence := conf |}.

Definition fallback : Behavior :=
  {| scamProbability := 10;
     launderingLikelihood := 10;
     programTypeConfidence := [("unknown", 100)] |}.

Definition inferBehavior (analysis : option Analysis)
    (transactionData : option TransactionData) : Behavior :=
  default fallback (inferBehavior_try analysis transactionData).

(** The five object literals the function can return as
    [programTypeConfidence], in source order. *)
Definition distributions : list (list (string * Z)) :=
  [ [("governance", 90); ("amm", 5); ("nft", 5)];
    [("amm", 85); ("governance", 10); ("nft", 5)];
    [("nft", 80); ("amm", 10); ("governance", 10)];
    [("unknown", 50); ("governance", 20); ("amm", 20); ("nft", 10)];
    [("unknown", 100)] ].

(** Sum of the values of a confidence map. *)
Definition total (conf : list (string * Z)) : Z :=
  foldr (λ kv acc, snd kv + acc) 0 conf.

End BehaviorInferer.

(** ** RiskPredictor: [predictRisk] *)

Record RiskFactor := mkRiskFactor {
  factorIssue : string;
  factorDetails : string
}.

Record RiskPrediction := mkRiskPrediction {
  riskLikelihood : Z;
  prediction : string;
  riskFactors : list RiskFactor
}.

Module RiskPredictor.

Definition volatilityFactor : RiskFactor :=
  {| factorIssue := "High transaction volume volatility";
     factorDetails := "May indicate manipulative activity" |}.

Definition singleAuthorityFactor : RiskFactor :=
  {| factorIssue := "Single authority";
     factorDetails := "Increases risk of malicious upgrades" |}.

Definition lowSafetyFactor : RiskFactor :=
  {| factorIssue := "Low safety score";
     factorDetails := "Indicates multiple vulnerabilities" |}.

(** The mutable pair [(riskLikelihood, riskFactors)]. *)
Definition state : Type := Z * list RiskFactor.

(** [if (c) { riskFactors.push(f); riskLikelihood += d }]. *)
Definition rule (c : bool) (f : RiskFactor) (d : Z) (s : state) : state :=
  if c then (fst s + d, snd s ++ [f]) else s.

Definition predictRisk_try (authorityInsights : option (list AuthorityInsight))
    (transactionData : option TransactionData)
    (safetyAssessment : option SafetyAssessment) : option RiskPrediction :=
  auths ← authorityInsights;
  eco ← transactionData ≫= economicInsights;
  safety ← safetyAssessment;
  let s := (30, []) in
  vol ← transactionVolumeAnalysis eco;
  let s := rule (highVolatility vol) volatilityFactor 20 s in
  let s := rule (bool_decide (length auths = 1%nat)) singleAuthorityFactor 15 s in
  let s := rule (bool_decide (safetyScore safety < 50)) lowSafetyFactor 25 s in
  Some {| riskLikelihood := JS.min100 (fst s);
          prediction := if bool_decide (70 < fst s) then "High risk"
                        else "Low to moderate risk";
          riskFactors := snd s |}.

Definition fallback : RiskPrediction :=
  {| riskLikelihood := 30; prediction := "Low risk"; riskFactors := [] |}.

Definition predictRisk (authorityInsights : option (list AuthorityInsight))
    (transactionData : option TransactionData)
    (safetyAssessment : option SafetyAssessment) : RiskPrediction :=
  default fallback
    (predictRisk_try authorityInsights transactionData safetyAssessment).

End RiskPredictor.

(** ** Double-precision products

    The products [instructionCount * 0.1] and [instructionCount * 0.05] of
    the profiler are IEEE 754 binary64 products.  This module computes them
    bit for bit on non-negative values, so that the exact rational
    arithmetic used for them below can be checked against it. *)

Module Binary64.

(** A non-negative finite double, as the dyadic rational [num / 2 ^ scale]. *)
Record dyadic := mkDyadic {
  num : Z;
  scale : Z
}.

(** An integer below [2 ^ 53] is a double. *)
Definition ofZ (n : Z) : dyadic := {| num := n; scale := 0 |}.

(** The literals [0.1] and [0.05]: [0x3FB999999999999A] and
    [0x3FA999999999999A]. *)
Definition tenth : dyadic := {| num := 3602879701896397; scale := 55 |}.
Definition twentieth : dyadic := {| num := 3602879701896397; scale := 56 |}.

(** Keep the 53 leading bits of [N], rounding to nearest, ties to even. *)
Definition round53 (N : Z) : Z :=
  let k := Z.log2 N - 52 in
  if decide (k ≤ 0) then N
  else
    let q := N / 2 ^ k in
    let r := N mod 2 ^ k in
    let half := 2 ^ (k - 1) in
    (if decide (r < half) then q
     else if decide (half < r) then q + 1
     else if Z.even q then q else q + 1) * 2 ^ k.

(** [a * b]: the exact product, rounded. *)
Definition mul (a b : dyadic) : dyadic :=
  {| num := round53 (num a * num b); scale := scale a + scale b |}.

(** [Math.floor(a)] *)
Definition floor (a : dyadic) : Z := num a / 2 ^ scale a.

End Binary64.

(** ** BinaryProfiler: [analyzeBinary] (analyzer.js) *)

Module BinaryProfiler.

(** A [Buffer] is a list of bytes; [Buffer.from(s)] of an ASCII string is
    the list of its characters. *)
Definition Buffer : Type := list Byte.byte.

Definition bufferFrom (s : string) : Buffer := String.list_byte_of_string s.

(** [needle] occurs at the start of [hay]. *)
Fixpoint startsWith (needle hay : Buffer) : bool :=
  match needle, hay with
  | [], _ => true
  | n :: ns, h :: hs => Byte.eqb n h && startsWith ns hs
  | _ :: _, [] => false
  end.

(** [hay.includes(needle)]: a search for a contiguous occurrence. *)
Fixpoint includes (hay needle : Buffer) : bool :=
  startsWith needle hay ||
  match hay with
  | [] => false
  | _ :: hs => includes hs needle
  end.

Definition syscallSignatures : list (string * Buffer) :=
  [("sol_invoke", [Byte.x01; Byte.x00; Byte.x00]);
   ("sol_verify_signature", [Byte.x02; Byte.x00; Byte.x00]);
   ("sol_alloc_free", [Byte.x03; Byte.x00; Byte.x00])].

Definition detectSyscalls (binary : Buffer) : list string :=
  fst <$> filter (λ e, includes binary (snd e) = true) syscallSignatures.

Definition governanceProgram : string :=
  "GovER5Lthms3bLBqWub97yVrMmEogzX7xNjdXpPPCVZw".

Definition inferProgramType (address : string) (binary : Buffer) : string :=
  if bool_decide (address = governanceProgram) then "governance"
  else if includes binary (bufferFrom "swap") then "amm"
  else if includes binary (bufferFrom "mintNFT") then "nft"
  else "unknown".

(** [Math.floor(x)] on an exact rational. *)
Definition floor (x : Q) : Z := Qfloor x.

(** The [try] block of [analyzeBinary]; on a byte buffer none of its
    statements can raise, so the [catch] block is unreachable.  The division
    by 8 is exact in double precision; the two products are computed here on
    exact rationals, and [analyzeBinary_binary64] below shows that the
    double-precision products of [Binary64] give the same integers. *)
Definition analyzeBinary (binary : Buffer) (address : string) : Analysis :=
  let binarySize := Z.of_nat (length binary) in
  let instructionCount := floor (inject_Z binarySize / 8) in
  {| insights := Some
    {| instructions := Some instructionCount;
       syscalls := Some (detectSyscalls binary);
       suspectedType := Some (inferProgramType address binary);
       reentrancyRisk :=
         Some (if bool_decide (1000 < instructionCount) then "Moderate" else "Low");
       controlFlow := Some
         {| branches := floor (inject_Z instructionCount * (1 # 10));
            loops := floor (inject_Z instructionCount * (5 # 100)) |};
       usesBorsh := includes binary (bufferFrom "borsh");
       hiddenMint := includes binary (bufferFrom "mint");
       authorityHolders := Some ["8x7y...z9k2"];
       address := address |} |}.

(** [needle] occurs somewhere in [hay]. *)
Definition occursIn (needle hay : Buffer) : Prop :=
  ∃ pre post, hay = pre ++ needle ++ post.



End BinaryProfiler.

(** ** TransactionClassifier: [inferTransactionType] (transactions.js) *)

(** The part of a parsed transaction the classifier reads:
    [parsedTx.transaction.message.instructions]. *)
Record ParsedTx := mkParsedTx {
  messageInstructions : list Instruction
}.

Module TransactionClassifier.

Definition governanceProgram : string :=
  "GovER5Lthms3bLBqWub97yVrMmEogzX7xNjdXpPPCVZw".
Definition governanceProgram2 : string :=
  "SMPLecHpvtyTWca6gwQLoCFN33w41rmatZTxM4W3fS7".
Definition tokenProgram : string :=
  "TokenkegQfeZyiNwAJbNbGKPFXCWuBvf9Ss623VQ5DA".
Definition raydium : string :=
  "675kPX9MHTjS2zt1qfr1NYHuzeLXfQM9H24wFSUt1Mp8".
Definition pumpFun : string :=
  "pAMMBay6oceH9fJKBRHGP5D4bD4sWpmSwMn52FMfXEA".
Definition metaplex : string :=
  "metaqbxxUerdq28cj1RbAWkYQm3ybzjb6a8bt518x1s".

(** [ix.parsed?.type]. *)
Definition typeOf (ix : Instruction) : option string :=
  parsed ix ≫= parsedType.

Definition isGovernance (ix : Instruction) : bool :=
  bool_decide (programId ix = governanceProgram)
  || bool_decide (programId ix = governanceProgram2)
  || bool_decide (typeOf ix = Some "createProposal")
  || bool_decide (typeOf ix = Some "vote").

Definition isToken (ix : Instruction) : bool :=
  bool_decide (programId ix = tokenProgram).

Definition isSwap (programAddress : string) (ix : Instruction) : bool :=
  bool_decide (programId ix ∈ [raydium; pumpFun; programAddress]).

Definition isNft (ix : Instruction) : bool :=
  bool_decide (programId ix = metaplex)
  || bool_decide (typeOf ix = Some "mintNFT").

Definition isSelf (programAddress : string) (ix : Instruction) : bool :=
  bool_decide (programId ix = programAddress).

(** The three parsed instruction types the token block turns into a
    transaction kind. *)
Definition tokenKinds : list string := ["transfer"; "mint"; "burn"].

(** The token block: the value it returns, or [None] when control falls
    through to the statements after it. *)
Definition tokenBlock (instructions : list Instruction) : option string :=
  if existsb isToken instructions then
    tokenIx ← find isToken instructions;
    if bool_decide (typeOf tokenIx = Some "transfer") then Some "transfer"
    else if bool_decide (typeOf tokenIx = Some "mint") then Some "mint"
    else if bool_decide (typeOf tokenIx = Some "burn") then Some "burn"
    else None
  else None.

Definition inferTransactionType (parsedTx : option ParsedTx)
    (programAddress : string) : string :=
  match parsedTx with
  | None => "unknown"
  | Some tx =>
    let instructions := messageInstructions tx in
    if existsb isGovernance instructions then "governance"
    else match tokenBlock instructions with
    | Some kind => kind
    | None =>
      if existsb (isSwap programAddress) instructions then "swap"
      else if existsb isNft instructions then "nft_mint"
      else if existsb (isSelf programAddress) instructions then "custom"
      else "unknown"
    end
  end.

End TransactionClassifier.

(** ** Fetching with retries: [getRecentTransactions] (transactions.js) *)

Module TransactionFetcher.

(** What one iteration of the retry loop observes: the HTTP answer is a 429,
    or some statement of the [try] block raises (the fetch, a non-OK
    status, a malformed body, a failing follow-up request), or the block
    runs to its end and computes [result]. *)
Inductive Attempt :=
  | RateLimited
  | Raised
  | Completed (result : TransactionData).

(** A call either returns or raises to its caller. *)
Inductive Outcome (A : Type) :=
  | Returned (a : A)
  | Thrown (message : string).
Global Arguments Returned {A} a.
Global Arguments Thrown {A} message.

Record Options := mkOptions {
  limit : option Z;
  timeframe : option string
}.

Definition maxRetries : nat := 5.
Definition retryDelays : list Z := [1000; 2000; 4000; 8000; 16000].

Definition zeroStat : TypeStat := {| count := JS.ofZ 0; volumeSOL := JS.ofZ 0 |}.

Definition createFallback : TransactionData :=
  {| transactions := Some [];
     economicInsights := Some
       {| totalVolumeSOL := JS.ofZ 0;
          averageFeeSOL := JS.ofZ 0;
          transactionCount := JS.ofZ 0;
          transactionTypes := Some
            {| swaps := Some zeroStat;
               transfers := Some zeroStat;
               mints := Some zeroStat;
               burns := Some zeroStat;
               governance := Some zeroStat;
               nftMints := Some zeroStat;
               others := Some zeroStat |};
          suspiciousVolume := JS.ofZ 0;
          tokenFlowInsights := Some
            {| topOutflows := []; topInflows := []; concentrationRisk := false |};
          transactionVolumeAnalysis := Some
            {| meanVolumeSOL := JS.ofZ 0;
               stdDevVolumeSOL := JS.ofZ 0;
               highVolatility := false |} |} |}.

(** The module-level cache, and what a call leaves behind: the value it
    returns, the cache afterwards and the delays (in ms) it waited. *)
Record Run := mkRun {
  returned : TransactionData;
  cacheAfter : gmap string TransactionData;
  slept : list Z
}.

(** [await new Promise(resolve => setTimeout(resolve, retryDelays[attempt]))] *)
Definition delay (attempt : nat) : Z := default 0 (retryDelays !! attempt).

(** The [for (let attempt = 0; attempt <= maxRetries; attempt++)] loop,
    entered at [attempt] with [remaining] iterations left
    ([remaining = maxRetries + 1 - attempt]).  [source attempt] is what the
    iteration observes. *)
Fixpoint attemptLoop (source : nat → Attempt) (cacheKey : string)
    (cache : gmap string TransactionData) (waited : list Z)
    (remaining attempt : nat) : Run :=
  match remaining with
  | O =>
    (* "Unexpected exit in transaction fetch" *)
    {| returned := createFallback; cacheAfter := cache; slept := waited |}
  | S remaining' =>
    match source attempt with
    | RateLimited =>
      if bool_decide (attempt = maxRetries) then
        (* throws inside [try]; the [catch] sees [attempt === maxRetries] *)
        {| returned := createFallback; cacheAfter := cache; slept := waited |}
      else
        attemptLoop source cacheKey cache (waited ++ [delay attempt])
          remaining' (S attempt)
    | Raised =>
      if bool_decide (attempt = maxRetries) then
        {| returned := createFallback; cacheAfter := cache; slept := waited |}
      else
        attemptLoop source cacheKey cache (waited ++ [delay attempt])
          remaining' (S attempt)
    | Completed result =>
      {| returned := result;
         cacheAfter := <[cacheKey := result]> cache;
         slept := waited |}
    end
  end.

(** [!apiKey]: unset or empty. *)
Definition missing (apiKey : option string) : bool :=
  match apiKey with
  | None => true
  | Some k => bool_decide (k = "")
  end.

Definition cacheKeyOf (address : string) (limit : Z) (timeframe : string) : string :=
  "tx_" +:+ address +:+ "_" +:+ pretty limit +:+ "_" +:+ timeframe.

Definition getRecentTransactions (apiKey : option string)
    (cache : gmap string TransactionData) (source : nat → Attempt)
    (address : string) (options : Options) : Outcome Run :=
  let limit := default 10 (limit options) in
  let timeframe := default "7d" (timeframe options) in
  if missing apiKey then Thrown "HELIUS_API_KEY not set in .env"
  else
    let cacheKey := cacheKeyOf address limit timeframe in
    match cache !! cacheKey with
    | Some cached =>
      Returned {| returned := cached; cacheAfter := cache; slept := [] |}
    | None =>
      Returned (attemptLoop source cacheKey cache [] (S maxRetries) 0)
    end.

(** A data source whose first [n] calls fail, by a 429 answer or by an
    exception. *)
Definition failsFirst (n : nat) (source : nat → Attempt) : Prop :=
  ∀ i, (i < n)%nat → source i = RateLimited ∨ source i = Raised.

(** A data source whose first [n] calls fail and whose next call
    completes with [result]. *)
Definition failsThenSucceeds (n : nat) (result : TransactionData)
    (source : nat → Attempt) : Prop :=
  failsFirst n source ∧ source n = Completed result.

(** The delays waited after attempts [attempt], ..., [attempt + k - 1]. *)
Definition delaysFrom (attempt k : nat) : list Z := delay <$> seq attempt k.

End TransactionFetcher.

(** ** CallGraphBuilder: [reconstructCallGraph] *)

Module CallGraphBuilder.

(** [nodes.add(n)] on a [Set], which keeps insertion order. *)
Definition addNode (n : string) (nodes : list string) : list string :=
  if bool_decide (n ∈ nodes) then nodes else nodes ++ [n].

(** The mutable pair [(nodes, edges)]. *)
Definition state : Type := list string * list Edge.

(** A loop in the [option] monad: the first exception ends it. *)
Fixpoint forEach {A S : Type} (body : S → A → option S) (l : list A) (s : S)
    : option S :=
  match l with
  | [] => Some s
  | x :: l' => s' ← body s x; forEach body l' s'
  end.

(** The body of the inner [forEach], for an instruction of a transaction
    of type [action]. *)
Definition visitInstruction (action : string) (s : state) (ix : Instruction)
    : option state :=
  match accounts ix with
  | Some accs =>
    if bool_decide (2 ≤ length accs)%nat then
      from ← accs !! 0%nat ≫= toBase58;
      to ← accs !! 1%nat ≫= toBase58;
      Some (addNode to (addNode from (fst s)),
            snd s ++ [{| from := from; to := to; action := action; edgeCount := 1 |}])
    else Some s
  | None => Some s
  end.

(** The body of the outer [forEach]. *)
Definition visitTransaction (s : state) (tx : Transaction) : option state :=
  ixs ← txInstructions tx;
  forEach (visitInstruction (txType tx)) ixs s.

(** The body of the [try] block ([transactionData] is the parameter the
    source calls [transactions]). *)
Definition reconstructCallGraph_try (analysis : option Analysis)
    (transactionData : option TransactionData) : option CallGraph :=
  ins ← analysis ≫= insights;
  txs ← transactionData ≫= transactions;
  s ← forEach visitTransaction txs ([address ins], []);
  Some {| nodes := fst s; edges := snd s |}.

Definition fallback : CallGraph := {| nodes := []; edges := [] |}.

Definition reconstructCallGraph (analysis : option Analysis)
    (transactionData : option TransactionData) : CallGraph :=
  default fallback (reconstructCallGraph_try analysis transactionData).

(** What a sequence of visits does to the state, given the edges [es] it
    pushes: both endpoints of each edge are added to the node set. *)
Definition addEndpoints (es : list Edge) (nodes : list string) : list string :=
  foldl (λ ns e, addNode (to e) (addNode (from e) ns)) nodes es.

Definition pushEdges (es : list Edge) (s : state) : state :=
  (addEndpoints es (fst s), snd s ++ es).

(** The edges pushed while visiting the elements of [l], when [eff] gives
    those of one element; [None] when a visit raises. *)
Fixpoint gather {A : Type} (eff : A → option (list Edge)) (l : list A)
    : option (list Edge) :=
  match l with
  | [] => Some []
  | x :: l' => es ← eff x; es' ← gather eff l'; Some (es ++ es')
  end.

Definition instructionEdges (action : string) (ix : Instruction)
    : option (list Edge) :=
  snd <$> visitInstruction action ([], []) ix.

Definition transactionEdges (tx : Transaction) : option (list Edge) :=
  ixs ← txInstructions tx; gather (instructionEdges (txType tx)) ixs.

(** The endpoints of a list of edges, as a set. *)
Definition endpoints (es : list Edge) : gset string :=
  list_to_set (flat_map (λ e, [from e; to e]) es).

(** Well-formed transactions: the instruction list is present and the first
    two accounts of every instruction that has two are public keys. *)
Definition wfInstruction (ix : Instruction) : Prop :=
  ∀ accs, accounts ix = Some accs → (2 ≤ length accs)%nat →
    ∃ a b rest, accs = PublicKey a :: PublicKey b :: rest.

Definition wfTransaction (tx : Transaction) : Prop :=
  ∃ ixs, txInstructions tx = Some ixs ∧ Forall wfInstruction ixs.

End CallGraphBuilder.

(** ** EconomicAggregator: the aggregation of [analyzeTokenFlows]
    (transactions.js) *)

Module EconomicAggregator.

Global Instance FlowType_eq_dec : EqDecision FlowType.
Proof. solve_decision. Defined.




















End EconomicAggregator.

(** ** Building the transactions of one fetch and their economic summary:
    the body of the retry loop of [getRecentTransactions] (transactions.js) *)

(** [parsedTx.meta]: the balances of the accounts before and after the
    transaction and the fee, all in lamports. *)
Record Meta := mkMeta {
  preBalances : list Z;
  postBalances : list Z;
  metaFee : option Z
}.

(** What [connection.getParsedTransaction] resolves to when it is not
    [null]: the parsed transaction and its [meta] property. *)
Record ParsedResponse := mkParsedResponse {
  parsedBody : ParsedTx;
  parsedMeta : option Meta
}.

Module TransactionBuilder.

(** The literal [1e9]. *)
Definition lamportsPerSol : Q := 1000000000.

(** [parsedTx?.meta
      ? Math.abs((meta.preBalances[0] - meta.postBalances[0]) / 1e9) || 0 : 0];
    a missing balance makes the difference [NaN], which [|| 0] replaces. *)
Definition volumeOf (parsedTx : option ParsedResponse) : Q :=
  match parsedTx ≫= parsedMeta with
  | Some meta =>
    match preBalances meta !! 0%nat, postBalances meta !! 0%nat with
    | Some pre, Some post => Qabs ((inject_Z pre - inject_Z post) / lamportsPerSol)
    | _, _ => 0
    end
  | None => 0
  end.

(** [parsedTx?.meta?.fee / 1e9 || 0] *)
Definition feeOf (parsedTx : option ParsedResponse) : Q :=
  match (parsedTx ≫= parsedMeta) ≫= metaFee with
  | Some fee => inject_Z fee / lamportsPerSol
  | None => 0
  end.

(** [parsedTx?.transaction.message.instructions || []] *)
Definition instructionsOf (parsedTx : option ParsedResponse) : list Instruction :=
  match parsedTx with
  | Some response => messageInstructions (parsedBody response)
  | None => []
  end.

(** [!parsedTx?.transaction.message.instructions.some(ix =>
       ix.programId.toBase58() === 'Tokenkeg...')] *)
Definition isNonStandardOf (parsedTx : option ParsedResponse) : bool :=
  match parsedTx with
  | Some response =>
    negb (existsb TransactionClassifier.isToken
            (messageInstructions (parsedBody response)))
  | None => true
  end.

(** The object built for one signature by the callback of [txs.map]. *)
Definition buildTransaction (address : string) (signature : string)
    (parsedTx : option ParsedResponse) : Transaction :=
  {| signature := signature;
     txInstructions := Some (instructionsOf parsedTx);
     isNonStandard := isNonStandardOf parsedTx;
     txType := TransactionClassifier.inferTransactionType
                 (parsedBody <$> parsedTx) address;
     txVolumeSOL := volumeOf parsedTx;
     txFee := feeOf parsedTx |}.

(** [txs.reduce((sum, tx) => sum + (tx.meta.volumeSOL || 0), 0)] *)
Definition sumVolumes (txs : list Transaction) : Q :=
  foldl (λ sum tx, sum + txVolumeSOL tx)%Q 0%Q txs.

(** [txs.reduce((sum, tx) => sum + (tx.meta.fee || 0), 0)] *)
Definition sumFees (txs : list Transaction) : Q :=
  foldl (λ sum tx, sum + txFee tx)%Q 0%Q txs.

(** [txs.length] and [txs.length || 1] as numbers. *)
Definition lengthOf (txs : list Transaction) : Z := Z.of_nat (length txs).

Definition lengthOr1 (txs : list Transaction) : Z :=
  if bool_decide (lengthOf txs = 0) then 1 else lengthOf txs.

(** [transactions.filter(tx => tx.type === k || ...)], for the kinds [k]
    of [kinds]. *)
Definition ofKinds (kinds : list string) (txs : list Transaction)
    : list Transaction :=
  filter (λ tx, txType tx ∈ kinds) txs.

(** [{ count: selected.length, volumeSOL: selected.reduce(...) }] *)
Definition typeStatOf (kinds : list string) (txs : list Transaction) : TypeStat :=
  {| count := JS.ofZ (lengthOf (ofKinds kinds txs));
     volumeSOL := Some (sumVolumes (ofKinds kinds txs)) |}.

(** [transactions.filter(tx => tx.isNonStandard)] *)
Definition nonStandard (txs : list Transaction) : list Transaction :=
  filter (λ tx, isNonStandard tx = true) txs.

(** [volumes.length ? volumes.reduce(...) / volumes.length : 0] *)
Definition meanVolumeOf (txs : list Transaction) : Q :=
  if bool_decide (lengthOf txs = 0) then 0%Q
  else (sumVolumes txs / inject_Z (lengthOf txs))%Q.

(** The object literal [economicInsights].  [tokenFlowInsights] is the
    result of [analyzeTokenFlows] and [stdDevVolumeSOL] the value of the
    [Math.sqrt] expression, both computed by the statements before it. *)
Definition economicInsightsOf (txs : list Transaction)
    (tokenFlowInsights : TokenFlowInsights) (stdDevVolumeSOL : Q)
    : EconomicInsights :=
  {| totalVolumeSOL := Some (sumVolumes txs);
     averageFeeSOL := Some (sumFees txs / inject_Z (lengthOr1 txs))%Q;
     transactionCount := JS.ofZ (lengthOf txs);
     transactionTypes := Some
       {| swaps := Some (typeStatOf ["swap"] txs);
          transfers := Some (typeStatOf ["transfer"] txs);
          mints := Some (typeStatOf ["mint"] txs);
          burns := Some (typeStatOf ["burn"] txs);
          governance := Some (typeStatOf ["governance"] txs);
          nftMints := Some (typeStatOf ["nft_mint"] txs);
          others := Some (typeStatOf ["unknown"; "custom"] txs) |};
     suspiciousVolume := Some (sumVolumes (nonStandard txs));
     tokenFlowInsights := Some tokenFlowInsights;
     transactionVolumeAnalysis := Some
       {| meanVolumeSOL := Some (meanVolumeOf txs);
          stdDevVolumeSOL := Some stdDevVolumeSOL;
          highVolatility :=
            JS.Qgtb stdDevVolumeSOL (meanVolumeOf txs * (1 # 2))%Q |} |}.

(** [const result = { transactions, economicInsights }] *)
Definition resultOf (txs : list Transaction)
    (tokenFlowInsights : TokenFlowInsights) (stdDevVolumeSOL : Q)
    : TransactionData :=
  {| transactions := Some txs;
     economicInsights :=
       Some (economicInsightsOf txs tokenFlowInsights stdDevVolumeSOL) |}.

(** The transactions built from the answers to the signatures of one
    fetch, each a signature with what [getParsedTransaction] resolved to. *)
Definition buildAll (address : string)
    (answers : list (string * option ParsedResponse)) : list Transaction :=
  (λ answer, buildTransaction address (fst answer) (snd answer)) <$> answers.

(** The eight strings [inferTransactionType] can return, in source order. *)
Definition kinds : list string :=
  ["governance"; "transfer"; "mint"; "burn"; "swap"; "nft_mint"; "custom";
   "unknown"].

End TransactionBuilder.

(** ** FeeAnalyzer: [analyzeFees] (transactions.js) *)

Module FeeAnalyzer.

(** An entry of [manipulation]: [issue] is the literal ['Fee Spike'];
    [details] is a text made of the fee and of the average, which are kept
    here as the two numbers. *)
Record FeeSpike := mkFeeSpike {
  spikeIssue : string;
  spikeSignature : string;
  spikeFee : Q;
  spikeAverage : Q
}.

Record FeeAnalysis := mkFeeAnalysis {
  totalTransactions : Z;
  averageFeeSOL : Q;
  hiddenFees : list FeeSpike;
  manipulation : list FeeSpike
}.

(** [{ signature: tx.signature, fee: tx.meta?.fee / 1e9 || 0 }] *)
Definition feeEntry (tx : Transaction) : string * Q :=
  (signature tx, (txFee tx / TransactionBuilder.lamportsPerSol)%Q).

(** [fees.reduce((sum, tx) => sum + tx.fee, 0)] *)
Definition sumEntries (fees : list (string * Q)) : Q :=
  foldl (λ sum entry, sum + snd entry)%Q 0%Q fees.

(** [fees.length || 1] *)
Definition lengthOr1 (fees : list (string * Q)) : Z :=
  if bool_decide (length fees = 0%nat) then 1 else Z.of_nat (length fees).

(** The statements of the [try] block after the transactions have been
    fetched. *)
Definition summarize (txs : list Transaction) : FeeAnalysis :=
  let fees := feeEntry <$> txs in
  let average := (sumEntries fees / inject_Z (lengthOr1 fees))%Q in
  let feeThreshold := (average * 3)%Q in
  {| totalTransactions := Z.of_nat (length txs);
     averageFeeSOL := average;
     hiddenFees := [];
     manipulation :=
       (λ entry, {| spikeIssue := "Fee Spike";
                    spikeSignature := fst entry;
                    spikeFee := snd entry;
                    spikeAverage := average |})
       <$> filter (λ entry, JS.Qgtb (snd entry) feeThreshold = true) fees |}.

Definition fallback : FeeAnalysis :=
  {| totalTransactions := 0; averageFeeSOL := 0; hiddenFees := [];
     manipulation := [] |}.

(** [analyzeFees(address, options)]: the fetch is that of
    [getRecentTransactions] with the limit of the options (25 when absent)
    and the default time frame; what it raises, and a result without a
    transaction list, end in the [catch] block.  The cache that the fetch
    leaves behind is that of [getRecentTransactions]. *)
Definition analyzeFees (apiKey : option string)
    (cache : gmap string TransactionData)
    (source : nat → TransactionFetcher.Attempt)
    (address : string) (limit : option Z) : FeeAnalysis :=
  match TransactionFetcher.getRecentTransactions apiKey cache source address
          {| TransactionFetcher.limit := Some (default 25 limit);
             TransactionFetcher.timeframe := None |} with
  | TransactionFetcher.Returned run =>
    match transactions (TransactionFetcher.returned run) with
    | Some txs => summarize txs
    | None => fallback
    end
  | TransactionFetcher.Thrown _ => fallback
  end.

End FeeAnalyzer.

(** ** GovernanceInferer: [inferGovernance] (governanceInferer.js) *)

Record Governance := mkGovernance {
  governanceType : string;
  trustScore : Z;
  details : list string
}.

Module GovernanceInferer.

(** [callGraph.edges.some(edge => edge.action === 'governance')] *)
Definition votingObserved (callGraph : CallGraph) : bool :=
  existsb (λ edge, bool_decide (action edge = "governance")) (edges callGraph).

Definition inferGovernance_try (authorityInsights : option (list AuthorityInsight))
    (callGraph : option CallGraph) : option Governance :=
  auths ← authorityInsights;
  graph ← callGraph;
  let several := bool_decide (1 < length auths)%nat in
  let governanceType := if several then "Decentralized" else "Centralized" in
  let trustScore := if several then 70 else 50 in
  let details :=
    if several then ["Multiple authorities detected"]
    else ["Single authority detected"] in
  let s :=
    if votingObserved graph
    then (trustScore + 10, details ++ ["Voting interactions observed"])
    else (trustScore, details) in
  Some {| governanceType := governanceType;
          trustScore := JS.min100 (fst s);
          details := snd s |}.

Definition fallback : Governance :=
  {| governanceType := "Unknown"; trustScore := 50; details := [] |}.

Definition inferGovernance (authorityInsights : option (list AuthorityInsight))
    (callGraph : option CallGraph) : Governance :=
  default fallback (inferGovernance_try authorityInsights callGraph).

End GovernanceInferer.

(** ** RiskAssessor: [assessRisks] (riskAssessor.js) *)

(** A finding of the vulnerability scan:
    [{ type, severity, details, confidence }], with an optional
    [mitigation]. *)
Record Vulnerability := mkVulnerability {
  vulnType : string;
  severity : string;
  vulnDetails : string;
  vulnMitigation : option string;
  confidence : string
}.

Module RiskAssessor.

(** The callback of [vulnerabilities.map]. *)
Definition riskOf (vuln : Vulnerability) : Risk :=
  {| issue := "Vulnerability: " +:+ vulnType vuln;
     implication := vulnDetails vuln;
     mitigation := "Address " +:+ severity vuln +:+ " issue" |}.

Definition reentrancyRiskEntry : Risk :=
  {| issue := "Potential reentrancy risk";
     implication := "May allow unauthorized state changes";
     mitigation := "Audit for reentrancy guards" |}.

Definition instructionCountRisk : Risk :=
  {| issue := "High instruction count";
     implication := "Increased complexity may hide bugs";
     mitigation := "Conduct deep dive analysis" |}.

(** [reentrancyRisk === 'Moderate' || reentrancyRisk === 'High'] *)
Definition reentrancySignal (ins : Insights) : bool :=
  bool_decide (reentrancyRisk ins = Some "Moderate")
  || bool_decide (reentrancyRisk ins = Some "High").

(** [if (c) risks.push(r)] *)
Definition pushIf (c : bool) (r : Risk) (risks : list Risk) : list Risk :=
  if c then risks ++ [r] else risks.

(** The [try] block.  The dashboard calls the function without its second
    argument, so [vulnerabilities] can be missing; [.map] then raises. *)
Definition assessRisks_try (analysis : option Analysis)
    (vulnerabilities : option (list Vulnerability)) : option (list Risk) :=
  ins ← analysis ≫= insights;
  vulns ← vulnerabilities;
  let risks := riskOf <$> vulns in
  let risks := pushIf (reentrancySignal ins) reentrancyRiskEntry risks in
  let risks :=
    pushIf (BehaviorInferer.instructionsAbove 1000 ins) instructionCountRisk
      risks in
  Some risks.

Definition assessRisks (analysis : option Analysis)
    (vulnerabilities : option (list Vulnerability)) (address : string)
    : list Risk :=
  default [] (assessRisks_try analysis vulnerabilities).

End RiskAssessor.

(** ** AuditReport: [generateAuditReport] (auditReport.js) *)

Module AuditReport.

(** [{ critical, high, moderate, low }] *)
Record RiskBreakdown := mkRiskBreakdown {
  critical : Z;
  high : Z;
  moderate : Z;
  low : Z
}.

(** An entry of [prioritizedRisks]: [{ type, severity, details, mitigation }]. *)
Record PrioritizedRisk := mkPrioritizedRisk {
  riskType : string;
  riskSeverity : string;
  riskDetails : string;
  riskMitigation : option string
}.

Record Recommendation := mkRecommendation {
  priority : string;
  recommendedAction : string;
  link : option string
}.

(** The report, without the properties that are texts of formatted numbers
    or of the clock ([timestamp], [executiveSummary.programType] and
    [.keyFindings], the [toFixed] texts of [economicAnalysis], [metadata])
    and without those that copy an argument unchanged.  The properties of
    the nested objects are named after their path. *)
Record Report := mkReport {
  programAddress : string;
  summaryScore : Z;
  riskLevel : string;
  riskScoreBreakdown : RiskBreakdown;
  prioritizedRisks : list PrioritizedRisk;
  totalRisks : Z;
  binarySize : option Z;
  controlFlowComplexity : string;
  dependencies : list string;
  interactionComplexity : string;
  recommendations : list Recommendation
}.

(** [hay.includes(needle)] on strings. *)
Fixpoint includes (hay needle : string) : bool :=
  String.prefix needle hay ||
  match hay with
  | EmptyString => false
  | String _ hay' => includes hay' needle
  end.

(** [vulnerabilities.filter(v => v.severity === s)] *)
Definition ofSeverity (s : string) (vulnerabilities : list Vulnerability)
    : list Vulnerability :=
  filter (λ v, severity v = s) vulnerabilities.

(** [risks.filter(r => r.implication.includes('malicious'))] and its
    complement. *)
Definition malicious (risks : list Risk) : list Risk :=
  filter (λ r, includes (implication r) "malicious" = true) risks.

Definition notMalicious (risks : list Risk) : list Risk :=
  filter (λ r, negb (includes (implication r) "malicious") = true) risks.

(** [l.length] as a number. *)
Definition lengthZ {A} (l : list A) : Z := Z.of_nat (length l).

Definition breakdownOf (vulnerabilities : list Vulnerability)
    (safetyAssessment : SafetyAssessment) : RiskBreakdown :=
  {| critical := lengthZ (ofSeverity "Critical" vulnerabilities);
     high := lengthZ (ofSeverity "High" vulnerabilities)
             + lengthZ (malicious (risks safetyAssessment));
     moderate := lengthZ (ofSeverity "Moderate" vulnerabilities)
                 + lengthZ (notMalicious (risks safetyAssessment));
     low := lengthZ (ofSeverity "Low" vulnerabilities) |}.

Definition ofVulnerability (v : Vulnerability) : PrioritizedRisk :=
  {| riskType := vulnType v;
     riskSeverity := severity v;
     riskDetails := vulnDetails v;
     riskMitigation := vulnMitigation v |}.

Definition ofRisk (s : string) (r : Risk) : PrioritizedRisk :=
  {| riskType := issue r;
     riskSeverity := s;
     riskDetails := implication r;
     riskMitigation := Some (mitigation r) |}.

Definition prioritize (vulnerabilities : list Vulnerability)
    (safetyAssessment : SafetyAssessment) : list PrioritizedRisk :=
  (ofVulnerability <$> ofSeverity "High" vulnerabilities)
  ++ (ofRisk "High" <$> malicious (risks safetyAssessment))
  ++ (ofVulnerability <$> ofSeverity "Moderate" vulnerabilities)
  ++ (ofRisk "Moderate" <$> notMalicious (risks safetyAssessment)).

Definition riskLevelOf (score : Z) : string :=
  if bool_decide (score < 50) then "High"
  else if bool_decide (score < 80) then "Moderate"
  else "Low".

Definition recommendationsOf (ins : Insights)
    (vulnerabilities : list Vulnerability) : list Recommendation :=
  [ {| priority := "High";
       recommendedAction := "Monitor program updates on Solscan.";
       link := Some ("https://solscan.io/account/" +:+ address ins +:+ "#events") |};
    {| priority := if bool_decide (suspectedType ins = Some "governance")
                   then "High" else "Moderate";
       recommendedAction := "Verify governance or token logic on-chain.";
       link := Some ("https://solscan.io/account/" +:+ address ins) |};
    {| priority := if bool_decide (0 < length vulnerabilities)%nat
                   then "High" else "Moderate";
       recommendedAction := "Address detected vulnerabilities.";
       link := None |} ].

(** The [try] block.  Besides the three tested objects it needs every value
    it reads a property of or calls a method of: the program type
    ([toUpperCase]), the two volumes and the fee it formats ([toFixed], of
    a number that is not [undefined]) and the control flow. *)
Definition generateAuditReport_try (analysis : option Analysis)
    (authorityInsights : list AuthorityInsight)
    (transactionData : option TransactionData) (callGraph : CallGraph)
    (vulnerabilities : list Vulnerability)
    (safetyAssessment : option SafetyAssessment) : option Report :=
  ins ← analysis ≫= insights;
  eco ← transactionData ≫= economicInsights;
  safety ← safetyAssessment;
  let vulns := vulnerabilities in
  programType ← suspectedType ins;
  totalVolume ← totalVolumeSOL eco;
  cf ← controlFlow ins;
  averageFee ← averageFeeSOL eco;
  suspicious ← suspiciousVolume eco;
  let prioritizedRisks := prioritize vulns safety in
  Some {| programAddress := address ins;
          summaryScore := safetyScore safety;
          riskLevel := riskLevelOf (safetyScore safety);
          riskScoreBreakdown := breakdownOf vulns safety;
          prioritizedRisks := prioritizedRisks;
          totalRisks := lengthZ prioritizedRisks;
          binarySize := (λ n, n * 8) <$> instructions ins;
          controlFlowComplexity :=
            if bool_decide (70 < branches cf + loops cf) then "High"
            else "Moderate";
          dependencies := filter (λ node, node ≠ address ins) (nodes callGraph);
          interactionComplexity :=
            if bool_decide (50 < length (edges callGraph))%nat then "High"
            else if bool_decide (20 < length (edges callGraph))%nat then "Moderate"
            else "Low";
          recommendations := recommendationsOf ins vulns |}.

(** [analysis?.insights?.address || 'unknown'] *)
Definition addressOrUnknown (analysis : option Analysis) : string :=
  match analysis ≫= insights with
  | Some ins => if bool_decide (address ins = "") then "unknown" else address ins
  | None => "unknown"
  end.

(** The report of the [catch] block. *)
Definition fallback (analysis : option Analysis) : Report :=
  {| programAddress := addressOrUnknown analysis;
     summaryScore := 50;
     riskLevel := "Moderate";
     riskScoreBreakdown := {| critical := 0; high := 0; moderate := 0; low := 0 |};
     prioritizedRisks := [];
     totalRisks := 0;
     binarySize := Some 0;
     controlFlowComplexity := "Low";
     dependencies := [];
     interactionComplexity := "Low";
     recommendations := [] |}.

Definition generateAuditReport (analysis : option Analysis)
    (authorityInsights : list AuthorityInsight)
    (transactionData : option TransactionData) (callGraph : CallGraph)
    (vulnerabilities : list Vulnerability)
    (safetyAssessment : option SafetyAssessment) : Report :=
  default (fallback analysis)
    (generateAuditReport_try analysis authorityInsights transactionData
       callGraph vulnerabilities safetyAssessment).

End AuditReport.

(** ** IdlGenerator and DeepDive: [generateIDL] and [deepDiveAnalysis]
    (updateAnalyzer.js) *)

(** [ix.parsed?.type || 'unknown'] *)
Definition parsedTypeOrUnknown (ix : Instruction) : string :=
  match TransactionClassifier.typeOf ix with
  | Some t => if bool_decide (t = "") then "unknown" else t
  | None => "unknown"
  end.

(** [{ name, type }], [{ name, args, returns }] and
    [{ version, name, instructions }]. *)
Record IdlArg := mkIdlArg {
  argName : string;
  argType : string
}.

Record IdlInstruction := mkIdlInstruction {
  instructionName : string;
  args : list IdlArg;
  returns : string
}.

Record Idl := mkIdl {
  version : string;
  idlName : string;
  idlInstructions : list IdlInstruction
}.

Module IdlGenerator.

(** [tx.instructions.map((ix, i) => ({ name: `arg${i}`, type: ... }))] *)
Definition argsOf (ixs : list Instruction) : list IdlArg :=
  imap (λ i ix, {| argName := "arg" +:+ pretty i;
                   argType := parsedTypeOrUnknown ix |}) ixs.

(** [tx.type === 'governance' ? `governanceInstruction${index}`
                              : `instruction${index}`] *)
Definition nameOf (tx : Transaction) (index : nat) : string :=
  if bool_decide (txType tx = "governance")
  then "governanceInstruction" +:+ pretty index
  else "instruction" +:+ pretty index.

(** [transactions.map((tx, index) => ...)], from the index [index] on; a
    transaction without instruction list raises. *)
Fixpoint mapFrom (index : nat) (txs : list Transaction)
    : option (list IdlInstruction) :=
  match txs with
  | [] => Some []
  | tx :: txs' =>
    ixs ← txInstructions tx;
    rest ← mapFrom (S index) txs';
    Some ({| instructionName := nameOf tx index;
             args := argsOf ixs;
             returns := "void" |} :: rest)
  end.

(** [analysis.insights.suspectedType || 'unknown'] *)
Definition programName (ins : Insights) : string :=
  match suspectedType ins with
  | Some t => if bool_decide (t = "") then "unknown" else t
  | None => "unknown"
  end.

Definition generateIDL_try (analysis : option Analysis)
    (transactionData : option TransactionData) : option Idl :=
  ins ← analysis ≫= insights;
  txs ← transactionData ≫= transactions;
  all ← mapFrom 0 txs;
  Some {| version := "0.1.0";
          idlName := programName ins;
          idlInstructions := take 5 all |}.

Definition fallback : Idl :=
  {| version := "0.1.0"; idlName := "unknown"; idlInstructions := [] |}.

Definition generateIDL (analysis : option Analysis)
    (transactionData : option TransactionData) : Idl :=
  default fallback (generateIDL_try analysis transactionData).

End IdlGenerator.

Record Anomaly := mkAnomaly {
  anomalyIssue : string;
  anomalyDetails : string
}.

(** [{ instructionFrequency, anomalies }]; the frequency object is used as
    a map from the parsed instruction types to their counts. *)
Record DeepDiveResult := mkDeepDiveResult {
  instructionFrequency : gmap string Z;
  anomalies : list Anomaly
}.

Module DeepDive.





(** [if (c) anomalies.push(a)] *)
Definition pushIf (c : bool) (a : Anomaly) (l : list Anomaly) : list Anomaly :=
  if c then l ++ [a] else l.


Definition fallback : DeepDiveResult :=
  {| instructionFrequency := ∅; anomalies := [] |}.




End DeepDive.

(** ** The second [predictRisk] (predictRisk.js) *)

(** An authority insight as this variant reads it: it has a [warnings]
    list, which the entries built by [analyzeAuthorityHolders] lack. *)
Record AuthorityReport := mkAuthorityReport {
  reportedAuthority : string;
  warnings : option (list string)
}.

Module RiskPredictorVariant.

(** The function rethrows what its [try] block raises: a call is fulfilled
    with a value or rejected. *)
Inductive Completion (A : Type) :=
  | Fulfilled (a : A)
  | Rejected.
Global Arguments Fulfilled {A} a.
Global Arguments Rejected {A}.

Definition lowSafetyFactor : RiskFactor :=
  {| factorIssue := "Low Safety Score";
     factorDetails := "Program has high risk of scams or bugs" |}.

Definition suspiciousVolumeFactor : RiskFactor :=
  {| factorIssue := "Suspicious Volume";
     factorDetails := "High volume of non-standard transactions" |}.

Definition authorityWarningsFactor : RiskFactor :=
  {| factorIssue := "Authority Warnings";
     factorDetails := "Authority holders have suspicious activity" |}.

(** [authorityInsights.some(auth => auth.warnings.length > 0)]: the search
    stops at the first entry with a warning and raises at an entry without
    a [warnings] list. *)
Fixpoint someWarnings (auths : list AuthorityReport) : option bool :=
  match auths with
  | [] => Some false
  | auth :: auths' =>
    w ← warnings auth;
    if bool_decide (0 < length w)%nat then Some true else someWarnings auths'
  end.

(** [if (c) { riskLikelihood += d; riskFactors.push(f) }] *)
Definition rule (c : bool) (d : Z) (f : RiskFactor)
    (s : Z * list RiskFactor) : Z * list RiskFactor :=
  if c then (fst s + d, snd s ++ [f]) else s.

Definition predictionOf (riskLikelihood : Z) : string :=
  if bool_decide (70 < riskLikelihood) then "High risk of future scams or laundering"
  else if bool_decide (40 < riskLikelihood) then "Moderate risk, monitor closely"
  else "Low risk, but verify".

Definition predictRisk_try (authorityInsights : option (list AuthorityReport))
    (transactionData : option TransactionData)
    (safetyAssessment : option SafetyAssessment) : option RiskPrediction :=
  let s := (50, []) in
  safety ← safetyAssessment;
  let s := rule (bool_decide (safetyScore safety < 50)) 20 lowSafetyFactor s in
  eco ← transactionData ≫= economicInsights;
  let s := rule (JS.gt (suspiciousVolume eco) (Some (1 # 10))) 15
             suspiciousVolumeFactor s in
  auths ← authorityInsights;
  warned ← someWarnings auths;
  let s := rule warned 10 authorityWarningsFactor s in
  Some {| riskLikelihood := JS.min100 (fst s);
          prediction := predictionOf (fst s);
          riskFactors := snd s |}.

Definition predictRisk (authorityInsights : option (list AuthorityReport))
    (transactionData : option TransactionData)
    (safetyAssessment : option SafetyAssessment) : Completion RiskPrediction :=
  match predictRisk_try authorityInsights transactionData safetyAssessment with
  | Some r => Fulfilled r
  | None => Rejected
  end.

End RiskPredictorVariant.

(** ** IdaExporter: [exportIdaScript] (idaExporter.js) *)

Module IdaExporter.

(** What the [try] block raises: one of its two [Error]s, or an error of
    the engine. *)
Inductive Failure :=
  | InvalidInsights
  | MissingField (field : string)
  | TypeError (property : string)
  | ReferenceError (identifier : string).

(** [err.message]; the two last texts are those of the engine of
    Node.js. *)
Definition message (f : Failure) : string :=
  match f with
  | InvalidInsights => "Invalid or missing analysis insights"
  | MissingField field => "Missing required field: " +:+ field
  | TypeError property =>
    "Cannot read properties of undefined (reading '" +:+ property +:+ "')"
  | ReferenceError identifier => identifier +:+ " is not defined"
  end.






End IdaExporter.

(** ** Concrete inputs used by the examples below *)

Module Scenarios.


(** An address that is not the governance program. *)
Definition someProgram : string := "9xQeWvG816bUx9EPjHmaT23yvVM2ZWbrrpZb9PusVFin".

(** A token-program instruction whose parsed type is [kind]. *)
Definition tokenInstruction (kind : string) : Instruction :=
  {| programId := TransactionClassifier.tokenProgram;
     accounts := None;
     parsed := Some {| parsedType := Some kind |} |}.

(** An instruction of the Raydium swap venue. *)
Definition raydiumInstruction : Instruction :=
  {| programId := TransactionClassifier.raydium;
     accounts := Some [PublicKey "4k3Dyjzvzp8eMZWUXbBCjEvwSkkk59S5iCNLY3QrkX6R";
                       PublicKey "5Q544fKrFoe6tsEbD7S8EmxGTJYAKtTVhAW5Q5pge4j1"];
     parsed := None |}.

(** A computed result that differs from the fallback. *)
Definition fetched : TransactionData :=
  {| transactions := Some [];
     economicInsights := Some
       {| totalVolumeSOL := JS.ofZ 100;
          averageFeeSOL := JS.ofZ 0;
          transactionCount := JS.ofZ 25;
          transactionTypes := None;
          suspiciousVolume := JS.ofZ 60;
          tokenFlowInsights := None;
          transactionVolumeAnalysis := None |} |}.

(** A data source that raises four times and then completes. *)
Definition flakySource (attempt : nat) : TransactionFetcher.Attempt :=
  if bool_decide (attempt < 4)%nat then TransactionFetcher.Raised
  else TransactionFetcher.Completed fetched.

(** A data source that is rate limited on every call. *)
Definition deadSource (attempt : nat) : TransactionFetcher.Attempt :=
  TransactionFetcher.RateLimited.

(** An analysis result for [someProgram]. *)
Definition someInsights : Insights :=
  {| instructions := Some 512;
     syscalls := Some [];
     suspectedType := Some "unknown";
     reentrancyRisk := Some "Low";
     controlFlow := Some {| branches := 51; loops := 25 |};
     usesBorsh := false;
     hiddenMint := false;
     authorityHolders := Some ["8x7y...z9k2"];
     address := someProgram |}.

Definition someAnalysis : Analysis := {| insights := Some someInsights |}.

(** The economic profile of the specification's scenario: a total volume
    of 100 SOL of which 60 SOL are suspicious, with volatile volumes. *)
Definition suspiciousEconomics : EconomicInsights :=
  {| totalVolumeSOL := JS.ofZ 100;
     averageFeeSOL := JS.ofZ 0;
     transactionCount := JS.ofZ 25;
     transactionTypes := Some
       {| swaps := Some {| count := JS.ofZ 20; volumeSOL := JS.ofZ 90 |};
          transfers := Some TransactionFetcher.zeroStat;
          mints := Some TransactionFetcher.zeroStat;
          burns := Some TransactionFetcher.zeroStat;
          governance := Some TransactionFetcher.zeroStat;
          nftMints := Some TransactionFetcher.zeroStat;
          others := Some {| count := JS.ofZ 5; volumeSOL := JS.ofZ 10 |} |};
     suspiciousVolume := JS.ofZ 60;
     tokenFlowInsights := Some
       {| topOutflows := []; topInflows := []; concentrationRisk := false |};
     transactionVolumeAnalysis := Some
       {| meanVolumeSOL := JS.ofZ 4;
          stdDevVolumeSOL := JS.ofZ 3;
          highVolatility := true |} |}.

Definition suspiciousData : TransactionData :=
  {| transactions := Some []; economicInsights := Some suspiciousEconomics |}.

(** One authority insight. *)
Definition loneAuthority : list AuthorityInsight :=
  [ {| authority := "8x7y...z9k2"; totalSOLWithdrawn := 12;
       walletAgeDays := 3; tokenMintCount := 0 |} ].

Definition emptyGraph : CallGraph := {| nodes := [someProgram]; edges := [] |}.

(** A swap transaction with one Raydium instruction. *)
Definition swapTransaction : Transaction :=
  {| signature := "5h6x";
     txInstructions := Some [raydiumInstruction];
     isNonStandard := true;
     txType := "swap";
     txVolumeSOL := 3 # 2;
     txFee := 5 # 1000000 |}.

(** A transaction whose [instructions] property is missing. *)
Definition brokenTransaction : Transaction :=
  {| signature := "3kq9";
     txInstructions := None;
     isNonStandard := true;
     txType := "unknown";
     txVolumeSOL := 0;
     txFee := 0 |}.



(** A program image that contains the marker [mintNFT]. *)
Definition nftImage : BinaryProfiler.Buffer :=
  BinaryProfiler.bufferFrom "entrypoint:mintNFT".

(** What the node answers for a transaction that holds one token transfer
    and moved 1.000005 SOL out of its first account. *)
Definition transferResponse : ParsedResponse :=
  {| parsedBody := {| messageInstructions := [tokenInstruction "transfer"] |};
     parsedMeta := Some
       {| preBalances := [5000000000; 0];
          postBalances := [3999995000; 1000000000];
          metaFee := Some 5000 |} |}.

(** Transaction data that holds [swapTransaction], and the edge its
    instruction gives. *)
Definition swapData : TransactionData :=
  {| transactions := Some [swapTransaction];
     economicInsights := Some suspiciousEconomics |}.

Definition swapEdge : Edge :=
  {| from := "4k3Dyjzvzp8eMZWUXbBCjEvwSkkk59S5iCNLY3QrkX6R";
     to := "5Q544fKrFoe6tsEbD7S8EmxGTJYAKtTVhAW5Q5pge4j1";
     action := "swap";
     edgeCount := 1 |}.



(** An authority insight that carries one warning. *)
Definition warnedAuthority : AuthorityReport :=
  {| reportedAuthority := "8x7y...z9k2";
     warnings := Some ["Wallet created less than a day ago"] |}.

(** One finding of the vulnerability scan. *)
Definition authorityFinding : Vulnerability :=
  {| vulnType := "Excessive Authority Control";
     severity := "Moderate";
     vulnDetails := "Single authority increases centralization risk.";
     vulnMitigation := None;
     confidence := "85%" |}.

End Scenarios.

(** * Properties *)

(** ** Comparisons and clamping *)

Lemma Qgtb_spec x y : JS.Qgtb x y = true ↔ (y < x)%Q.
Proof.
  unfold JS.Qgtb. rewrite (Qgt_alt x y).
  destruct (x ?= y)%Q; split; congruence.
Qed.

Lemma clamp0_100_range x : 0 ≤ JS.clamp0_100 x ≤ 100.
Proof. unfold JS.clamp0_100. lia. Qed.

Lemma min100_range x : 0 ≤ x → 0 ≤ JS.min100 x ≤ 100.
Proof. unfold JS.min100. lia. Qed.

(** ** SafetyAssessor *)

Section SafetyAssessorFacts.
Import SafetyAssessor.

(** The condition of the third rule: both volumes are numbers and the
    suspicious one is more than half of the total. *)
Lemma highSuspiciousVolume_spec eco :
  highSuspiciousVolume eco = true ↔
  ∃ s t, suspiciousVolume eco = Some s ∧ totalVolumeSOL eco = Some t
         ∧ (t * (1 # 2) < s)%Q.
Proof.
  unfold highSuspiciousVolume.
  destruct (suspiciousVolume eco) as [s|], (totalVolumeSOL eco) as [t|]; simpl.
  - rewrite Qgtb_spec. split; [eauto | intros (? & ? & [= <-] & [= <-] & ?); done].
  - split; [done | intros (? & ? & _ & [=] & _)].
  - split; [done | intros (? & ? & [=] & _)].
  - split; [done | intros (? & ? & [=] & _)].
Qed.

Lemma assessSafety_present a ins t eco auths cg :
  insights a = Some ins → economicInsights t = Some eco →
  assessSafety (Some a) auths (Some t) cg =
    let s := rule (complexGraph cg) complexInteractionsRisk 10
               (rule (highSuspiciousVolume eco) suspiciousVolumeRisk 15
                  (rule (singleAuthority auths) singleAuthorityRisk 10
                     (rule (hiddenMintSignal ins) hiddenMintRisk 20 (80, [])))) in
    {| safetyScore := JS.clamp0_100 (fst s); risks := snd s |}.
Proof.
  intros Hins Heco. unfold assessSafety, assessSafety_try. simpl.
  rewrite Hins, Heco. reflexivity.
Qed.

Lemma assessSafety_absent analysis auths transactions cg :
  analysis ≫= insights = None ∨ transactions ≫= economicInsights = None →
  assessSafety analysis auths transactions cg = fallback.
Proof.
  unfold assessSafety, assessSafety_try. intros [-> | H]; [done |].
  destruct (analysis ≫= insights); simpl; [by rewrite H | done].
Qed.

Lemma assessSafety_range analysis auths transactions cg :
  0 ≤ safetyScore (assessSafety analysis auths transactions cg) ≤ 100.
Proof.
  unfold assessSafety.
  destruct (assessSafety_try analysis auths transactions cg) as [r|] eqn:E; simpl.
  - unfold assessSafety_try in E.
    destruct (analysis ≫= insights); simpl in E; [| done].
    destruct (transactions ≫= economicInsights); simpl in E; [| done].
    injection E as <-. apply clamp0_100_range.
  - lia.
Qed.

End SafetyAssessorFacts.

(** C1. When [analysis.insights] and [transactions.economicInsights] are
    present, [assessSafety] returns the score 80 minus 20 for the hidden-mint
    signal, minus 10 for exactly one authority insight, minus 15 when the
    suspicious volume exceeds half of the total volume, minus 10 for a call
    graph of more than 50 edges, clamped to [0,100]; its risk list holds, in
    this order, exactly one entry for each rule that fired and nothing
    else. *)
Theorem assessSafety_penalties a ins t eco auths cg :
  insights a = Some ins → economicInsights t = Some eco →
  ∃ mintRule authorityRule volumeRule graphRule : bool,
    (mintRule = true ↔ hiddenMint ins = true)
    ∧ (authorityRule = true ↔ length auths = 1%nat)
    ∧ (volumeRule = true ↔
         ∃ s v, suspiciousVolume eco = Some s ∧ totalVolumeSOL eco = Some v
                ∧ (v * (1 # 2) < s)%Q)
    ∧ (graphRule = true ↔ (50 < length (edges cg))%nat)
    ∧ safetyScore (SafetyAssessor.assessSafety (Some a) auths (Some t) cg) =
        Z.max 0 (Z.min 100
          (80 - 20 * Z.b2z mintRule - 10 * Z.b2z authorityRule
              - 15 * Z.b2z volumeRule - 10 * Z.b2z graphRule))
    ∧ risks (SafetyAssessor.assessSafety (Some a) auths (Some t) cg) =
        (if mintRule then [SafetyAssessor.hiddenMintRisk] else [])
        ++ (if authorityRule then [SafetyAssessor.singleAuthorityRisk] else [])
        ++ (if volumeRule then [SafetyAssessor.suspiciousVolumeRisk] else [])
        ++ (if graphRule then [SafetyAssessor.complexInteractionsRisk] else [])
    ∧ length (risks (SafetyAssessor.assessSafety (Some a) auths (Some t) cg)) =
        (Nat.b2n mintRule + Nat.b2n authorityRule
         + Nat.b2n volumeRule + Nat.b2n graphRule)%nat.
Proof.
  intros Hins Heco.
  exists (SafetyAssessor.hiddenMintSignal ins), (SafetyAssessor.singleAuthority auths),
    (SafetyAssessor.highSuspiciousVolume eco), (SafetyAssessor.complexGraph cg).
  rewrite (assessSafety_present a ins t eco auths cg Hins Heco).
  split; [done |].
  split; [apply bool_decide_eq_true |].
  split; [apply highSuspiciousVolume_spec |].
  split; [apply bool_decide_eq_true |].
  unfold SafetyAssessor.hiddenMintSignal.
  destruct (hiddenMint ins), (SafetyAssessor.singleAuthority auths),
    (SafetyAssessor.highSuspiciousVolume eco), (SafetyAssessor.complexGraph cg);
    done.
Qed.

Lemma assessSafety_penalties_witness :
  insights Scenarios.someAnalysis = Some Scenarios.someInsights
  ∧ economicInsights Scenarios.suspiciousData = Some Scenarios.suspiciousEconomics
  ∧ ∃ mintRule authorityRule volumeRule graphRule : bool,
      (mintRule = true ↔ hiddenMint Scenarios.someInsights = true)
      ∧ (authorityRule = true ↔ length Scenarios.loneAuthority = 1%nat)
      ∧ (volumeRule = true ↔
           ∃ s v, suspiciousVolume Scenarios.suspiciousEconomics = Some s
                  ∧ totalVolumeSOL Scenarios.suspiciousEconomics = Some v
                  ∧ (v * (1 # 2) < s)%Q)
      ∧ (graphRule = true ↔ (50 < length (edges Scenarios.emptyGraph))%nat)
      ∧ safetyScore (SafetyAssessor.assessSafety (Some Scenarios.someAnalysis)
                       Scenarios.loneAuthority (Some Scenarios.suspiciousData)
                       Scenarios.emptyGraph) =
          Z.max 0 (Z.min 100
            (80 - 20 * Z.b2z mintRule - 10 * Z.b2z authorityRule
                - 15 * Z.b2z volumeRule - 10 * Z.b2z graphRule))
      ∧ risks (SafetyAssessor.assessSafety (Some Scenarios.someAnalysis)
                 Scenarios.loneAuthority (Some Scenarios.suspiciousData)
                 Scenarios.emptyGraph) =
          (if mintRule then [SafetyAssessor.hiddenMintRisk] else [])
          ++ (if authorityRule then [SafetyAssessor.singleAuthorityRisk] else [])
          ++ (if volumeRule then [SafetyAssessor.suspiciousVolumeRisk] else [])
          ++ (if graphRule then [SafetyAssessor.complexInteractionsRisk] else [])
      ∧ length (risks (SafetyAssessor.assessSafety (Some Scenarios.someAnalysis)
                         Scenarios.loneAuthority (Some Scenarios.suspiciousData)
                         Scenarios.emptyGraph)) =
          (Nat.b2n mintRule + Nat.b2n authorityRule
           + Nat.b2n volumeRule + Nat.b2n graphRule)%nat.
Proof.
  split; [reflexivity |]. split; [reflexivity |].
  exact (assessSafety_penalties Scenarios.someAnalysis Scenarios.someInsights
           Scenarios.suspiciousData Scenarios.suspiciousEconomics
           Scenarios.loneAuthority Scenarios.emptyGraph eq_refl eq_refl).
Defined.

(** The scenario of the specification: a total volume of 100 SOL with 60 SOL
    suspicious is flagged and costs 15 points; here the single authority
    costs 10 more. *)
Example assessSafety_suspicious_volume :
  SafetyAssessor.assessSafety (Some Scenarios.someAnalysis) Scenarios.loneAuthority
    (Some Scenarios.suspiciousData) Scenarios.emptyGraph
  = {| safetyScore := 55;
       risks := [SafetyAssessor.singleAuthorityRisk;
                 SafetyAssessor.suspiciousVolumeRisk] |}
  ∧ SafetyAssessor.assessSafety (Some Scenarios.someAnalysis) []
      (Some Scenarios.suspiciousData) Scenarios.emptyGraph
    = {| safetyScore := 65; risks := [SafetyAssessor.suspiciousVolumeRisk] |}.
Proof. split; vm_compute; reflexivity. Qed.

(** ** BehaviorInferer *)

Section BehaviorInfererFacts.
Import BehaviorInferer.

Lemma scamScore_bounds ins eco p :
  scamScore ins eco = Some p → 10 ≤ p ≤ 90.
Proof.
  unfold scamScore. destruct (authorityHolders ins) as [holders|]; [| done].
  simpl. intros [= <-]. unfold bump.
  repeat match goal with |- context [if ?c then _ else _] => destruct c end; lia.
Qed.

Lemma launderingScore_bounds ins eco l :
  launderingScore ins eco = Some l → 10 ≤ l ≤ 80.
Proof.
  unfold launderingScore.
  destruct (tokenFlowInsights eco) as [flows|]; [| done]. simpl.
  destruct (transactionVolumeAnalysis eco) as [vol|]; [| done]. simpl.
  destruct (transactionTypes eco ≫= others) as [oth|]; [| done]. simpl.
  destruct (syscalls ins) as [sys|]; [| done]. simpl.
  intros [= <-]. unfold bump.
  repeat match goal with |- context [if ?c then _ else _] => destruct c end; lia.
Qed.

Lemma typeConfidence_cases ins eco conf :
  typeConfidence ins eco = Some conf → conf ∈ distributions.
Proof.
  unfold typeConfidence, distributions. case_bool_decide.
  - intros [= <-]. repeat constructor.
  - destruct (transactionTypes eco ≫= swaps) as [sw|]; [| done]. simpl.
    destruct (shareAbove sw eco (1 # 2)).
    + intros [= <-]. repeat constructor.
    + destruct (transactionTypes eco ≫= nftMints) as [nm|]; [| done]. simpl.
      destruct (shareAbove nm eco (3 # 10)); intros [= <-]; repeat constructor.
Qed.

Lemma inferBehavior_cases analysis transactionData :
  inferBehavior analysis transactionData = fallback
  ∨ ∃ ins eco scam laundering conf,
      analysis ≫= insights = Some ins
      ∧ transactionData ≫= economicInsights = Some eco
      ∧ scamScore ins eco = Some scam
      ∧ launderingScore ins eco = Some laundering
      ∧ typeConfidence ins eco = Some conf
      ∧ inferBehavior analysis transactionData =
          {| scamProbability := JS.min100 scam;
             launderingLikelihood := JS.min100 laundering;
             programTypeConfidence := conf |}.
Proof.
  unfold inferBehavior, inferBehavior_try.
  destruct (analysis ≫= insights) as [ins|]; [| by left]. simpl.
  destruct (transactionData ≫= economicInsights) as [eco|]; [| by left]. simpl.
  destruct (scamScore ins eco) as [scam|] eqn:Hs; [| by left]. simpl.
  destruct (launderingScore ins eco) as [laundering|] eqn:Hl; [| by left]. simpl.
  destruct (typeConfidence ins eco) as [conf|] eqn:Hc; [| by left]. simpl.
  right. by exists ins, eco, scam, laundering, conf.
Qed.

Lemma inferBehavior_range analysis transactionData :
  0 ≤ scamProbability (inferBehavior analysis transactionData) ≤ 100
  ∧ 0 ≤ launderingLikelihood (inferBehavior analysis transactionData) ≤ 100.
Proof.
  destruct (inferBehavior_cases analysis transactionData)
    as [-> | (ins & eco & scam & laundering & conf & _ & _ & Hs & Hl & _ & ->)].
  - simpl. lia.
  - apply scamScore_bounds in Hs. apply launderingScore_bounds in Hl.
    simpl. unfold JS.min100. lia.
Qed.

End BehaviorInfererFacts.

(** ** RiskPredictor *)

Section RiskPredictorFacts.
Import RiskPredictor.

Lemma predictRisk_present td eco vol auths safety :
  economicInsights td = Some eco → transactionVolumeAnalysis eco = Some vol →
  predictRisk (Some auths) (Some td) (Some safety) =
    let s := rule (bool_decide (safetyScore safety < 50)) lowSafetyFactor 25
               (rule (bool_decide (length auths = 1%nat)) singleAuthorityFactor 15
                  (rule (highVolatility vol) volatilityFactor 20 (30, []))) in
    {| riskLikelihood := JS.min100 (fst s);
       prediction := if bool_decide (70 < fst s) then "High risk"
                     else "Low to moderate risk";
       riskFactors := snd s |}.
Proof.
  intros Heco Hvol. unfold predictRisk, predictRisk_try. simpl.
  rewrite Heco. simpl. rewrite Hvol. reflexivity.
Qed.

Lemma predictRisk_range authorityInsights transactionData safetyAssessment :
  0 ≤ riskLikelihood (predictRisk authorityInsights transactionData safetyAssessment)
    ≤ 100.
Proof.
  unfold predictRisk, predictRisk_try.
  destruct authorityInsights as [auths|]; simpl; [| lia].
  destruct (transactionData ≫= economicInsights) as [eco|]; simpl; [| lia].
  destruct safetyAssessment as [safety|]; simpl; [| lia].
  destruct (transactionVolumeAnalysis eco) as [vol|]; simpl; [| lia].
  unfold rule, JS.min100.
  repeat match goal with |- context [if ?c then _ else _] => destruct c end;
    simpl; lia.
Qed.

End RiskPredictorFacts.

(** C2. Whatever the inputs are, and so on the error-fallback paths too, the
    safety score of [assessSafety], the scam probability and laundering
    likelihood of [inferBehavior] and the risk likelihood of [predictRisk]
    all lie between 0 and 100. *)
Theorem scores_within_0_100 analysis authorityInsights transactionData callGraph
    maybeAuthorityInsights safetyAssessment :
  0 ≤ safetyScore (SafetyAssessor.assessSafety analysis authorityInsights
                     transactionData callGraph) ≤ 100
  ∧ 0 ≤ scamProbability (BehaviorInferer.inferBehavior analysis transactionData) ≤ 100
  ∧ 0 ≤ launderingLikelihood
          (BehaviorInferer.inferBehavior analysis transactionData) ≤ 100
  ∧ 0 ≤ riskLikelihood (RiskPredictor.predictRisk maybeAuthorityInsights
                          transactionData safetyAssessment) ≤ 100.
Proof.
  split; [apply assessSafety_range |].
  split; [apply inferBehavior_range |].
  split; [apply inferBehavior_range | apply predictRisk_range].
Qed.

(** C8. On present inputs [predictRisk] starts from 30, adds 20 for high
    volatility, 15 for exactly one authority insight and 25 for a safety score
    below 50, returns that sum capped at 100, and predicts "High risk" exactly
    when the likelihood exceeds 70, "Low to moderate risk" otherwise. *)
Theorem predictRisk_likelihood td eco vol auths safety :
  economicInsights td = Some eco → transactionVolumeAnalysis eco = Some vol →
  let r := RiskPredictor.predictRisk (Some auths) (Some td) (Some safety) in
  riskLikelihood r =
    Z.min 100 (30 + 20 * Z.b2z (highVolatility vol)
                  + 15 * Z.b2z (bool_decide (length auths = 1%nat))
                  + 25 * Z.b2z (bool_decide (safetyScore safety < 50)))
  ∧ (70 < riskLikelihood r → prediction r = "High risk")
  ∧ (riskLikelihood r ≤ 70 → prediction r = "Low to moderate risk").
Proof.
  intros Heco Hvol. simpl.
  rewrite (predictRisk_present td eco vol auths safety Heco Hvol).
  unfold RiskPredictor.rule, JS.min100.
  destruct (highVolatility vol), (bool_decide (length auths = 1%nat)),
    (bool_decide (safetyScore safety < 50)); simpl;
    (split; [reflexivity | split; intros; first [reflexivity | lia]]).
Qed.

Lemma predictRisk_likelihood_witness :
  economicInsights Scenarios.suspiciousData = Some Scenarios.suspiciousEconomics
  ∧ riskLikelihood
      (RiskPredictor.predictRisk (Some Scenarios.loneAuthority)
         (Some Scenarios.suspiciousData)
         (Some {| safetyScore := 45; risks := [] |})) = 90
  ∧ prediction
      (RiskPredictor.predictRisk (Some Scenarios.loneAuthority)
         (Some Scenarios.suspiciousData)
         (Some {| safetyScore := 45; risks := [] |})) = "High risk".
Proof.
  split; [reflexivity |].
  pose proof (predictRisk_likelihood Scenarios.suspiciousData
                Scenarios.suspiciousEconomics
                {| meanVolumeSOL := JS.ofZ 4; stdDevVolumeSOL := JS.ofZ 3;
                   highVolatility := true |}
                Scenarios.loneAuthority {| safetyScore := 45; risks := [] |}
                eq_refl eq_refl) as (Hlikelihood & Hhigh & _).
  split; [exact Hlikelihood |].
  apply Hhigh. rewrite Hlikelihood. reflexivity.
Defined.

(** C10. On every return path of [inferBehavior], the error fallback
    included, the values of [programTypeConfidence] add up to 100, and the map
    is one of the five distributions of the source. *)
Theorem programTypeConfidence_total analysis transactionData :
  BehaviorInferer.total
    (programTypeConfidence (BehaviorInferer.inferBehavior analysis transactionData))
    = 100
  ∧ programTypeConfidence (BehaviorInferer.inferBehavior analysis transactionData)
    ∈ [ [("governance", 90); ("amm", 5); ("nft", 5)];
        [("amm", 85); ("governance", 10); ("nft", 5)];
        [("nft", 80); ("amm", 10); ("governance", 10)];
        [("unknown", 50); ("governance", 20); ("amm", 20); ("nft", 10)];
        [("unknown", 100)] ].
Proof.
  assert (Hin : programTypeConfidence
                  (BehaviorInferer.inferBehavior analysis transactionData)
                ∈ BehaviorInferer.distributions).
  { destruct (inferBehavior_cases analysis transactionData)
      as [-> | (ins & eco & scam & laundering & conf & _ & _ & _ & _ & Hc & ->)].
    - unfold BehaviorInferer.distributions. simpl. repeat constructor.
    - simpl. by apply typeConfidence_cases in Hc. }
  split; [| exact Hin].
  unfold BehaviorInferer.distributions in Hin.
  repeat (apply elem_of_cons in Hin as [-> | Hin]; [reflexivity |]).
  by apply elem_of_nil in Hin.
Qed.

(** ** Double-precision products *)

Section Binary64Facts.
Import Binary64.

(** [3 * 0.1] is [0.30000000000000004], and 512 instructions give 51 branches
    and 25 loops. *)
Example mul_three_tenth :
  mul (ofZ 3) tenth = {| num := 2 * 5404319552844596; scale := 55 |}
  ∧ floor (mul (ofZ 512) tenth) = 51
  ∧ floor (mul (ofZ 512) twentieth) = 25.
Proof. repeat split; vm_compute; reflexivity. Qed.

(** The rounded value is within half a unit of the last kept bit, and not
    below any multiple of that unit that the exact value reaches. *)
Lemma round53_spec N :
  0 ≤ N →
  ∃ k P, 0 ≤ k ∧ P = 2 ^ k ∧ (k = 0 ∨ k = Z.log2 N - 52)
         ∧ (∀ M, M * P ≤ N → M * P ≤ round53 N)
         ∧ 2 * (round53 N - N) ≤ P ∧ (k = 0 → round53 N = N).
Proof.
  intros HN. unfold round53.
  destruct (decide (Z.log2 N - 52 ≤ 0)) as [Hk | Hk].
  - exists 0, 1. split; [lia |]. split; [done |]. split; [by left |].
    split; [intros; lia |]. split; [lia | done].
  - set (k := Z.log2 N - 52) in *. exists k, (2 ^ k).
    assert (HP : 0 < 2 ^ k) by (apply Z.pow_pos_nonneg; lia).
    assert (Hhalf : 2 ^ k = 2 * 2 ^ (k - 1)).
    { rewrite <- Z.pow_succ_r by lia. f_equal. lia. }
    pose proof (Z.div_mod N (2 ^ k) ltac:(lia)) as Hdm.
    pose proof (Z.mod_pos_bound N (2 ^ k) HP) as Hr.
    set (q := N / 2 ^ k) in *. set (r := N mod 2 ^ k) in *.
    set (P := 2 ^ k) in *. set (h := 2 ^ (k - 1)) in *.
    split; [lia |]. split; [done |]. split; [by right |].
    split; [| split; [| lia]].
    + intros M HM. assert (M ≤ q) by nia.
      repeat destruct (decide _); try destruct (Z.even q); nia.
    + repeat destruct (decide _); try destruct (Z.even q); nia.
Qed.

(** Multiplying an integer below [2 ^ 50] by the double nearest to [1 / D]
    and flooring is the integer division by [D]. *)
Lemma round53_scaled_floor T s D δ n :
  D * T = 2 ^ s + δ → 10 ≤ D → 0 ≤ δ ≤ 4 → 55 ≤ s →
  2 ^ 51 ≤ T < 2 ^ 52 → 0 ≤ n < 2 ^ 50 →
  round53 (n * T) / 2 ^ s = n / D.
Proof.
  intros HDT HD Hδ Hs HT Hn.
  assert (HS : 0 < 2 ^ s) by (apply Z.pow_pos_nonneg; lia).
  set (S := 2 ^ s) in *.
  pose proof (Z.div_mod n D ltac:(lia)) as Hdm.
  pose proof (Z.mod_pos_bound n D ltac:(lia)) as Hr.
  set (m := n / D) in *. set (r := n mod D) in *.
  assert (Hm : 0 ≤ m) by (apply Z.div_pos; lia).
  assert (Hm' : 10 * m < 2 ^ 50) by nia.
  assert (HN : n * T = m * S + m * δ + r * T) by nia.
  assert (HN0 : 0 ≤ n * T) by nia.
  destruct (round53_spec (n * T) HN0)
    as (k & P & Hk0 & HP & Hk & Hmult & Herr & Hexact).
  symmetry. apply (Z.div_unique_pos _ _ _ (round53 (n * T) - m * S)); [| lia].
  assert (Hupper : m * δ + r * T + T ≤ S + (m + 1) * δ) by nia.
  assert (Hmδ : (m + 1) * δ ≤ 4 * (m + 1)) by nia.
  split.
  - (* [m * S] is a multiple of the rounding unit below the exact product *)
    assert (Hdiv : ∃ j, S = j * P ∧ 0 ≤ j).
    { destruct Hk as [-> | ->].
      - exists S. subst P. simpl. lia.
      - assert (Z.log2 (n * T) - 52 ≤ s).
        { destruct (decide (n * T = 0)) as [-> | ?]; [simpl; lia |].
          assert (Z.log2 (n * T) < 102); [| lia].
          apply Z.log2_lt_pow2; [lia |].
          change (2 ^ 102) with (2 ^ 50 * 2 ^ 52). nia. }
        exists (2 ^ (s - (Z.log2 (n * T) - 52))). split.
        + subst S P. rewrite <- Z.pow_add_r by lia. f_equal. lia.
        + apply Z.pow_nonneg. lia. }
    destruct Hdiv as (j & HjS & Hj).
    assert (m * j * P ≤ round53 (n * T)); [| nia].
    apply Hmult. nia.
  - (* the rounding error is below the gap to the next integer *)
    destruct Hk as [Hk | Hk].
    + rewrite (Hexact Hk). lia.
    + assert (HP2 : P ≤ 2 * (n * T / 2 ^ 53 + 1)).
      { destruct (decide (n * T = 0)) as [Hz | Hnz].
        - rewrite Hz in Hk. simpl in Hk. lia.
        - pose proof (Z.log2_spec (n * T) ltac:(lia)) as [Hlo _].
          assert (Hk1 : 1 ≤ k ∨ k ≤ 0) by lia. destruct Hk1 as [Hk1 | Hk1].
          + assert (2 ^ Z.log2 (n * T) = P * 2 ^ 52).
            { subst P k. rewrite <- Z.pow_add_r by lia. f_equal. lia. }
            assert (P * 2 ^ 52 ≤ n * T) by lia.
            pose proof (Z.div_mod (n * T) (2 ^ 53) ltac:(lia)).
            pose proof (Z.mod_pos_bound (n * T) (2 ^ 53) ltac:(lia)).
            lia.
          + assert (P ≤ 1); [| pose proof (Z.div_pos (n * T) (2 ^ 53)); lia].
            subst P. destruct (decide (k = 0)) as [-> | ?]; [simpl; lia |].
            rewrite Z.pow_neg_r by lia. lia. }
      assert (n * T / 2 ^ 53 ≤ 2 ^ 49).
      { apply Z.div_le_upper_bound; [lia |].
        change (2 ^ 53 * 2 ^ 49) with (2 ^ 50 * 2 ^ 52). nia. }
      nia.
Qed.

Lemma floor_mul_tenth n :
  0 ≤ n < 2 ^ 50 → floor (mul (ofZ n) tenth) = n / 10.
Proof.
  intros Hn. unfold floor, mul, ofZ, tenth. cbn [num scale]. rewrite Z.add_0_l.
  apply (round53_scaled_floor _ 55 10 2); [reflexivity | lia ..].
Qed.

Lemma floor_mul_twentieth n :
  0 ≤ n < 2 ^ 50 → floor (mul (ofZ n) twentieth) = n / 20.
Proof.
  intros Hn. unfold floor, mul, ofZ, twentieth. cbn [num scale]. rewrite Z.add_0_l.
  apply (round53_scaled_floor _ 56 20 4); [reflexivity | lia ..].
Qed.

End Binary64Facts.

(** ** BinaryProfiler *)

Section BinaryProfilerFacts.
Import BinaryProfiler.

Lemma startsWith_spec needle hay :
  startsWith needle hay = true ↔ ∃ post, hay = needle ++ post.
Proof.
  revert hay. induction needle as [|n ns IH]; intros hay; simpl.
  - split; [eauto | done].
  - destruct hay as [|h hs].
    + split; [done | intros [post [=]]].
    + rewrite andb_true_iff, IH. split.
      * intros [Hb [post ->]]. apply Byte.byte_dec_bl in Hb as ->. eauto.
      * intros [post [= -> ->]]. split; [by apply Byte.byte_dec_lb | eauto].
Qed.

Lemma includes_spec hay needle :
  includes hay needle = true ↔ occursIn needle hay.
Proof.
  unfold occursIn. induction hay as [|h hs IH]; simpl.
  - rewrite orb_false_r, startsWith_spec. split.
    + intros [post ->]. by exists [], post.
    + intros (pre & post & H). symmetry in H.
      apply app_eq_nil in H as [-> H]. apply app_eq_nil in H as [-> ->].
      by exists [].
  - rewrite orb_true_iff, startsWith_spec, IH. split.
    + intros [[post ->] | (pre & post & ->)].
      * by exists [], post.
      * by exists (h :: pre), post.
    + intros ([|p pre] & post & H); simpl in H.
      * left. eauto.
      * right. injection H as -> ->. eauto.
Qed.


(** [Math.floor] of the three products, as integer divisions. *)
Lemma floor_eighth n : floor (inject_Z n / 8) = n / 8.
Proof. unfold floor, Qfloor. simpl. by rewrite Z.mul_1_r. Qed.

Lemma floor_tenth n : floor (inject_Z n * (1 # 10)) = n / 10.
Proof. unfold floor, Qfloor. simpl. by rewrite Z.mul_1_r. Qed.

Lemma floor_twentieth n : floor (inject_Z n * (5 # 100)) = n / 20.
Proof.
  unfold floor, Qfloor. simpl.
  by rewrite <- (Z.div_mul_cancel_r n 20 5).
Qed.


(** The control-flow estimates are what the double-precision products give,
    for every buffer whose length is a safe integer. *)
Lemma analyzeBinary_binary64 binary address :
  Z.of_nat (length binary) < 2 ^ 53 →
  ∃ ins cf n,
    insights (analyzeBinary binary address) = Some ins
    ∧ controlFlow ins = Some cf
    ∧ instructions ins = Some n
    ∧ branches cf = Binary64.floor (Binary64.mul (Binary64.ofZ n) Binary64.tenth)
    ∧ loops cf = Binary64.floor (Binary64.mul (Binary64.ofZ n) Binary64.twentieth).
Proof.
  intros Hlen. unfold analyzeBinary. rewrite floor_eighth.
  eexists _, _, _. split; [reflexivity |]. cbn [controlFlow instructions].
  split; [reflexivity |]. split; [reflexivity |]. cbn [branches loops].
  assert (Hn : 0 ≤ Z.of_nat (length binary) / 8 < 2 ^ 50).
  { split; [apply Z.div_pos; lia |].
    apply Z.div_lt_upper_bound; [lia |]. change (8 * 2 ^ 50) with (2 ^ 53). lia. }
  rewrite floor_tenth, floor_twentieth.
  by rewrite floor_mul_tenth, floor_mul_twentieth.
Qed.

End BinaryProfilerFacts.





(** ** TransactionClassifier *)

Section TransactionClassifierFacts.
Import TransactionClassifier.

Lemma existsb_Exists {A} (f : A → bool) (l : list A) :
  existsb f l = true ↔ Exists (λ x, f x = true) l.
Proof.
  induction l as [|x l IH]; simpl.
  - split; [done | by intros ?%Exists_nil].
  - rewrite orb_true_iff, Exists_cons, IH. done.
Qed.

Lemma Exists_equiv {A} (P Q : A → Prop) (l : list A) :
  (∀ x, P x ↔ Q x) → Exists P l ↔ Exists Q l.
Proof.
  intros HPQ. rewrite !Exists_exists.
  split; intros (x & Hin & Hx); exists x; (split; [done | by apply HPQ]).
Qed.

Lemma existsb_not_Exists {A} (f : A → bool) (l : list A) :
  existsb f l = false ↔ ¬ Exists (λ x, f x = true) l.
Proof. rewrite <- existsb_Exists. by destruct (existsb f l). Qed.

Lemma isGovernance_spec ix :
  isGovernance ix = true ↔
  programId ix = governanceProgram ∨ programId ix = governanceProgram2
  ∨ typeOf ix = Some "createProposal" ∨ typeOf ix = Some "vote".
Proof.
  unfold isGovernance. rewrite !orb_true_iff, !bool_decide_eq_true. tauto.
Qed.

Lemma isNft_spec ix :
  isNft ix = true ↔ programId ix = metaplex ∨ typeOf ix = Some "mintNFT".
Proof. unfold isNft. by rewrite orb_true_iff, !bool_decide_eq_true. Qed.

Lemma isSwap_spec programAddress ix :
  isSwap programAddress ix = true ↔
  programId ix ∈ [raydium; pumpFun; programAddress].
Proof. unfold isSwap. by rewrite bool_decide_eq_true. Qed.

Lemma isSelf_spec programAddress ix :
  isSelf programAddress ix = true ↔ programId ix = programAddress.
Proof. unfold isSelf. by rewrite bool_decide_eq_true. Qed.

(** The token block returns exactly when the first token-program
    instruction has one of the three types, and then returns that type. *)
Lemma tokenBlock_Some instructions kind :
  tokenBlock instructions = Some kind ↔
  ∃ tokenIx, find isToken instructions = Some tokenIx
             ∧ typeOf tokenIx = Some kind ∧ kind ∈ tokenKinds.
Proof.
  unfold tokenBlock, tokenKinds. split.
  - destruct (existsb isToken instructions); [| done].
    destruct (find isToken instructions) as [tokenIx|]; [| done]. simpl.
    repeat case_bool_decide; intros [= <-]; exists tokenIx;
      (split; [done | split; [done | repeat constructor]]).
  - intros (tokenIx & Hfind & Htype & Hkind).
    assert (Hex : existsb isToken instructions = true).
    { apply existsb_exists. exists tokenIx.
      apply find_some in Hfind as [Hin Htok]. done. }
    rewrite Hex, Hfind. simpl. rewrite Htype.
    repeat (apply elem_of_cons in Hkind as [-> | Hkind]; [done |]).
    by apply elem_of_nil in Hkind.
Qed.

Lemma tokenBlock_None instructions :
  tokenBlock instructions = None ↔
  ¬ ∃ tokenIx kind, find isToken instructions = Some tokenIx
                    ∧ typeOf tokenIx = Some kind ∧ kind ∈ tokenKinds.
Proof.
  split.
  - intros Hnone (tokenIx & kind & H).
    assert (tokenBlock instructions = Some kind) as Hsome
      by (apply tokenBlock_Some; eauto).
    congruence.
  - intros Hno. destruct (tokenBlock instructions) as [kind|] eqn:E; [| done].
    apply tokenBlock_Some in E as (tokenIx & ?). destruct Hno. eauto.
Qed.

(** The [custom] rule tests a condition the [swap] rule has already
    accepted, so it is never the first rule to match. *)
Lemma isSelf_isSwap programAddress ix :
  isSelf programAddress ix = true → isSwap programAddress ix = true.
Proof.
  unfold isSelf, isSwap. rewrite !bool_decide_eq_true. intros ->.
  repeat constructor.
Qed.

Lemma inferTransactionType_not_custom parsedTx programAddress :
  inferTransactionType parsedTx programAddress ≠ "custom".
Proof.
  unfold inferTransactionType. destruct parsedTx as [tx|]; [| done].
  destruct (existsb isGovernance _); [done |].
  destruct (tokenBlock _) as [kind|] eqn:E.
  - apply tokenBlock_Some in E as (_ & _ & _ & Hkind). unfold tokenKinds in Hkind.
    repeat (apply elem_of_cons in Hkind as [-> | Hkind]; [done |]).
    by apply elem_of_nil in Hkind.
  - destruct (existsb (isSwap programAddress) _) eqn:Hswap; [done |].
    destruct (existsb isNft _); [done |].
    destruct (existsb (isSelf programAddress) _) eqn:Hself; [| done].
    apply existsb_exists in Hself as (ix & Hin & Hix).
    apply isSelf_isSwap in Hix.
    assert (existsb (isSwap programAddress) (messageInstructions tx) = true)
      by (apply existsb_exists; eauto).
    congruence.
Qed.

End TransactionClassifierFacts.

(** C4 (as the code has it). [inferTransactionType] tries its rules in the
    order governance, token, swap, nft, custom, unknown and the first one that
    matches decides; the token rule matches when the first token-program
    instruction has parsed type transfer, mint or burn (and yields that type),
    and otherwise lets the later rules decide.  In particular a transaction
    without governance marker whose first token-program instruction is a
    transfer, mint or burn is classified as that type even when it also
    contains a swap-venue instruction. *)
Theorem inferTransactionType_precedence instructions programAddress :
  let kind := TransactionClassifier.inferTransactionType
                (Some {| messageInstructions := instructions |}) programAddress in
  let governanceRule :=
    Exists (λ ix, programId ix = TransactionClassifier.governanceProgram
                  ∨ programId ix = TransactionClassifier.governanceProgram2
                  ∨ TransactionClassifier.typeOf ix = Some "createProposal"
                  ∨ TransactionClassifier.typeOf ix = Some "vote") instructions in
  let tokenRule :=
    ∃ tokenIx sub, find TransactionClassifier.isToken instructions = Some tokenIx
                   ∧ TransactionClassifier.typeOf tokenIx = Some sub
                   ∧ sub ∈ ["transfer"; "mint"; "burn"] in
  let swapRule :=
    Exists (λ ix, programId ix ∈ [TransactionClassifier.raydium;
                                   TransactionClassifier.pumpFun;
                                   programAddress]) instructions in
  let nftRule :=
    Exists (λ ix, programId ix = TransactionClassifier.metaplex
                  ∨ TransactionClassifier.typeOf ix = Some "mintNFT") instructions in
  let customRule := Exists (λ ix, programId ix = programAddress) instructions in
  TransactionClassifier.inferTransactionType None programAddress = "unknown"
  ∧ (governanceRule → kind = "governance")
  ∧ (¬ governanceRule →
     ∀ tokenIx sub, find TransactionClassifier.isToken instructions = Some tokenIx →
       TransactionClassifier.typeOf tokenIx = Some sub →
       sub ∈ ["transfer"; "mint"; "burn"] → kind = sub)
  ∧ (¬ governanceRule → ¬ tokenRule → swapRule → kind = "swap")
  ∧ (¬ governanceRule → ¬ tokenRule → ¬ swapRule → nftRule → kind = "nft_mint")
  ∧ (¬ governanceRule → ¬ tokenRule → ¬ swapRule → ¬ nftRule → customRule →
     kind = "custom")
  ∧ (¬ governanceRule → ¬ tokenRule → ¬ swapRule → ¬ nftRule → ¬ customRule →
     kind = "unknown").
Proof.
  simpl. split; [reflexivity |].
  rewrite <- (Exists_equiv _ _ instructions isGovernance_spec).
  rewrite <- (Exists_equiv _ _ instructions isNft_spec).
  rewrite <- (Exists_equiv _ _ instructions (isSwap_spec programAddress)).
  rewrite <- (Exists_equiv _ _ instructions (isSelf_spec programAddress)).
  rewrite <- !existsb_Exists.
  change (∃ tokenIx sub, _) with
    (∃ tokenIx sub, find TransactionClassifier.isToken instructions = Some tokenIx
       ∧ TransactionClassifier.typeOf tokenIx = Some sub
       ∧ sub ∈ TransactionClassifier.tokenKinds).
  rewrite <- tokenBlock_None.
  destruct (existsb TransactionClassifier.isGovernance instructions) eqn:Hgov.
  { repeat split; first [reflexivity | intros []; reflexivity]. }
  split; [discriminate |].
  split.
  { intros _ tokenIx sub Hfind Htype Hsub.
    assert (TransactionClassifier.tokenBlock instructions = Some sub) as ->
      by (apply tokenBlock_Some; eauto).
    reflexivity. }
  destruct (TransactionClassifier.tokenBlock instructions);
    [repeat split; intros _ [=] |].
  destruct (existsb (TransactionClassifier.isSwap programAddress) instructions);
    [repeat split; first [reflexivity | intros _ _ []; reflexivity] |].
  destruct (existsb TransactionClassifier.isNft instructions);
    [repeat split; first [reflexivity | discriminate
                         | intros _ _ _ []; reflexivity] |].
  destruct (existsb (TransactionClassifier.isSelf programAddress) instructions);
    repeat split; first [reflexivity | discriminate
                        | intros _ _ _ _ []; reflexivity].
Qed.

Lemma inferTransactionType_precedence_witness :
  let instructions := [Scenarios.tokenInstruction "transfer";
                       Scenarios.raydiumInstruction] in
  ¬ Exists (λ ix, programId ix = TransactionClassifier.governanceProgram
                  ∨ programId ix = TransactionClassifier.governanceProgram2
                  ∨ TransactionClassifier.typeOf ix = Some "createProposal"
                  ∨ TransactionClassifier.typeOf ix = Some "vote") instructions
  ∧ find TransactionClassifier.isToken instructions
    = Some (Scenarios.tokenInstruction "transfer")
  ∧ Exists (λ ix, programId ix = TransactionClassifier.raydium) instructions
  ∧ TransactionClassifier.inferTransactionType
      (Some {| messageInstructions := instructions |}) Scenarios.someProgram
    = "transfer".
Proof.
  intros instructions.
  assert (Hgov : ¬ Exists (λ ix, programId ix = TransactionClassifier.governanceProgram
                     ∨ programId ix = TransactionClassifier.governanceProgram2
                     ∨ TransactionClassifier.typeOf ix = Some "createProposal"
                     ∨ TransactionClassifier.typeOf ix = Some "vote") instructions).
  { rewrite <- (Exists_equiv _ _ instructions isGovernance_spec).
    apply existsb_not_Exists. vm_compute. reflexivity. }
  split; [exact Hgov |]. split; [reflexivity |].
  split; [apply Exists_cons_tl, Exists_cons_hd; reflexivity |].
  refine (proj1 (proj2 (proj2
            (inferTransactionType_precedence instructions Scenarios.someProgram)))
          Hgov (Scenarios.tokenInstruction "transfer") "transfer" _ _ _).
  - reflexivity.
  - reflexivity.
  - apply list_elem_of_here.
Defined.

(** C4 as stated fails: a transaction with a token-program instruction of
    parsed type "approve" followed by a Raydium instruction is classified
    "swap", which is not a token sub-type. *)
Lemma inferTransactionType_token_counterexample :
  let instructions := [Scenarios.tokenInstruction "approve";
                       Scenarios.raydiumInstruction] in
  Exists (λ ix, programId ix = TransactionClassifier.tokenProgram) instructions
  ∧ Exists (λ ix, programId ix = TransactionClassifier.raydium) instructions
  ∧ ¬ Exists (λ ix, programId ix = TransactionClassifier.governanceProgram
                    ∨ programId ix = TransactionClassifier.governanceProgram2
                    ∨ TransactionClassifier.typeOf ix = Some "createProposal"
                    ∨ TransactionClassifier.typeOf ix = Some "vote") instructions
  ∧ TransactionClassifier.inferTransactionType
      (Some {| messageInstructions := instructions |}) Scenarios.someProgram
    = "swap"
  ∧ TransactionClassifier.inferTransactionType
      (Some {| messageInstructions := instructions |}) Scenarios.someProgram
    ∉ ["transfer"; "mint"; "burn"].
Proof.
  intros instructions.
  split; [apply Exists_cons_hd; reflexivity |].
  split; [apply Exists_cons_tl, Exists_cons_hd; reflexivity |].
  split.
  { rewrite <- (Exists_equiv _ _ instructions isGovernance_spec).
    apply existsb_not_Exists. vm_compute. reflexivity. }
  split; [vm_compute; reflexivity |].
  vm_compute. intros H.
  repeat (apply elem_of_cons in H as [[=] | H]).
  by apply elem_of_nil in H.
Qed.

(** ** The retry loop *)

Section TransactionFetcherFacts.
Import TransactionFetcher.

Variable source : nat → Attempt.
Variable cacheKey : string.
Variable cache : gmap string TransactionData.

Lemma delaysFrom_S attempt k :
  delaysFrom attempt (S k) = delay attempt :: delaysFrom (S attempt) k.
Proof. reflexivity. Qed.

(** [k] failed attempts followed by a completed one. *)
Lemma attemptLoop_completes k : ∀ attempt remaining waited result,
  (k < remaining)%nat → (attempt + k ≤ maxRetries)%nat →
  (∀ i, (i < k)%nat →
     source (attempt + i) = RateLimited ∨ source (attempt + i) = Raised) →
  source (attempt + k) = Completed result →
  attemptLoop source cacheKey cache waited remaining attempt =
    {| returned := result;
       cacheAfter := <[cacheKey := result]> cache;
       slept := waited ++ delaysFrom attempt k |}.
Proof.
  induction k as [|k IH]; intros attempt remaining waited result Hrem Hmax Hfail Hok.
  - destruct remaining as [|remaining]; [lia |]. simpl.
    rewrite Nat.add_0_r in Hok. rewrite Hok.
    unfold delaysFrom. simpl. by rewrite app_nil_r.
  - destruct remaining as [|remaining]; [lia |]. simpl.
    assert (Hne : attempt ≠ maxRetries) by lia.
    assert (Hnext : attemptLoop source cacheKey cache (waited ++ [delay attempt])
                      remaining (S attempt) =
                    {| returned := result;
                       cacheAfter := <[cacheKey := result]> cache;
                       slept := waited ++ delaysFrom attempt (S k) |}).
    { rewrite (IH (S attempt) remaining (waited ++ [delay attempt]) result).
      - by rewrite delaysFrom_S, <- app_assoc.
      - lia.
      - lia.
      - intros i Hi. replace (S attempt + i)%nat with (attempt + S i)%nat by lia.
        apply Hfail. lia.
      - by replace (S attempt + k)%nat with (attempt + S k)%nat by lia. }
    destruct (Hfail 0%nat ltac:(lia)) as [H0 | H0];
      rewrite Nat.add_0_r in H0; rewrite H0;
      by rewrite bool_decide_eq_false_2.
Qed.

(** Every remaining attempt fails: the loop ends in the [catch] of the
    last one. *)
Lemma attemptLoop_exhausted remaining : ∀ attempt waited,
  (0 < remaining)%nat → (attempt + remaining = S maxRetries)%nat →
  (∀ i, (i < remaining)%nat →
     source (attempt + i) = RateLimited ∨ source (attempt + i) = Raised) →
  attemptLoop source cacheKey cache waited remaining attempt =
    {| returned := createFallback;
       cacheAfter := cache;
       slept := waited ++ delaysFrom attempt (remaining - 1) |}.
Proof.
  induction remaining as [|remaining IH]; intros attempt waited Hpos Hsum Hfail;
    [lia |].
  simpl. rewrite Nat.sub_0_r.
  destruct (decide (attempt = maxRetries)) as [Hlast | Hmore].
  - assert (remaining = 0%nat) as -> by lia.
    unfold delaysFrom. simpl. rewrite app_nil_r.
    destruct (Hfail 0%nat ltac:(lia)) as [H0 | H0];
      rewrite Nat.add_0_r in H0; rewrite H0;
      by rewrite bool_decide_eq_true_2.
  - assert (Hnext : attemptLoop source cacheKey cache (waited ++ [delay attempt])
                      remaining (S attempt) =
                    {| returned := createFallback;
                       cacheAfter := cache;
                       slept := waited ++ delaysFrom attempt remaining |}).
    { rewrite (IH (S attempt) (waited ++ [delay attempt])).
      - destruct remaining as [|remaining']; [lia |].
        simpl. rewrite Nat.sub_0_r. by rewrite delaysFrom_S, <- app_assoc.
      - lia.
      - lia.
      - intros i Hi. replace (S attempt + i)%nat with (attempt + S i)%nat by lia.
        apply Hfail. lia. }
    destruct (Hfail 0%nat ltac:(lia)) as [H0 | H0];
      rewrite Nat.add_0_r in H0; rewrite H0;
      by rewrite bool_decide_eq_false_2.
Qed.

Lemma delaysFrom_0 k : (k ≤ maxRetries)%nat → delaysFrom 0 k = take k retryDelays.
Proof.
  unfold maxRetries. intros Hk.
  do 6 (destruct k as [|k]; [reflexivity |]). lia.
Qed.

End TransactionFetcherFacts.

(** C5. With the API key configured [getRecentTransactions] never raises.
    For a request that is not cached: when the data source fails its first
    [k ≤ 5] calls and then succeeds, the computed result (and not the
    fallback) is returned after waiting the first [k] of the delays 1s, 2s,
    4s, 8s, 16s, so in particular after four failures; when all six calls
    fail, the neutral fallback is returned after waiting all five delays. *)
Theorem getRecentTransactions_retries apiKey cache source address options :
  TransactionFetcher.missing apiKey = false →
  (∃ run, TransactionFetcher.getRecentTransactions apiKey cache source address options
          = TransactionFetcher.Returned run)
  ∧ (cache !! TransactionFetcher.cacheKeyOf address
                (default 10 (TransactionFetcher.limit options))
                (default "7d" (TransactionFetcher.timeframe options)) = None →
     (∀ k result, (k ≤ 5)%nat →
        TransactionFetcher.failsThenSucceeds k result source →
        ∃ run, TransactionFetcher.getRecentTransactions apiKey cache source address
                 options = TransactionFetcher.Returned run
               ∧ TransactionFetcher.returned run = result
               ∧ TransactionFetcher.slept run
                 = take k [1000; 2000; 4000; 8000; 16000])
     ∧ (∀ result, TransactionFetcher.failsThenSucceeds 4 result source →
        ∃ run, TransactionFetcher.getRecentTransactions apiKey cache source address
                 options = TransactionFetcher.Returned run
               ∧ TransactionFetcher.returned run = result
               ∧ TransactionFetcher.slept run = [1000; 2000; 4000; 8000])
     ∧ (TransactionFetcher.failsFirst 6 source →
        ∃ run, TransactionFetcher.getRecentTransactions apiKey cache source address
                 options = TransactionFetcher.Returned run
               ∧ TransactionFetcher.returned run = TransactionFetcher.createFallback
               ∧ transactions (TransactionFetcher.returned run) = Some []
               ∧ economicInsights (TransactionFetcher.returned run)
                   ≫= totalVolumeSOL = Some 0%Q
               ∧ economicInsights (TransactionFetcher.returned run)
                   ≫= transactionCount = Some 0%Q
               ∧ TransactionFetcher.slept run = [1000; 2000; 4000; 8000; 16000])).
Proof.
  intros Hkey. split.
  { unfold TransactionFetcher.getRecentTransactions. rewrite Hkey.
    destruct (cache !! _); eauto. }
  intros Hmiss.
  assert (Hgeneral : ∀ k result, (k ≤ 5)%nat →
            TransactionFetcher.failsThenSucceeds k result source →
            ∃ run, TransactionFetcher.getRecentTransactions apiKey cache source address
                     options = TransactionFetcher.Returned run
                   ∧ TransactionFetcher.returned run = result
                   ∧ TransactionFetcher.slept run
                     = take k [1000; 2000; 4000; 8000; 16000]).
  { intros k result Hk [Hfail Hok].
    unfold TransactionFetcher.getRecentTransactions. rewrite Hkey, Hmiss.
    eexists. split; [reflexivity |].
    rewrite (attemptLoop_completes source _ cache k 0 _ [] result);
      [| unfold TransactionFetcher.maxRetries; lia
       | unfold TransactionFetcher.maxRetries; lia
       | intros i Hi; apply Hfail; lia
       | exact Hok ].
    simpl. split; [reflexivity |].
    apply delaysFrom_0. unfold TransactionFetcher.maxRetries. lia. }
  split; [exact Hgeneral |].
  split.
  { intros result Hsrc. apply (Hgeneral 4%nat result); [lia | exact Hsrc]. }
  intros Hfail.
  unfold TransactionFetcher.getRecentTransactions. rewrite Hkey, Hmiss.
  eexists. split; [reflexivity |].
  rewrite (attemptLoop_exhausted source _ cache 6 0 []);
    [| lia | reflexivity | intros i Hi; apply Hfail; lia ].
  simpl. done.
Qed.

Lemma getRecentTransactions_retries_witness :
  TransactionFetcher.missing (Some "configured-key") = false
  ∧ (∅ : gmap string TransactionData)
      !! TransactionFetcher.cacheKeyOf Scenarios.someProgram 10 "7d" = None
  ∧ TransactionFetcher.failsThenSucceeds 4 Scenarios.fetched Scenarios.flakySource
  ∧ TransactionFetcher.failsFirst 6 Scenarios.deadSource
  ∧ (∃ run, TransactionFetcher.getRecentTransactions (Some "configured-key") ∅
              Scenarios.flakySource Scenarios.someProgram
              {| TransactionFetcher.limit := None;
                 TransactionFetcher.timeframe := None |}
            = TransactionFetcher.Returned run
          ∧ TransactionFetcher.returned run = Scenarios.fetched
          ∧ TransactionFetcher.slept run = [1000; 2000; 4000; 8000])
  ∧ (∃ run, TransactionFetcher.getRecentTransactions (Some "configured-key") ∅
              Scenarios.deadSource Scenarios.someProgram
              {| TransactionFetcher.limit := None;
                 TransactionFetcher.timeframe := None |}
            = TransactionFetcher.Returned run
          ∧ TransactionFetcher.returned run = TransactionFetcher.createFallback
          ∧ TransactionFetcher.slept run = [1000; 2000; 4000; 8000; 16000]).
Proof.
  assert (Hflaky : TransactionFetcher.failsThenSucceeds 4 Scenarios.fetched
                     Scenarios.flakySource).
  { split; [| reflexivity].
    intros i Hi. right. unfold Scenarios.flakySource.
    by rewrite bool_decide_eq_true_2. }
  assert (Hdead : TransactionFetcher.failsFirst 6 Scenarios.deadSource)
    by (intros i _; by left).
  split; [reflexivity |]. split; [apply lookup_empty |].
  split; [exact Hflaky |]. split; [exact Hdead |].
  split.
  - exact (proj1 (proj2 (proj2
      (getRecentTransactions_retries (Some "configured-key") ∅ Scenarios.flakySource
         Scenarios.someProgram
         {| TransactionFetcher.limit := None; TransactionFetcher.timeframe := None |}
         eq_refl) (lookup_empty _))) Scenarios.fetched Hflaky).
  - destruct (proj2 (proj2 (proj2
      (getRecentTransactions_retries (Some "configured-key") ∅ Scenarios.deadSource
         Scenarios.someProgram
         {| TransactionFetcher.limit := None; TransactionFetcher.timeframe := None |}
         eq_refl) (lookup_empty _))) Hdead)
      as (run & Hrun & Hfallback & _ & _ & _ & Hslept).
    by exists run.
Defined.

(** ** CallGraphBuilder *)

Section CallGraphBuilderFacts.
Import CallGraphBuilder.

Lemma addEndpoints_app es1 es2 ns :
  addEndpoints (es1 ++ es2) ns = addEndpoints es2 (addEndpoints es1 ns).
Proof. unfold addEndpoints. apply foldl_app. Qed.

Lemma pushEdges_nil s : pushEdges [] s = s.
Proof. destruct s. unfold pushEdges. simpl. by rewrite app_nil_r. Qed.

Lemma pushEdges_app es1 es2 s :
  pushEdges (es1 ++ es2) s = pushEdges es2 (pushEdges es1 s).
Proof. unfold pushEdges. simpl. by rewrite addEndpoints_app, app_assoc. Qed.

(** A loop whose body pushes edges that do not depend on the state pushes
    the gathered edges. *)
Lemma forEach_gather {A} (body : state → A → option state)
    (eff : A → option (list Edge)) (l : list A) :
  (∀ s x, body s x = (λ es, pushEdges es s) <$> eff x) →
  ∀ s, forEach body l s = (λ es, pushEdges es s) <$> gather eff l.
Proof.
  intros Hbody. induction l as [|x l IH]; intros s; simpl.
  - by rewrite pushEdges_nil.
  - rewrite Hbody. destruct (eff x) as [es|]; simpl; [| done].
    rewrite IH. destruct (gather eff l) as [es'|]; simpl; [| done].
    by rewrite pushEdges_app.
Qed.

Lemma visitInstruction_pushes action s ix :
  visitInstruction action s ix =
    (λ es, pushEdges es s) <$> instructionEdges action ix.
Proof.
  unfold instructionEdges, visitInstruction.
  destruct (accounts ix) as [accs|]; simpl; [| by rewrite pushEdges_nil].
  case_bool_decide; simpl; [| by rewrite pushEdges_nil].
  destruct (accs !! 0%nat ≫= toBase58) as [f|]; simpl; [| done].
  destruct (accs !! 1%nat ≫= toBase58) as [t|]; simpl; [| done].
  reflexivity.
Qed.

Lemma visitTransaction_pushes s tx :
  visitTransaction s tx = (λ es, pushEdges es s) <$> transactionEdges tx.
Proof.
  unfold visitTransaction, transactionEdges.
  destruct (txInstructions tx) as [ixs|]; simpl; [| done].
  apply forEach_gather. intros. apply visitInstruction_pushes.
Qed.

Lemma gather_app {A} (eff : A → option (list Edge)) (l1 l2 : list A) :
  gather eff (l1 ++ l2) =
    es1 ← gather eff l1; es2 ← gather eff l2; Some (es1 ++ es2).
Proof.
  induction l1 as [|x l1 IH]; simpl.
  - by destruct (gather eff l2).
  - destruct (eff x) as [es|]; simpl; [| done]. rewrite IH.
    destruct (gather eff l1) as [es1|]; simpl; [| done].
    destruct (gather eff l2) as [es2|]; simpl; [| done].
    by rewrite app_assoc.
Qed.

Lemma gather_is_Some {A} (eff : A → option (list Edge)) (l : list A) :
  Forall (λ x, is_Some (eff x)) l → is_Some (gather eff l).
Proof.
  induction 1 as [|x l [es Hx] _ [es' IH]]; simpl; [by eexists |].
  rewrite Hx, IH. simpl. by eexists.
Qed.

Lemma wfInstruction_edges action ix :
  wfInstruction ix → is_Some (instructionEdges action ix).
Proof.
  intros Hwf. unfold instructionEdges, visitInstruction.
  destruct (accounts ix) as [accs|] eqn:Haccs; simpl; [| by eexists].
  case_bool_decide as Hlen; simpl; [| by eexists].
  destruct (Hwf accs Haccs Hlen) as (a & b & rest & ->). simpl. by eexists.
Qed.

Lemma wfTransaction_edges tx :
  wfTransaction tx → is_Some (transactionEdges tx).
Proof.
  intros (ixs & Hixs & Hwf). unfold transactionEdges. rewrite Hixs. simpl.
  apply gather_is_Some. revert Hwf. apply Forall_impl.
  intros ix. apply wfInstruction_edges.
Qed.

Lemma wfTransactions_edges txs :
  Forall wfTransaction txs → is_Some (gather transactionEdges txs).
Proof.
  intros Hwf. apply gather_is_Some. revert Hwf. apply Forall_impl.
  intros tx. apply wfTransaction_edges.
Qed.

(** The graph of present inputs, in terms of the gathered edges. *)
Lemma reconstructCallGraph_present a ins td txs :
  insights a = Some ins → transactions td = Some txs →
  reconstructCallGraph (Some a) (Some td) =
    match gather transactionEdges txs with
    | Some es => {| nodes := addEndpoints es [address ins]; edges := es |}
    | None => fallback
    end.
Proof.
  intros Hins Htxs. unfold reconstructCallGraph, reconstructCallGraph_try. simpl.
  rewrite Hins, Htxs. simpl.
  rewrite (forEach_gather visitTransaction transactionEdges txs
             visitTransaction_pushes).
  by destruct (gather transactionEdges txs).
Qed.

Lemma gather_None {A} (eff : A → option (list Edge)) (l : list A) x :
  x ∈ l → eff x = None → gather eff l = None.
Proof.
  intros Hin Hx. induction l as [|y l IH]; [by apply elem_of_nil in Hin |].
  simpl. apply elem_of_cons in Hin as [<- | Hin]; [by rewrite Hx |].
  rewrite (IH Hin). by destruct (eff y).
Qed.

Lemma addEndpoints_head es : ∀ n ns, head (addEndpoints es (n :: ns)) = Some n.
Proof.
  unfold addEndpoints, addNode.
  induction es as [|e es IH]; intros n ns; simpl; [done |].
  repeat case_bool_decide; simpl; apply IH.
Qed.

Lemma addNode_set n ns :
  list_to_set (addNode n ns) =@{gset string} {[n]} ∪ list_to_set ns.
Proof.
  unfold addNode. case_bool_decide as Hin.
  - apply (elem_of_list_to_set (C := gset string)) in Hin. set_solver.
  - rewrite list_to_set_app_L. simpl. set_solver.
Qed.

Lemma addEndpoints_set es : ∀ ns,
  list_to_set (addEndpoints es ns) =@{gset string} list_to_set ns ∪ endpoints es.
Proof.
  unfold addEndpoints, endpoints.
  induction es as [|e es IH]; intros ns; simpl.
  - set_solver.
  - rewrite IH, !addNode_set. set_solver.
Qed.

Lemma endpoints_app es1 es2 :
  endpoints (es1 ++ es2) = endpoints es1 ∪ endpoints es2.
Proof. unfold endpoints. by rewrite flat_map_app, list_to_set_app_L. Qed.

Lemma addNode_keeps n m ns : n ∈ ns → n ∈ addNode m ns.
Proof.
  unfold addNode. case_bool_decide; [done |]. intros. apply elem_of_app. by left.
Qed.

Lemma addEndpoints_keeps es : ∀ n ns, n ∈ ns → n ∈ addEndpoints es ns.
Proof.
  unfold addEndpoints. induction es as [|e es IH]; intros n ns Hin; simpl; [done |].
  apply IH. by do 2 apply addNode_keeps.
Qed.

End CallGraphBuilderFacts.

(** C6. [reconstructCallGraph] is additive on well-formed transaction lists:
    the edges of the graph of [T1 ++ T2] are those of [T1] followed by those
    of [T2], so the edge multiset is the sum by count of the two edge
    multisets, and the node set is the union of the two node sets. *)
Theorem reconstructCallGraph_additive analysis T1 T2 eco1 eco2 eco12 :
  Forall CallGraphBuilder.wfTransaction T1 →
  Forall CallGraphBuilder.wfTransaction T2 →
  let graph T eco :=
    CallGraphBuilder.reconstructCallGraph analysis
      (Some {| transactions := Some T; economicInsights := eco |}) in
  edges (graph (T1 ++ T2) eco12) = edges (graph T1 eco1) ++ edges (graph T2 eco2)
  ∧ list_to_set_disj (edges (graph (T1 ++ T2) eco12)) =@{gmultiset Edge}
      list_to_set_disj (edges (graph T1 eco1))
      ⊎ list_to_set_disj (edges (graph T2 eco2))
  ∧ list_to_set (nodes (graph (T1 ++ T2) eco12)) =@{gset string}
      list_to_set (nodes (graph T1 eco1)) ∪ list_to_set (nodes (graph T2 eco2)).
Proof.
  intros Hwf1 Hwf2 graph.
  assert (Hedges : edges (graph (T1 ++ T2) eco12)
                   = edges (graph T1 eco1) ++ edges (graph T2 eco2)
                 ∧ list_to_set (nodes (graph (T1 ++ T2) eco12)) =@{gset string}
                     list_to_set (nodes (graph T1 eco1))
                     ∪ list_to_set (nodes (graph T2 eco2))).
  { unfold graph.
    destruct analysis as [[[ins|]]|]; [| by split; [| set_solver] ..].
    rewrite (reconstructCallGraph_present {| insights := Some ins |} ins
               {| transactions := Some (T1 ++ T2); economicInsights := eco12 |}
               (T1 ++ T2) eq_refl eq_refl).
    rewrite (reconstructCallGraph_present {| insights := Some ins |} ins
               {| transactions := Some T1; economicInsights := eco1 |}
               T1 eq_refl eq_refl).
    rewrite (reconstructCallGraph_present {| insights := Some ins |} ins
               {| transactions := Some T2; economicInsights := eco2 |}
               T2 eq_refl eq_refl).
    rewrite gather_app.
    destruct (wfTransactions_edges T1 Hwf1) as [es1 ->].
    destruct (wfTransactions_edges T2 Hwf2) as [es2 ->].
    simpl. split; [reflexivity |].
    rewrite !addEndpoints_set, endpoints_app. set_solver. }
  destruct Hedges as [Hedges Hnodes].
  split; [exact Hedges |]. split; [| exact Hnodes].
  by rewrite Hedges, list_to_set_disj_app.
Qed.

Lemma reconstructCallGraph_additive_witness :
  Forall CallGraphBuilder.wfTransaction [Scenarios.swapTransaction]
  ∧ edges (CallGraphBuilder.reconstructCallGraph (Some Scenarios.someAnalysis)
             (Some {| transactions := Some ([Scenarios.swapTransaction]
                                            ++ [Scenarios.swapTransaction]);
                      economicInsights := None |}))
    = edges (CallGraphBuilder.reconstructCallGraph (Some Scenarios.someAnalysis)
               (Some {| transactions := Some [Scenarios.swapTransaction];
                        economicInsights := None |}))
      ++ edges (CallGraphBuilder.reconstructCallGraph (Some Scenarios.someAnalysis)
                  (Some {| transactions := Some [Scenarios.swapTransaction];
                           economicInsights := None |})).
Proof.
  assert (Hwf : Forall CallGraphBuilder.wfTransaction [Scenarios.swapTransaction]).
  { repeat constructor. exists [Scenarios.raydiumInstruction].
    split; [reflexivity |]. repeat constructor.
    intros accs [= <-] _. by eexists _, _, _. }
  split; [exact Hwf |].
  exact (proj1 (reconstructCallGraph_additive (Some Scenarios.someAnalysis)
                  [Scenarios.swapTransaction] [Scenarios.swapTransaction]
                  None None None Hwf Hwf)).
Defined.

(** C9 (as the code has it). When [analysis.insights] and
    [transactions.transactions] are present and the transactions are well
    formed, the returned graph has the analysed program address as its first
    node; when one of the two is missing, or a transaction has no instruction
    list, the returned graph is empty; and every returned graph is of one of
    these two kinds. *)
Theorem reconstructCallGraph_root a ins td txs :
  insights a = Some ins → transactions td = Some txs →
  (Forall CallGraphBuilder.wfTransaction txs →
   address ins ∈ nodes (CallGraphBuilder.reconstructCallGraph (Some a) (Some td))
   ∧ head (nodes (CallGraphBuilder.reconstructCallGraph (Some a) (Some td)))
     = Some (address ins))
  ∧ ((∃ tx, tx ∈ txs ∧ txInstructions tx = None) →
     CallGraphBuilder.reconstructCallGraph (Some a) (Some td)
     = {| nodes := []; edges := [] |})
  ∧ (CallGraphBuilder.reconstructCallGraph (Some a) (Some td)
     = {| nodes := []; edges := [] |}
     ∨ head (nodes (CallGraphBuilder.reconstructCallGraph (Some a) (Some td)))
       = Some (address ins))
  ∧ (∀ analysis transactionData,
       analysis ≫= insights = None ∨ transactionData ≫= transactions = None →
       CallGraphBuilder.reconstructCallGraph analysis transactionData
       = {| nodes := []; edges := [] |}).
Proof.
  intros Hins Htxs.
  rewrite (reconstructCallGraph_present a ins td txs Hins Htxs).
  split; [| split; [| split]].
  - intros Hwf. destruct (wfTransactions_edges txs Hwf) as [es ->]. simpl.
    split; [apply addEndpoints_keeps, list_elem_of_here |].
    apply addEndpoints_head.
  - intros (tx & Hin & Hnone).
    rewrite (gather_None CallGraphBuilder.transactionEdges txs tx Hin); [done |].
    unfold CallGraphBuilder.transactionEdges. by rewrite Hnone.
  - destruct (CallGraphBuilder.gather _ txs) as [es|]; [right | by left].
    apply addEndpoints_head.
  - intros analysis transactionData Hmissing.
    unfold CallGraphBuilder.reconstructCallGraph,
      CallGraphBuilder.reconstructCallGraph_try.
    destruct Hmissing as [-> | Hmissing]; [done |].
    destruct (analysis ≫= insights); simpl; [by rewrite Hmissing | done].
Qed.

Lemma reconstructCallGraph_root_witness :
  insights Scenarios.someAnalysis ≫= (λ ins, Some (address ins))
    = Some Scenarios.someProgram
  ∧ Forall CallGraphBuilder.wfTransaction [Scenarios.swapTransaction]
  ∧ Scenarios.someProgram
    ∈ nodes (CallGraphBuilder.reconstructCallGraph (Some Scenarios.someAnalysis)
               (Some {| transactions := Some [Scenarios.swapTransaction];
                        economicInsights := None |})).
Proof.
  assert (Hwf : Forall CallGraphBuilder.wfTransaction [Scenarios.swapTransaction]).
  { repeat constructor. exists [Scenarios.raydiumInstruction].
    split; [reflexivity |]. repeat constructor.
    intros accs [= <-] _. by eexists _, _, _. }
  split; [reflexivity |]. split; [exact Hwf |].
  exact (proj1 (proj1 (reconstructCallGraph_root Scenarios.someAnalysis _
                         {| transactions := Some [Scenarios.swapTransaction];
                            economicInsights := None |}
                         [Scenarios.swapTransaction] eq_refl eq_refl) Hwf)).
Defined.

(** C9 as stated fails on degraded input: with the [transactions] property
    missing, or with a transaction that has no instruction list, the returned
    graph is empty and does not contain the program address. *)
Lemma reconstructCallGraph_root_counterexample :
  insights Scenarios.someAnalysis ≫= (λ ins, Some (address ins))
    = Some Scenarios.someProgram
  ∧ (Scenarios.someProgram
     ∉ nodes (CallGraphBuilder.reconstructCallGraph (Some Scenarios.someAnalysis)
                (Some {| transactions := None; economicInsights := None |})))
  ∧ (Scenarios.someProgram
     ∉ nodes (CallGraphBuilder.reconstructCallGraph (Some Scenarios.someAnalysis)
                (Some {| transactions := Some [Scenarios.swapTransaction;
                                               Scenarios.brokenTransaction];
                         economicInsights := None |}))).
Proof.
  split; [reflexivity |].
  split; vm_compute; apply not_elem_of_nil.
Qed.

(** ** EconomicAggregator *)

Section EconomicAggregatorFacts.
Import EconomicAggregator.

(** *** The key separates its three parts *)





(** *** The reduction *)








(** *** The stable sort *)






(** *** One group per triple *)






End EconomicAggregatorFacts.





(** * Further properties

    Properties of the same stages beyond the ones above, and of the stages
    that consume their results: fee analysis, governance inference, risk
    assessment, the audit report, IDL generation, the deep dive, the second
    risk predictor and the IDA export. *)

Section ScoreWindows.
Import SafetyAssessor.

Lemma assessSafety_cases analysis auths td cg :
  assessSafety analysis auths td cg = fallback
  ∨ ∃ ins eco,
      analysis ≫= insights = Some ins
      ∧ td ≫= economicInsights = Some eco
      ∧ assessSafety analysis auths td cg =
          let s := rule (complexGraph cg) complexInteractionsRisk 10
                     (rule (highSuspiciousVolume eco) suspiciousVolumeRisk 15
                        (rule (singleAuthority auths) singleAuthorityRisk 10
                           (rule (hiddenMintSignal ins) hiddenMintRisk 20 (80, [])))) in
          {| safetyScore := JS.clamp0_100 (fst s); risks := snd s |}.
Proof.
  unfold assessSafety, assessSafety_try.
  destruct (analysis ≫= insights) as [ins|]; [| by left]. simpl.
  destruct (td ≫= economicInsights) as [eco|]; [| by left]. simpl.
  right. by exists ins, eco.
Qed.

(** The scores [assessSafety] can return; the score 80 comes without
    risk. *)
Lemma assessSafety_score_values analysis authorityInsights transactionData callGraph :
  let r := assessSafety analysis authorityInsights transactionData
             callGraph in
  safetyScore r ∈ [80; 70; 65; 60; 55; 50; 45; 40; 35; 25]
  ∧ (safetyScore r = 80 → risks r = []).
Proof.
  intros r. subst r.
  destruct (assessSafety_cases analysis authorityInsights transactionData callGraph)
    as [-> | (ins & eco & _ & _ & ->)].
  - simpl. split; [repeat constructor | lia].
  - unfold rule, penalize.
    destruct (hiddenMintSignal ins),
      (singleAuthority authorityInsights),
      (highSuspiciousVolume eco),
      (complexGraph callGraph); simpl;
      (split; [vm_compute; repeat constructor | try done; vm_compute; intros [=]]).
Qed.

End ScoreWindows.

(** X1. Whatever its inputs are, [assessSafety] returns one of the ten
    scores 80, 70, 65, 60, 55, 50, 45, 40, 35 and 25: never less than 25 nor
    more than 80, so the clamp to [0,100] never changes the score.  It lists
    at most four risks, none when the score is 80, and an empty list comes
    with the score 80 or with the neutral result of the [catch] block. *)
Theorem assessSafety_scores analysis authorityInsights transactionData callGraph :
  let r := SafetyAssessor.assessSafety analysis authorityInsights transactionData
             callGraph in
  safetyScore r ∈ [80; 70; 65; 60; 55; 50; 45; 40; 35; 25]
  ∧ (length (risks r) ≤ 4)%nat
  ∧ (safetyScore r = 80 → risks r = [])
  ∧ (risks r = [] → safetyScore r = 80 ∨ r = SafetyAssessor.fallback).
Proof.
  intros r. subst r.
  destruct (assessSafety_cases analysis authorityInsights transactionData callGraph)
    as [-> | (ins & eco & _ & _ & ->)].
  - simpl. split; [repeat constructor |]. split; [lia |]. split; [lia |]. by right.
  - unfold SafetyAssessor.rule, SafetyAssessor.penalize.
    destruct (SafetyAssessor.hiddenMintSignal ins),
      (SafetyAssessor.singleAuthority authorityInsights),
      (SafetyAssessor.highSuspiciousVolume eco),
      (SafetyAssessor.complexGraph callGraph); simpl;
      (split; [vm_compute; repeat constructor |]);
      (split; [lia |]); (split; [try done; vm_compute; intros [=] |]);
      try (intros [=]); by left.
Qed.

(** X2. On every input, the fallback path included, [inferBehavior] returns
    a scam probability between 10 and 90 that is a multiple of 10 and a
    laundering likelihood between 10 and 80 that is a multiple of 5:
    [Math.min(100, ...)] never changes either value. *)
Theorem inferBehavior_scores analysis transactionData :
  let b := BehaviorInferer.inferBehavior analysis transactionData in
  10 ≤ scamProbability b ≤ 90
  ∧ 10 ≤ launderingLikelihood b ≤ 80
  ∧ (scamProbability b mod 10 = 0)
  ∧ (launderingLikelihood b mod 5 = 0).
Proof.
  intros b. subst b.
  destruct (inferBehavior_cases analysis transactionData)
    as [-> | (ins & eco & scam & laundering & conf & _ & _ & Hs & Hl & _ & ->)].
  - simpl. repeat split; lia.
  - simpl. unfold JS.min100.
    unfold BehaviorInferer.scamScore in Hs.
    destruct (authorityHolders ins) as [holders|]; [| done]. simpl in Hs.
    injection Hs as <-.
    unfold BehaviorInferer.launderingScore in Hl.
    destruct (tokenFlowInsights eco) as [flows|]; [| done]. simpl in Hl.
    destruct (transactionVolumeAnalysis eco) as [vol|]; [| done]. simpl in Hl.
    destruct (transactionTypes eco ≫= others) as [oth|]; [| done]. simpl in Hl.
    destruct (syscalls ins) as [sys|]; [| done]. simpl in Hl.
    injection Hl as <-. unfold BehaviorInferer.bump.
    repeat match goal with |- context [if ?c then _ else _] => destruct c end;
      repeat split; try lia; reflexivity.
Qed.

Section ProfilerMarkers.
Import BinaryProfiler.

Lemma occursIn_prefix needle rest hay :
  occursIn (needle ++ rest) hay → occursIn needle hay.
Proof.
  intros (pre & post & ->). exists pre, (rest ++ post). by rewrite <- !app_assoc.
Qed.

Lemma inferProgramType_nft address binary :
  inferProgramType address binary = "nft" →
  includes binary (bufferFrom "mintNFT") = true.
Proof.
  unfold inferProgramType. case_bool_decide; [done |].
  destruct (includes binary (bufferFrom "swap")); [done |].
  by destruct (includes binary (bufferFrom "mintNFT")).
Qed.

Lemma instructions_above_1000 n : 1000 < n / 8 ↔ 8008 ≤ n.
Proof.
  split; intros H.
  - destruct (decide (8008 ≤ n)) as [|Hn]; [done |].
    assert (n / 8 < 1001); [| lia].
    apply Z.div_lt_upper_bound; lia.
  - assert (1001 ≤ n / 8); [| lia].
    apply Z.div_le_lower_bound; lia.
Qed.

End ProfilerMarkers.

(** X3. A binary that [analyzeBinary] types as "nft" is always flagged
    [hiddenMint]: the marker [mintNFT] that decides the type contains the
    marker [mint] that sets the flag. *)
Theorem analyzeBinary_nft_hiddenMint binary address ins :
  insights (BinaryProfiler.analyzeBinary binary address) = Some ins →
  suspectedType ins = Some "nft" →
  hiddenMint ins = true.
Proof.
  unfold BinaryProfiler.analyzeBinary. intros [= <-]. simpl. intros [= Htype].
  apply inferProgramType_nft in Htype.
  apply includes_spec. apply includes_spec in Htype.
  apply (occursIn_prefix (BinaryProfiler.bufferFrom "mint")
           (BinaryProfiler.bufferFrom "NFT")).
  exact Htype.
Qed.

Lemma analyzeBinary_nft_hiddenMint_witness :
  ∃ ins,
    insights (BinaryProfiler.analyzeBinary Scenarios.nftImage Scenarios.someProgram)
      = Some ins
    ∧ suspectedType ins = Some "nft"
    ∧ hiddenMint ins = true.
Proof.
  eexists. split; [reflexivity |]. split; [vm_compute; reflexivity |].
  apply (analyzeBinary_nft_hiddenMint Scenarios.nftImage Scenarios.someProgram).
  - reflexivity.
  - vm_compute. reflexivity.
Defined.

(** X4. The reentrancy risk of [analyzeBinary] depends on the length of the
    binary only: it is "Moderate" from 8008 bytes on (more than 1000
    instructions of 8 bytes) and "Low" below, never "High"; the authority
    holders are always the one placeholder. *)
Theorem analyzeBinary_reentrancy binary address :
  ∃ ins,
    insights (BinaryProfiler.analyzeBinary binary address) = Some ins
    ∧ reentrancyRisk ins =
        Some (if bool_decide (8008 ≤ Z.of_nat (length binary)) then "Moderate"
              else "Low")
    ∧ reentrancyRisk ins ≠ Some "High"
    ∧ authorityHolders ins = Some ["8x7y...z9k2"].
Proof.
  unfold BinaryProfiler.analyzeBinary. rewrite floor_eighth.
  eexists. split; [reflexivity |].
  cbn [reentrancyRisk authorityHolders].
  split.
  - f_equal. repeat case_bool_decide; try done.
    + exfalso. apply instructions_above_1000 in H. lia.
    + exfalso. apply H. by apply instructions_above_1000.
  - split; [| done]. by case_bool_decide.
Qed.

(** X5. [detectSyscalls] returns names of the three signatures in their
    order of declaration, each at most once, and the name of a signature is
    returned exactly when its three bytes occur in the binary. *)
Theorem detectSyscalls_signatures binary :
  sublist (BinaryProfiler.detectSyscalls binary)
    ["sol_invoke"; "sol_verify_signature"; "sol_alloc_free"]
  ∧ ∀ name signature,
      (name, signature) ∈ BinaryProfiler.syscallSignatures →
      (name ∈ BinaryProfiler.detectSyscalls binary
       ↔ BinaryProfiler.occursIn signature binary).
Proof.
  unfold BinaryProfiler.detectSyscalls, BinaryProfiler.syscallSignatures.
  split.
  - change ["sol_invoke"; "sol_verify_signature"; "sol_alloc_free"]
      with (fst <$> BinaryProfiler.syscallSignatures).
    apply fmap_sublist, sublist_filter.
  - intros name signature Hin. rewrite <- includes_spec.
    rewrite list_elem_of_fmap. split.
    + intros ([name' signature'] & Hname & Hf).
      apply list_elem_of_filter in Hf as [Hinc Hin'].
      simpl in Hname, Hinc. subst name'.
      rewrite !elem_of_cons, elem_of_nil in Hin, Hin'.
      destruct Hin as [Hin | [Hin | [Hin | []]]];
        destruct Hin' as [Hin' | [Hin' | [Hin' | []]]];
        simplify_eq; done.
    + intros Hinc. exists (name, signature). split; [done |].
      apply list_elem_of_filter. done.
Qed.

Section RetryLoopInvariant.
Import TransactionFetcher.

Variable source : nat → Attempt.
Variable cacheKey : string.
Variable cache : gmap string TransactionData.


End RetryLoopInvariant.





(** X8. A computed result is served from the cache afterwards: when the
    data source completes after at most five failed attempts, a second call
    for the same address and options, made on the cache the first call
    left, returns the same result without waiting, whatever the data source
    does then.  (The expiry of cache entries is a change of the cache
    between the two calls.) *)
Theorem getRecentTransactions_cached_again apiKey cache source address options
    k result :
  TransactionFetcher.missing apiKey = false →
  (k ≤ 5)%nat →
  TransactionFetcher.failsThenSucceeds k result source →
  ∃ first,
    TransactionFetcher.getRecentTransactions apiKey cache source address options
      = TransactionFetcher.Returned first
    ∧ ∀ source',
        TransactionFetcher.getRecentTransactions apiKey
          (TransactionFetcher.cacheAfter first) source' address options
        = TransactionFetcher.Returned
            {| TransactionFetcher.returned := TransactionFetcher.returned first;
               TransactionFetcher.cacheAfter := TransactionFetcher.cacheAfter first;
               TransactionFetcher.slept := [] |}.
Proof.
  intros Hkey Hk [Hfail Hok].
  unfold TransactionFetcher.getRecentTransactions. rewrite Hkey.
  set (key := TransactionFetcher.cacheKeyOf address
                (default 10 (TransactionFetcher.limit options))
                (default "7d" (TransactionFetcher.timeframe options))).
  destruct (cache !! key) as [cached|] eqn:Hcache.
  - eexists. split; [reflexivity |]. intros source'. simpl. by rewrite Hcache.
  - eexists. split; [reflexivity |]. intros source'.
    rewrite (attemptLoop_completes source key cache k 0 _ [] result);
      [| unfold TransactionFetcher.maxRetries; lia
       | unfold TransactionFetcher.maxRetries; lia
       | intros i Hi; apply Hfail; lia
       | exact Hok ].
    simpl. by rewrite lookup_insert_eq.
Qed.

Lemma getRecentTransactions_cached_again_witness :
  TransactionFetcher.missing (Some "configured-key") = false
  ∧ (4 ≤ 5)%nat
  ∧ TransactionFetcher.failsThenSucceeds 4 Scenarios.fetched Scenarios.flakySource
  ∧ ∃ first,
      TransactionFetcher.getRecentTransactions (Some "configured-key") ∅
        Scenarios.flakySource Scenarios.someProgram
        {| TransactionFetcher.limit := None; TransactionFetcher.timeframe := None |}
      = TransactionFetcher.Returned first
      ∧ ∀ source',
          TransactionFetcher.getRecentTransactions (Some "configured-key")
            (TransactionFetcher.cacheAfter first) source' Scenarios.someProgram
            {| TransactionFetcher.limit := None;
               TransactionFetcher.timeframe := None |}
          = TransactionFetcher.Returned
              {| TransactionFetcher.returned := TransactionFetcher.returned first;
                 TransactionFetcher.cacheAfter := TransactionFetcher.cacheAfter first;
                 TransactionFetcher.slept := [] |}.
Proof.
  assert (Hflaky : TransactionFetcher.failsThenSucceeds 4 Scenarios.fetched
                     Scenarios.flakySource).
  { split; [| reflexivity].
    intros i Hi. right. unfold Scenarios.flakySource.
    by rewrite bool_decide_eq_true_2. }
  split; [reflexivity |]. split; [lia |]. split; [exact Hflaky |].
  exact (getRecentTransactions_cached_again (Some "configured-key") ∅
           Scenarios.flakySource Scenarios.someProgram
           {| TransactionFetcher.limit := None; TransactionFetcher.timeframe := None |}
           4 Scenarios.fetched eq_refl ltac:(lia) Hflaky).
Defined.

Section CallGraphShape.
Import CallGraphBuilder.

Lemma addNode_NoDup n ns : NoDup ns → NoDup (addNode n ns).
Proof.
  intros Hns. unfold addNode. case_bool_decide as Hin; [done |].
  apply list.NoDup_app. split; [done |]. split.
  - intros x Hx Hx'. apply list_elem_of_singleton in Hx' as ->. done.
  - apply NoDup_singleton.
Qed.

Lemma addEndpoints_NoDup es : ∀ ns, NoDup ns → NoDup (addEndpoints es ns).
Proof.
  unfold addEndpoints. induction es as [|e es IH]; intros ns Hns; simpl; [done |].
  apply IH. by do 2 apply addNode_NoDup.
Qed.

Lemma addEndpoints_closed es ns e :
  e ∈ es → from e ∈ addEndpoints es ns ∧ to e ∈ addEndpoints es ns.
Proof.
  intros He.
  assert (Hset : {[from e; to e]} ⊆@{gset string} list_to_set (addEndpoints es ns)).
  { rewrite addEndpoints_set. unfold endpoints.
    intros x Hx. apply elem_of_union_r. apply elem_of_list_to_set.
    apply list_elem_of_In, in_flat_map. exists e.
    split; [by apply list_elem_of_In |].
    apply list_elem_of_In. set_solver. }
  split; apply (elem_of_list_to_set (C := gset string)), Hset; set_solver.
Qed.

(** The graph is the fallback or is built from the edges gathered from
    present inputs. *)
Lemma reconstructCallGraph_cases analysis transactionData :
  reconstructCallGraph analysis transactionData = fallback
  ∨ ∃ ins txs es,
      analysis ≫= insights = Some ins
      ∧ transactionData ≫= transactions = Some txs
      ∧ gather transactionEdges txs = Some es
      ∧ reconstructCallGraph analysis transactionData
        = {| nodes := addEndpoints es [address ins]; edges := es |}.
Proof.
  unfold reconstructCallGraph, reconstructCallGraph_try.
  destruct (analysis ≫= insights) as [ins|]; [| by left]. simpl.
  destruct (transactionData ≫= transactions) as [txs|]; [| by left]. simpl.
  rewrite (forEach_gather visitTransaction transactionEdges txs
             visitTransaction_pushes).
  destruct (gather transactionEdges txs) as [es|] eqn:Hes; [| by left]. simpl.
  right. by exists ins, txs, es.
Qed.

Lemma gather_elem {A} (eff : A → option (list Edge)) (l : list A) es e :
  gather eff l = Some es → e ∈ es →
  ∃ x es', x ∈ l ∧ eff x = Some es' ∧ e ∈ es'.
Proof.
  revert es. induction l as [|x l IH]; intros es; simpl.
  - intros [= <-] He. by apply elem_of_nil in He.
  - destruct (eff x) as [es1|] eqn:Hx; [| done]. simpl.
    destruct (gather eff l) as [es2|]; [| done]. simpl.
    intros [= <-] He. apply elem_of_app in He as [He | He].
    + exists x, es1. split; [apply list_elem_of_here | done].
    + destruct (IH es2 eq_refl He) as (y & es' & Hy & Heff & He').
      exists y, es'. split; [by apply list_elem_of_further | done].
Qed.

Lemma instructionEdges_shape kind ix es e :
  instructionEdges kind ix = Some es → e ∈ es →
  es = [e] ∧ action e = kind ∧ edgeCount e = 1
  ∧ ∃ accs, accounts ix = Some accs
      ∧ accs !! 0%nat = Some (PublicKey (from e))
      ∧ accs !! 1%nat = Some (PublicKey (to e)).
Proof.
  unfold instructionEdges, visitInstruction.
  destruct (accounts ix) as [accs|]; simpl;
    [| intros [= <-] He; by apply elem_of_nil in He].
  case_bool_decide; simpl; [| intros [= <-] He; by apply elem_of_nil in He].
  destruct (accs !! 0%nat) as [[f|]|] eqn:H0; simpl; try done.
  destruct (accs !! 1%nat) as [[t|]|] eqn:H1; simpl; try done.
  intros [= <-] He. apply list_elem_of_singleton in He as ->. simpl.
  split; [done |]. split; [done |]. split; [done |]. by exists accs.
Qed.

(** Where an edge of the graph comes from: an instruction of a
    transaction of the input, which pushed it. *)
Lemma reconstructCallGraph_edge_origin analysis transactionData e :
  e ∈ edges (reconstructCallGraph analysis transactionData) →
  ∃ txs tx ixs ix,
    transactionData ≫= transactions = Some txs
    ∧ tx ∈ txs ∧ txInstructions tx = Some ixs ∧ ix ∈ ixs
    ∧ instructionEdges (txType tx) ix = Some [e].
Proof.
  destruct (reconstructCallGraph_cases analysis transactionData)
    as [-> | (ins & txs & es & _ & Htxs & Hes & ->)]; simpl.
  - intros He. by apply elem_of_nil in He.
  - intros He.
    destruct (gather_elem _ _ _ _ Hes He) as (tx & es' & Htx & Hedges & He').
    unfold transactionEdges in Hedges.
    destruct (txInstructions tx) as [ixs|] eqn:Hixs; [| done]. simpl in Hedges.
    destruct (gather_elem _ _ _ _ Hedges He') as (ix & es'' & Hix & Hedge & He'').
    destruct (instructionEdges_shape _ _ _ _ Hedge He'') as (-> & _).
    by exists txs, tx, ixs, ix.
Qed.

End CallGraphShape.

(** X9. The graph that [reconstructCallGraph] returns is closed: its node
    list has no duplicates and both ends of every edge are nodes; this holds
    on every input, for the empty graph of the [catch] block too. *)
Theorem reconstructCallGraph_closed analysis transactionData :
  let graph := CallGraphBuilder.reconstructCallGraph analysis transactionData in
  NoDup (nodes graph)
  ∧ ∀ e, e ∈ edges graph → from e ∈ nodes graph ∧ to e ∈ nodes graph.
Proof.
  intros graph. subst graph.
  destruct (reconstructCallGraph_cases analysis transactionData)
    as [-> | (ins & txs & es & _ & _ & _ & ->)]; simpl.
  - split; [apply NoDup_nil_2 |]. intros e He. by apply elem_of_nil in He.
  - split.
    + apply addEndpoints_NoDup, NoDup_singleton.
    + intros e. apply addEndpoints_closed.
Qed.

(** X10. Edges are never merged: every edge of the returned graph has
    [count] 1 and comes from one instruction of one transaction of the
    input, whose type is the edge's [action] and whose first two accounts
    are the public keys at the two ends of the edge. *)
Theorem reconstructCallGraph_edges_unmerged analysis transactionData e :
  e ∈ edges (CallGraphBuilder.reconstructCallGraph analysis transactionData) →
  edgeCount e = 1
  ∧ ∃ txs tx ixs ix accs,
      transactionData ≫= transactions = Some txs
      ∧ tx ∈ txs ∧ txInstructions tx = Some ixs ∧ ix ∈ ixs
      ∧ action e = txType tx
      ∧ accounts ix = Some accs
      ∧ accs !! 0%nat = Some (PublicKey (from e))
      ∧ accs !! 1%nat = Some (PublicKey (to e)).
Proof.
  intros He.
  destruct (reconstructCallGraph_edge_origin analysis transactionData e He)
    as (txs & tx & ixs & ix & Htxs & Htx & Hixs & Hix & Hedge).
  destruct (instructionEdges_shape (txType tx) ix [e] e Hedge)
    as (_ & Haction & Hcount & accs & Haccs & H0 & H1);
    [apply list_elem_of_here |].
  split; [exact Hcount |]. by exists txs, tx, ixs, ix, accs.
Qed.

Lemma reconstructCallGraph_edges_unmerged_witness :
  Scenarios.swapEdge
    ∈ edges (CallGraphBuilder.reconstructCallGraph (Some Scenarios.someAnalysis)
               (Some Scenarios.swapData))
  ∧ edgeCount Scenarios.swapEdge = 1
  ∧ ∃ txs tx ixs ix accs,
      Some Scenarios.swapData ≫= transactions = Some txs
      ∧ tx ∈ txs ∧ txInstructions tx = Some ixs ∧ ix ∈ ixs
      ∧ action Scenarios.swapEdge = txType tx
      ∧ accounts ix = Some accs
      ∧ accs !! 0%nat = Some (PublicKey (from Scenarios.swapEdge))
      ∧ accs !! 1%nat = Some (PublicKey (to Scenarios.swapEdge)).
Proof.
  assert (Hin : Scenarios.swapEdge
                  ∈ edges (CallGraphBuilder.reconstructCallGraph
                             (Some Scenarios.someAnalysis) (Some Scenarios.swapData))).
  { vm_compute. apply list_elem_of_here. }
  split; [exact Hin |].
  exact (reconstructCallGraph_edges_unmerged (Some Scenarios.someAnalysis)
           (Some Scenarios.swapData) Scenarios.swapEdge Hin).
Defined.

Section TransactionBuilderFacts.
Import TransactionBuilder.

Lemma inferTransactionType_in_kinds parsedTx programAddress :
  TransactionClassifier.inferTransactionType parsedTx programAddress ∈ kinds.
Proof.
  unfold TransactionClassifier.inferTransactionType, kinds.
  destruct parsedTx as [tx|]; [| repeat constructor].
  destruct (existsb TransactionClassifier.isGovernance _); [repeat constructor |].
  destruct (TransactionClassifier.tokenBlock _) as [kind|] eqn:E.
  - apply tokenBlock_Some in E as (_ & _ & _ & Hkind).
    unfold TransactionClassifier.tokenKinds in Hkind.
    rewrite !elem_of_cons, elem_of_nil in Hkind.
    destruct Hkind as [-> | [-> | [-> | []]]]; repeat constructor.
  - destruct (existsb (TransactionClassifier.isSwap programAddress) _);
      [repeat constructor |].
    destruct (existsb TransactionClassifier.isNft _); [repeat constructor |].
    destruct (existsb (TransactionClassifier.isSelf programAddress) _);
      repeat constructor.
Qed.

(** The classifier returns one of seven strings; ["custom"] is not one of
    them. *)
Lemma inferTransactionType_reachable parsedTx programAddress :
  TransactionClassifier.inferTransactionType parsedTx programAddress
  ∈ ["governance"; "transfer"; "mint"; "burn"; "swap"; "nft_mint"; "unknown"].
Proof.
  pose proof (inferTransactionType_in_kinds parsedTx programAddress) as Hin.
  pose proof (inferTransactionType_not_custom parsedTx programAddress) as Hne.
  unfold kinds in Hin. rewrite !elem_of_cons, elem_of_nil in Hin.
  rewrite !elem_of_cons, elem_of_nil. tauto.
Qed.

Lemma sumVolumes_from (txs : list Transaction) : ∀ a,
  (foldl (λ sum tx, sum + txVolumeSOL tx) a txs == a + sumVolumes txs)%Q.
Proof.
  unfold sumVolumes. induction txs as [|tx txs IH]; intros a; simpl.
  - lra.
  - rewrite (IH (a + txVolumeSOL tx)%Q), (IH (0 + txVolumeSOL tx)%Q). lra.
Qed.

Lemma sumVolumes_cons tx txs :
  (sumVolumes (tx :: txs) == txVolumeSOL tx + sumVolumes txs)%Q.
Proof.
  unfold sumVolumes at 1. simpl. rewrite sumVolumes_from. lra.
Qed.




Lemma buildAll_kinds address answers :
  Forall (λ tx, txType tx
            ∈ ["governance"; "transfer"; "mint"; "burn"; "swap"; "nft_mint";
               "unknown"])
    (buildAll address answers).
Proof.
  unfold buildAll. apply Forall_fmap, Forall_forall. intros answer _.
  apply inferTransactionType_reachable.
Qed.

(** A transaction of one of the seven kinds is selected by exactly one of
    the seven filters. *)
Lemma ofKinds_partition txs :
  Forall (λ tx, txType tx
            ∈ ["governance"; "transfer"; "mint"; "burn"; "swap"; "nft_mint";
               "unknown"]) txs →
  lengthOf (ofKinds ["swap"] txs) + lengthOf (ofKinds ["transfer"] txs)
  + lengthOf (ofKinds ["mint"] txs) + lengthOf (ofKinds ["burn"] txs)
  + lengthOf (ofKinds ["governance"] txs) + lengthOf (ofKinds ["nft_mint"] txs)
  + lengthOf (ofKinds ["unknown"; "custom"] txs) = lengthOf txs
  ∧ (sumVolumes (ofKinds ["swap"] txs) + sumVolumes (ofKinds ["transfer"] txs)
     + sumVolumes (ofKinds ["mint"] txs) + sumVolumes (ofKinds ["burn"] txs)
     + sumVolumes (ofKinds ["governance"] txs)
     + sumVolumes (ofKinds ["nft_mint"] txs)
     + sumVolumes (ofKinds ["unknown"; "custom"] txs) == sumVolumes txs)%Q
  ∧ ofKinds ["unknown"; "custom"] txs = ofKinds ["unknown"] txs.
Proof.
  unfold lengthOf, ofKinds.
  induction 1 as [|tx txs Htx _ (IHn & IHv & IHo)].
  - split; [reflexivity |]. split; [unfold sumVolumes; simpl; lra | reflexivity].
  - rewrite !filter_cons.
    rewrite !elem_of_cons, elem_of_nil in Htx.
    destruct Htx as [Ht | [Ht | [Ht | [Ht | [Ht | [Ht | [Ht | []]]]]]]];
      rewrite Ht; simpl;
      rewrite ?sumVolumes_cons; rewrite IHo in IHn, IHv |- *;
      (split; [lia | split; [lra | reflexivity]]).
Qed.

Lemma buildTransaction_token_standard address signature parsedTx :
  txType (buildTransaction address signature parsedTx)
    ∈ TransactionClassifier.tokenKinds →
  existsb TransactionClassifier.isToken (instructionsOf parsedTx) = true.
Proof.
  unfold buildTransaction, TransactionClassifier.tokenKinds. cbn [txType].
  unfold TransactionClassifier.inferTransactionType, instructionsOf.
  destruct parsedTx as [response|]; simpl.
  - destruct (existsb TransactionClassifier.isGovernance _).
    { rewrite !elem_of_cons, elem_of_nil. intros [? | [? | [? | []]]]; done. }
    unfold TransactionClassifier.tokenBlock.
    destruct (existsb TransactionClassifier.isToken _); [done |].
    destruct (existsb (TransactionClassifier.isSwap address) _).
    { rewrite !elem_of_cons, elem_of_nil. intros [? | [? | [? | []]]]; done. }
    destruct (existsb TransactionClassifier.isNft _).
    { rewrite !elem_of_cons, elem_of_nil. intros [? | [? | [? | []]]]; done. }
    destruct (existsb (TransactionClassifier.isSelf address) _);
      rewrite !elem_of_cons, elem_of_nil; intros [? | [? | [? | []]]]; done.
  - rewrite !elem_of_cons, elem_of_nil. intros [? | [? | [? | []]]]; done.
Qed.

End TransactionBuilderFacts.

(** X11. A transaction that the fetch classifies as transfer, mint or burn
    is never marked non-standard, so it is in no selection of non-standard
    transactions and its volume never counts as suspicious. *)
Theorem buildTransaction_token_kinds_standard address signature parsedTx :
  txType (TransactionBuilder.buildTransaction address signature parsedTx)
    ∈ ["transfer"; "mint"; "burn"] →
  isNonStandard (TransactionBuilder.buildTransaction address signature parsedTx)
    = false
  ∧ ∀ txs,
      TransactionBuilder.buildTransaction address signature parsedTx
        ∉ TransactionBuilder.nonStandard txs.
Proof.
  intros Hkind. apply buildTransaction_token_standard in Hkind.
  assert (Hstd : isNonStandard
                   (TransactionBuilder.buildTransaction address signature parsedTx)
                 = false).
  { unfold TransactionBuilder.buildTransaction. cbn [isNonStandard].
    unfold TransactionBuilder.isNonStandardOf, TransactionBuilder.instructionsOf in *.
    destruct parsedTx as [response|]; [| done]. by rewrite Hkind. }
  split; [exact Hstd |]. intros txs Hin.
  apply list_elem_of_filter in Hin as [Hnon _]. congruence.
Qed.

Lemma buildTransaction_token_kinds_standard_witness :
  txType (TransactionBuilder.buildTransaction Scenarios.someProgram "5h6x"
            (Some Scenarios.transferResponse)) ∈ ["transfer"; "mint"; "burn"]
  ∧ isNonStandard (TransactionBuilder.buildTransaction Scenarios.someProgram "5h6x"
                     (Some Scenarios.transferResponse)) = false.
Proof.
  assert (Hkind : txType (TransactionBuilder.buildTransaction Scenarios.someProgram
                            "5h6x" (Some Scenarios.transferResponse))
                  ∈ ["transfer"; "mint"; "burn"]).
  { vm_compute. apply list_elem_of_here. }
  split; [exact Hkind |].
  exact (proj1 (buildTransaction_token_kinds_standard Scenarios.someProgram "5h6x"
                  (Some Scenarios.transferResponse) Hkind)).
Defined.

(** X12. The seven counters of [transactionTypes] partition the
    transactions of a fetch: their counts add up to [transactionCount] and
    their volumes (on exact numbers) to [totalVolumeSOL]; no transaction has
    the type "custom", so [others] counts the "unknown" ones only. *)
Theorem transactionTypes_partition address answers flows stdDev :
  let txs := TransactionBuilder.buildAll address answers in
  let eco := TransactionBuilder.economicInsightsOf txs flows stdDev in
  let n kinds := TransactionBuilder.lengthOf (TransactionBuilder.ofKinds kinds txs) in
  let v kinds := TransactionBuilder.sumVolumes (TransactionBuilder.ofKinds kinds txs) in
  transactionCount eco = JS.ofZ (Z.of_nat (length answers))
  ∧ n ["swap"] + n ["transfer"] + n ["mint"] + n ["burn"] + n ["governance"]
    + n ["nft_mint"] + n ["unknown"; "custom"] = Z.of_nat (length answers)
  ∧ (∃ total, totalVolumeSOL eco = Some total
       ∧ (v ["swap"] + v ["transfer"] + v ["mint"] + v ["burn"] + v ["governance"]
          + v ["nft_mint"] + v ["unknown"; "custom"] == total)%Q)
  ∧ TransactionBuilder.ofKinds ["custom"] txs = [].
Proof.
  intros txs eco n v.
  destruct (ofKinds_partition txs (buildAll_kinds address answers))
    as (Hn & Hv & Ho).
  assert (Hlen : TransactionBuilder.lengthOf txs = Z.of_nat (length answers)).
  { unfold TransactionBuilder.lengthOf, txs, TransactionBuilder.buildAll.
    by rewrite length_fmap. }
  split; [simpl; by rewrite Hlen |].
  split; [subst n; simpl; by rewrite Hn |].
  split; [exists (TransactionBuilder.sumVolumes txs); split; [reflexivity | exact Hv] |].
  destruct (TransactionBuilder.ofKinds ["custom"] txs) as [|tx rest] eqn:E;
    [done |].
  exfalso.
  assert (Hin : tx ∈ TransactionBuilder.ofKinds ["custom"] txs)
    by (rewrite E; apply list_elem_of_here).
  apply list_elem_of_filter in Hin as [Hcustom Hin].
  pose proof (buildAll_kinds address answers) as Hkinds.
  rewrite list.Forall_forall in Hkinds. specialize (Hkinds tx Hin).
  apply list_elem_of_singleton in Hcustom. rewrite Hcustom in Hkinds.
  rewrite !elem_of_cons, elem_of_nil in Hkinds.
  destruct Hkinds as [? | [? | [? | [? | [? | [? | [? | []]]]]]]]; done.
Qed.


Section FeeAnalyzerFacts.
Import FeeAnalyzer.

Lemma sumEntries_from (fees : list (string * Q)) : ∀ a,
  (foldl (λ sum entry, sum + snd entry) a fees == a + sumEntries fees)%Q.
Proof.
  unfold sumEntries. induction fees as [|e fees IH]; intros a; simpl.
  - lra.
  - rewrite (IH (a + snd e)%Q), (IH (0 + snd e)%Q). lra.
Qed.

Lemma sumEntries_cons e fees :
  (sumEntries (e :: fees) == snd e + sumEntries fees)%Q.
Proof. unfold sumEntries at 1. simpl. rewrite sumEntries_from. lra. Qed.






Lemma sumFees_cons tx txs :
  (TransactionBuilder.sumFees (tx :: txs)
   == txFee tx + TransactionBuilder.sumFees txs)%Q.
Proof.
  assert (Hfrom : ∀ l a, (foldl (λ sum tx, sum + txFee tx) a l
                          == a + TransactionBuilder.sumFees l)%Q).
  { unfold TransactionBuilder.sumFees.
    induction l as [|x l IH]; intros a; simpl; [lra |].
    rewrite (IH (a + txFee x)%Q), (IH (0 + txFee x)%Q). lra. }
  unfold TransactionBuilder.sumFees at 1. simpl. rewrite Hfrom. lra.
Qed.

Lemma sumEntries_fees txs :
  (sumEntries (feeEntry <$> txs)
   == TransactionBuilder.sumFees txs / TransactionBuilder.lamportsPerSol)%Q.
Proof.
  induction txs as [|tx txs IH].
  - unfold sumEntries, TransactionBuilder.sumFees. simpl. reflexivity.
  - rewrite fmap_cons, sumEntries_cons, IH, sumFees_cons.
    unfold feeEntry. simpl. field. unfold TransactionBuilder.lamportsPerSol. lra.
Qed.

Lemma lengthOr1_entries txs :
  lengthOr1 (feeEntry <$> txs) = TransactionBuilder.lengthOr1 txs.
Proof.
  unfold lengthOr1, TransactionBuilder.lengthOr1, TransactionBuilder.lengthOf.
  rewrite length_fmap. repeat case_bool_decide; lia.
Qed.

End FeeAnalyzerFacts.



(** X15. [analyzeFees] divides by 1e9 fees that [getRecentTransactions]
    has already converted to SOL: for the same transactions its
    [averageFeeSOL] is, on exact numbers, the [averageFeeSOL] of the
    economic insights divided by 10^9. *)
Theorem analyzeFees_average_unit txs flows stdDev :
  ∃ average,
    averageFeeSOL (TransactionBuilder.economicInsightsOf txs flows stdDev)
      = Some average
    ∧ (FeeAnalyzer.averageFeeSOL (FeeAnalyzer.summarize txs)
       == average / 1000000000)%Q.
Proof.
  eexists. split; [reflexivity |].
  unfold FeeAnalyzer.summarize. cbn [FeeAnalyzer.averageFeeSOL].
  rewrite sumEntries_fees, lengthOr1_entries.
  unfold TransactionBuilder.lamportsPerSol. field.
  assert (Hpos : 0 < TransactionBuilder.lengthOr1 txs).
  { unfold TransactionBuilder.lengthOr1, TransactionBuilder.lengthOf.
    case_bool_decide; lia. }
  rewrite (Zlt_Qlt 0) in Hpos. change (inject_Z 0) with 0%Q in Hpos. lra.
Qed.

(** X16. [analyzeFees] swallows what the fetch raises and analyses what it
    degrades to: without API key it returns the zero analysis of its [catch]
    block, whatever the cache holds, and when the request is not cached and
    all six attempts fail it reports no transaction, no fee spike and an
    average fee of 0. *)
Theorem analyzeFees_degraded apiKey cache source address limit :
  let analysis := FeeAnalyzer.analyzeFees apiKey cache source address limit in
  (TransactionFetcher.missing apiKey = true → analysis = FeeAnalyzer.fallback)
  ∧ (TransactionFetcher.missing apiKey = false →
     cache !! TransactionFetcher.cacheKeyOf address (default 25 limit) "7d" = None →
     TransactionFetcher.failsFirst 6 source →
     FeeAnalyzer.totalTransactions analysis = 0
     ∧ FeeAnalyzer.manipulation analysis = []
     ∧ (FeeAnalyzer.averageFeeSOL analysis == 0)%Q).
Proof.
  intros analysis. subst analysis.
  unfold FeeAnalyzer.analyzeFees, TransactionFetcher.getRecentTransactions.
  split.
  - intros Hkey. by rewrite Hkey.
  - intros Hkey Hmiss Hfail. rewrite Hkey.
    cbn [TransactionFetcher.limit TransactionFetcher.timeframe].
    change (default 10 (Some (default 25 limit))) with (default 25 limit).
    change (default "7d" None) with "7d".
    rewrite Hmiss.
    rewrite (attemptLoop_exhausted source _ cache 6 0 []);
      [| lia | reflexivity | intros i Hi; apply Hfail; lia ].
    simpl. split; [reflexivity |]. split; reflexivity.
Qed.

Section GovernanceFacts.
Import CallGraphBuilder GovernanceInferer.

Lemma votingObserved_spec graph :
  votingObserved graph = true ↔ ∃ e, e ∈ edges graph ∧ action e = "governance".
Proof.
  unfold votingObserved. rewrite existsb_exists. split.
  - intros (e & Hin & He). exists e. split; [by apply list_elem_of_In |].
    by apply bool_decide_eq_true in He.
  - intros (e & Hin & He). exists e. split; [by apply list_elem_of_In |].
    by apply bool_decide_eq_true.
Qed.

End GovernanceFacts.

(** X17. [inferGovernance] returns a trust score of 50, 60, 70 or 80, so
    [Math.min(100, ...)] never applies.  The type is "Decentralized" exactly
    when the score is at least 70, which is when both arguments are present
    and there is more than one authority; an empty list of authorities is
    reported as "Centralized", with the detail "Single authority
    detected". *)
Theorem inferGovernance_scores authorityInsights callGraph :
  let g := GovernanceInferer.inferGovernance authorityInsights callGraph in
  trustScore g ∈ [50; 60; 70; 80]
  ∧ (governanceType g = "Decentralized" ↔ 70 ≤ trustScore g)
  ∧ (governanceType g = "Decentralized" ↔
     ∃ auths, authorityInsights = Some auths ∧ is_Some callGraph
              ∧ (1 < length auths)%nat)
  ∧ (authorityInsights = Some [] → is_Some callGraph →
     governanceType g = "Centralized"
     ∧ head (details g) = Some "Single authority detected").
Proof.
  intros g. subst g.
  unfold GovernanceInferer.inferGovernance, GovernanceInferer.inferGovernance_try.
  destruct authorityInsights as [auths|]; simpl.
  - destruct callGraph as [graph|]; simpl.
    + destruct (GovernanceInferer.votingObserved graph);
        case_bool_decide as Hlen; simpl;
        (split; [repeat constructor |]);
        (split; [split; [done | try lia; try done] |]);
        (split; [split; [intros; try done; exists auths; eauto
                        | intros (? & [= <-] & _ & ?); try done; lia] |]);
        try (intros [= ->] _; simpl in Hlen; try lia; done).
    + split; [repeat constructor |]. split; [split; [done | lia] |].
      split; [split; [done | intros (? & _ & [? [=]] & _)] |].
      intros _ [? [=]].
  - split; [repeat constructor |]. split; [split; [done | lia] |].
    split; [split; [done | intros (? & [=] & _)] |].
    intros [=].
Qed.

(** X18. On the graph built by [reconstructCallGraph], [inferGovernance]
    reports "Voting interactions observed" exactly when the graph has an
    edge whose action is "governance"; some transaction of type
    "governance" then has an instruction with at least two accounts. *)
Theorem inferGovernance_voting analysis transactionData authorityInsights :
  let graph := CallGraphBuilder.reconstructCallGraph analysis transactionData in
  let g := GovernanceInferer.inferGovernance (Some authorityInsights) (Some graph) in
  ("Voting interactions observed" ∈ details g
   ↔ ∃ e, e ∈ edges graph ∧ action e = "governance")
  ∧ ("Voting interactions observed" ∈ details g →
     ∃ txs tx ixs ix accs,
       transactionData ≫= transactions = Some txs
       ∧ tx ∈ txs ∧ txType tx = "governance"
       ∧ txInstructions tx = Some ixs ∧ ix ∈ ixs
       ∧ accounts ix = Some accs ∧ (2 ≤ length accs)%nat).
Proof.
  intros graph g.
  assert (Hiff : "Voting interactions observed" ∈ details g
                 ↔ ∃ e, e ∈ edges graph ∧ action e = "governance").
  { rewrite <- votingObserved_spec. subst g.
    unfold GovernanceInferer.inferGovernance, GovernanceInferer.inferGovernance_try.
    simpl. destruct (GovernanceInferer.votingObserved graph);
      case_bool_decide; simpl; split; try done;
      rewrite ?elem_of_cons, ?elem_of_nil; intros; try tauto;
      repeat match goal with H : _ ∨ _ |- _ => destruct H end; done. }
  split; [exact Hiff |].
  intros Hvote. apply Hiff in Hvote as (e & He & Haction).
  destruct (reconstructCallGraph_edge_origin analysis transactionData e He)
    as (txs & tx & ixs & ix & Htxs & Htx & Hixs & Hix & Hedge).
  destruct (instructionEdges_shape (txType tx) ix [e] e Hedge)
    as (_ & Hact & _ & accs & Haccs & _ & H1); [apply list_elem_of_here |].
  exists txs, tx, ixs, ix, accs.
  apply lookup_lt_Some in H1.
  repeat split; try done; try congruence; lia.
Qed.

Section AuditFacts.
Import AuditReport.

Lemma assessSafety_risks_known analysis auths td cg :
  Forall (λ r, r ∈ [SafetyAssessor.hiddenMintRisk;
                    SafetyAssessor.singleAuthorityRisk;
                    SafetyAssessor.suspiciousVolumeRisk;
                    SafetyAssessor.complexInteractionsRisk])
    (risks (SafetyAssessor.assessSafety analysis auths td cg)).
Proof.
  unfold SafetyAssessor.assessSafety, SafetyAssessor.assessSafety_try.
  destruct (analysis ≫= insights) as [ins|]; [| constructor]. simpl.
  destruct (td ≫= economicInsights) as [eco|]; [| constructor]. simpl.
  unfold SafetyAssessor.rule, SafetyAssessor.penalize.
  repeat match goal with |- context [if ?c then _ else _] => destruct c end;
    simpl; repeat constructor.
Qed.

Lemma filter_all {A} (P : A → Prop) `{∀ x, Decision (P x)} (l : list A) :
  Forall P l → filter P l = l.
Proof.
  induction 1 as [|x l Hx _ IH]; [done |].
  by rewrite filter_cons, decide_True, IH.
Qed.

Lemma filter_none {A} (P : A → Prop) `{∀ x, Decision (P x)} (l : list A) :
  Forall (λ x, ¬ P x) l → filter P l = [].
Proof.
  induction 1 as [|x l Hx _ IH]; [done |].
  by rewrite filter_cons, decide_False, IH.
Qed.

Lemma assessSafety_not_malicious analysis auths td cg :
  malicious (risks (SafetyAssessor.assessSafety analysis auths td cg)) = []
  ∧ notMalicious (risks (SafetyAssessor.assessSafety analysis auths td cg))
    = risks (SafetyAssessor.assessSafety analysis auths td cg).
Proof.
  pose proof (assessSafety_risks_known analysis auths td cg) as Hknown.
  split.
  - apply filter_none. revert Hknown. apply Forall_impl. intros r Hr.
    rewrite !elem_of_cons, elem_of_nil in Hr.
    destruct Hr as [-> | [-> | [-> | [-> | []]]]]; vm_compute; discriminate.
  - apply filter_all. revert Hknown. apply Forall_impl. intros r Hr.
    rewrite !elem_of_cons, elem_of_nil in Hr.
    destruct Hr as [-> | [-> | [-> | [-> | []]]]]; vm_compute; reflexivity.
Qed.

Lemma malicious_split risks :
  (length (malicious risks) + length (notMalicious risks) = length risks)%nat.
Proof.
  unfold malicious, notMalicious.
  induction risks as [|r risks IH]; [done |].
  rewrite !filter_cons.
  destruct (includes (implication r) "malicious") eqn:E; simpl;
    rewrite ?E; simpl; lia.
Qed.

Lemma ofSeverity_disjoint vulnerabilities :
  (length (ofSeverity "High" vulnerabilities)
   + length (ofSeverity "Moderate" vulnerabilities)
   ≤ length vulnerabilities)%nat.
Proof.
  unfold ofSeverity.
  induction vulnerabilities as [|v vulnerabilities IH]; [done |].
  rewrite !filter_cons.
  destruct (decide (severity v = "High")) as [Hh | Hh];
    destruct (decide (severity v = "Moderate")) as [Hm | Hm]; simpl; try lia.
  rewrite Hh in Hm. discriminate.
Qed.

Lemma generateAuditReport_cases analysis authorityInsights transactionData
    callGraph vulnerabilities safetyAssessment :
  generateAuditReport analysis authorityInsights transactionData callGraph
    vulnerabilities safetyAssessment = fallback analysis
  ∨ ∃ ins safety,
      analysis ≫= insights = Some ins
      ∧ safetyAssessment = Some safety
      ∧ programAddress (generateAuditReport analysis authorityInsights
                          transactionData callGraph vulnerabilities
                          safetyAssessment) = address ins
      ∧ riskScoreBreakdown (generateAuditReport analysis authorityInsights
                              transactionData callGraph vulnerabilities
                              safetyAssessment)
        = breakdownOf vulnerabilities safety
      ∧ prioritizedRisks (generateAuditReport analysis authorityInsights
                            transactionData callGraph vulnerabilities
                            safetyAssessment)
        = prioritize vulnerabilities safety
      ∧ totalRisks (generateAuditReport analysis authorityInsights
                      transactionData callGraph vulnerabilities safetyAssessment)
        = lengthZ (prioritize vulnerabilities safety)
      ∧ riskLevel (generateAuditReport analysis authorityInsights
                     transactionData callGraph vulnerabilities safetyAssessment)
        = riskLevelOf (safetyScore safety)
      ∧ dependencies (generateAuditReport analysis authorityInsights
                        transactionData callGraph vulnerabilities
                        safetyAssessment)
        = filter (λ node, node ≠ address ins) (nodes callGraph).
Proof.
  unfold generateAuditReport, generateAuditReport_try.
  destruct (analysis ≫= insights) as [ins|]; [| by left]. simpl.
  destruct (transactionData ≫= economicInsights) as [eco|]; [| by left]. simpl.
  destruct safetyAssessment as [safety|]; [| by left]. simpl.
  destruct (suspectedType ins); [| by left]. simpl.
  destruct (totalVolumeSOL eco); [| by left]. simpl.
  destruct (controlFlow ins); [| by left]. simpl.
  destruct (averageFeeSOL eco); [| by left]. simpl.
  destruct (suspiciousVolume eco); [| by left]. simpl.
  right. by exists ins, safety.
Qed.

Lemma generateAuditReport_try_dependencies analysis authorityInsights
    transactionData callGraph vulnerabilities safetyAssessment report :
  generateAuditReport_try analysis authorityInsights transactionData callGraph
    vulnerabilities safetyAssessment = Some report →
  ∃ ins, analysis ≫= insights = Some ins
    ∧ programAddress report = address ins
    ∧ dependencies report = filter (λ node, node ≠ address ins) (nodes callGraph).
Proof.
  unfold generateAuditReport_try.
  destruct (analysis ≫= insights) as [ins|]; [| done]. simpl.
  destruct (transactionData ≫= economicInsights) as [eco|]; [| done]. simpl.
  destruct safetyAssessment as [safety|]; [| done]. simpl.
  destruct (suspectedType ins); [| done]. simpl.
  destruct (totalVolumeSOL eco); [| done]. simpl.
  destruct (controlFlow ins); [| done]. simpl.
  destruct (averageFeeSOL eco); [| done]. simpl.
  destruct (suspiciousVolume eco); [| done]. simpl.
  intros [= <-]. by exists ins.
Qed.

(** A list without duplicates that starts with [x] is [x] followed by its
    elements other than [x]. *)
Lemma filter_other_head (x : string) (l : list string) :
  NoDup l → head l = Some x → l = x :: filter (λ y, y ≠ x) l.
Proof.
  destruct l as [|y l]; [done |]. intros Hnd [= ->].
  apply list.NoDup_cons in Hnd as [Hx _].
  rewrite filter_cons, decide_False by (by intros H; apply H).
  f_equal. symmetry. apply filter_all.
  apply list.Forall_forall. intros y Hy ->. done.
Qed.

End AuditFacts.

(** X19. On the analysis of a binary, [assessRisks] returns the risks of
    the vulnerabilities, in their order, followed by both the reentrancy
    risk and the instruction-count risk when the binary has at least 8008
    bytes, and by nothing otherwise: the two risks always come together. *)
Theorem assessRisks_of_analyzeBinary binary address vulnerabilities reported :
  RiskAssessor.assessRisks (Some (BinaryProfiler.analyzeBinary binary address))
    (Some vulnerabilities) reported
  = (RiskAssessor.riskOf <$> vulnerabilities)
    ++ (if bool_decide (8008 ≤ Z.of_nat (length binary))
        then [RiskAssessor.reentrancyRiskEntry; RiskAssessor.instructionCountRisk]
        else []).
Proof.
  unfold RiskAssessor.assessRisks, RiskAssessor.assessRisks_try,
    BinaryProfiler.analyzeBinary.
  rewrite floor_eighth. cbn [insights mbind option_bind default].
  unfold RiskAssessor.reentrancySignal, BehaviorInferer.instructionsAbove,
    RiskAssessor.pushIf.
  cbn [reentrancyRisk instructions].
  destruct (decide (8008 ≤ Z.of_nat (length binary))) as [Hlen | Hlen].
  - rewrite (bool_decide_eq_true_2 (8008 ≤ _)) by done.
    rewrite (bool_decide_eq_true_2 (1000 < _))
      by (by apply instructions_above_1000).
    simpl. by rewrite <- app_assoc.
  - rewrite (bool_decide_eq_false_2 (8008 ≤ _)) by done.
    rewrite (bool_decide_eq_false_2 (1000 < _))
      by (by rewrite instructions_above_1000).
    simpl. by rewrite app_nil_r.
Qed.

(** X20. [assessRisks] returns the empty list when the vulnerabilities
    are omitted, as in the call of the dashboard, and when the analysis or
    its insights are missing.  Otherwise the risks of the vulnerabilities
    come first, in their order, followed by at most the two risks of the
    analysis, in source order. *)
Theorem assessRisks_degraded analysis vulnerabilities reported :
  RiskAssessor.assessRisks analysis None reported = []
  ∧ RiskAssessor.assessRisks None vulnerabilities reported = []
  ∧ RiskAssessor.assessRisks (Some {| insights := None |}) vulnerabilities reported
    = []
  ∧ ∀ ins vulns,
      analysis ≫= insights = Some ins → vulnerabilities = Some vulns →
      ∃ extra,
        RiskAssessor.assessRisks analysis vulnerabilities reported
        = (RiskAssessor.riskOf <$> vulns) ++ extra
        ∧ sublist extra [RiskAssessor.reentrancyRiskEntry;
                         RiskAssessor.instructionCountRisk].
Proof.
  unfold RiskAssessor.assessRisks, RiskAssessor.assessRisks_try.
  split; [by destruct (analysis ≫= insights) |].
  split; [done |]. split; [done |].
  intros ins vulns -> ->. simpl. unfold RiskAssessor.pushIf.
  destruct (RiskAssessor.reentrancySignal ins),
    (BehaviorInferer.instructionsAbove 1000 ins); eexists;
    (split; [rewrite <- ?app_assoc; try reflexivity; by rewrite app_nil_r |]);
    simpl.
  - reflexivity.
  - by apply sublist_skip, sublist_cons, sublist_nil.
  - by apply sublist_cons, sublist_skip.
  - apply sublist_nil_l.
Qed.

(** X21. In every audit report, the one of the [catch] block included,
    [totalRisks] is the number of prioritized risks and the sum of the
    [high] and [moderate] counters of the breakdown.  Every prioritized risk
    has severity "High" or "Moderate": vulnerabilities of severity
    "Critical" or "Low" are counted in the breakdown but never listed.  The
    total is at most the number of vulnerabilities plus the number of
    safety risks. *)
Theorem auditReport_risk_totals analysis authorityInsights transactionData
    callGraph vulnerabilities safetyAssessment :
  let report := AuditReport.generateAuditReport analysis authorityInsights
                  transactionData callGraph vulnerabilities safetyAssessment in
  let breakdown := AuditReport.riskScoreBreakdown report in
  AuditReport.totalRisks report
  = Z.of_nat (length (AuditReport.prioritizedRisks report))
  ∧ AuditReport.totalRisks report
    = AuditReport.high breakdown + AuditReport.moderate breakdown
  ∧ Forall (λ p, AuditReport.riskSeverity p ∈ ["High"; "Moderate"])
      (AuditReport.prioritizedRisks report)
  ∧ (∀ safety, safetyAssessment = Some safety →
       AuditReport.totalRisks report
       ≤ Z.of_nat (length vulnerabilities) + Z.of_nat (length (risks safety))).
Proof.
  intros report breakdown. subst breakdown report.
  destruct (generateAuditReport_cases analysis authorityInsights transactionData
              callGraph vulnerabilities safetyAssessment)
    as [-> | (ins & safety & _ & -> & _ & -> & -> & -> & _)].
  - simpl. repeat split; try done. intros. lia.
  - unfold AuditReport.prioritize, AuditReport.breakdownOf, AuditReport.lengthZ.
    cbn [AuditReport.high AuditReport.moderate].
    rewrite !length_app, !length_fmap.
    split; [reflexivity |]. split; [lia |]. split.
    + rewrite !Forall_app, !Forall_fmap. repeat split.
      * apply list.Forall_forall. intros v Hv.
        apply list_elem_of_filter in Hv as [Hv _]. simpl. rewrite Hv.
        repeat constructor.
      * apply list.Forall_forall. intros r _. simpl. repeat constructor.
      * apply list.Forall_forall. intros v Hv.
        apply list_elem_of_filter in Hv as [Hv _]. simpl. rewrite Hv.
        repeat constructor.
      * apply list.Forall_forall. intros r _. simpl. repeat constructor.
    + intros safety' [= <-].
      pose proof (malicious_split (risks safety)).
      pose proof (ofSeverity_disjoint vulnerabilities). lia.
Qed.

(** X22. With the assessment of [assessSafety], none of whose risks
    mentions "malicious": the [high] counter is the number of "High"
    vulnerabilities, every safety risk is counted as "Moderate", and every
    prioritized risk of severity "High" is a vulnerability.  The risk level
    is "Low" exactly for the score 80, and then there is no safety risk; it
    is "High" exactly for the scores of 45 and less. *)
Theorem auditReport_of_assessSafety analysis authorityInsights transactionData
    callGraph vulnerabilities :
  let safety := SafetyAssessor.assessSafety analysis authorityInsights
                  transactionData callGraph in
  let breakdown := AuditReport.breakdownOf vulnerabilities safety in
  AuditReport.high breakdown
  = Z.of_nat (length (AuditReport.ofSeverity "High" vulnerabilities))
  ∧ AuditReport.moderate breakdown
    = Z.of_nat (length (AuditReport.ofSeverity "Moderate" vulnerabilities))
      + Z.of_nat (length (risks safety))
  ∧ Forall (λ p, AuditReport.riskSeverity p = "High" →
                 ∃ v, v ∈ vulnerabilities ∧ p = AuditReport.ofVulnerability v)
      (AuditReport.prioritize vulnerabilities safety)
  ∧ (AuditReport.riskLevelOf (safetyScore safety) = "Low"
     ↔ safetyScore safety = 80)
  ∧ (AuditReport.riskLevelOf (safetyScore safety) = "Low" → risks safety = [])
  ∧ (AuditReport.riskLevelOf (safetyScore safety) = "High"
     ↔ safetyScore safety ≤ 45).
Proof.
  intros safety breakdown. subst breakdown.
  destruct (assessSafety_not_malicious analysis authorityInsights transactionData
              callGraph) as [Hmal Hnot].
  fold safety in Hmal, Hnot.
  unfold AuditReport.breakdownOf, AuditReport.prioritize, AuditReport.lengthZ.
  cbn [AuditReport.high AuditReport.moderate]. rewrite Hmal, Hnot. simpl.
  split; [lia |]. split; [reflexivity |]. split.
  - rewrite !Forall_app, !Forall_fmap. repeat split.
    + apply list.Forall_forall. intros v Hv _.
      apply list_elem_of_filter in Hv as [_ Hv]. by exists v.
    + apply list.Forall_forall. intros v Hv _.
      apply list_elem_of_filter in Hv as [_ Hv]. by exists v.
    + apply list.Forall_forall. intros r _. simpl. discriminate.
  - destruct (assessSafety_score_values analysis authorityInsights
                transactionData callGraph) as (Hscore & Hnone).
    fold safety in Hscore, Hnone.
    rewrite !elem_of_cons, elem_of_nil in Hscore.
    unfold AuditReport.riskLevelOf.
    split; [| split].
    + repeat case_bool_decide; split; try done; lia.
    + repeat case_bool_decide; try done. intros _. apply Hnone. lia.
    + repeat case_bool_decide; split; try done; lia.
Qed.

(** X23. When a report is generated for the graph of
    [reconstructCallGraph], the program's own address is not among the
    dependencies, and either the graph is the empty one of the [catch] block
    and there is no dependency, or the nodes of the graph are the program
    address followed by the dependencies. *)
Theorem auditReport_dependencies analysis authorityInsights transactionData
    vulnerabilities safetyAssessment report :
  let graph := CallGraphBuilder.reconstructCallGraph analysis transactionData in
  AuditReport.generateAuditReport_try analysis authorityInsights transactionData
    graph vulnerabilities safetyAssessment = Some report →
  (AuditReport.programAddress report ∉ AuditReport.dependencies report)
  ∧ (graph = CallGraphBuilder.fallback ∧ AuditReport.dependencies report = []
     ∨ nodes graph
       = AuditReport.programAddress report :: AuditReport.dependencies report).
Proof.
  intros graph Hreport.
  apply generateAuditReport_try_dependencies in Hreport
    as (ins & Hins & -> & ->).
  split.
  - intros Hin. apply list_elem_of_filter in Hin as [Hne _]. done.
  - subst graph.
    destruct (reconstructCallGraph_cases analysis transactionData)
      as [-> | (ins' & txs & es & Hins' & _ & _ & ->)].
    + left. done.
    + right. assert (ins' = ins) as -> by congruence. cbn [nodes].
      apply filter_other_head.
      * apply addEndpoints_NoDup, NoDup_singleton.
      * apply addEndpoints_head.
Qed.

Lemma auditReport_dependencies_witness :
  ∃ report,
    AuditReport.generateAuditReport_try (Some Scenarios.someAnalysis)
      Scenarios.loneAuthority (Some Scenarios.swapData)
      (CallGraphBuilder.reconstructCallGraph (Some Scenarios.someAnalysis)
         (Some Scenarios.swapData))
      [Scenarios.authorityFinding] (Some SafetyAssessor.fallback)
    = Some report
    ∧ (AuditReport.programAddress report ∉ AuditReport.dependencies report)
    ∧ length (AuditReport.dependencies report) = 2%nat
    ∧ nodes (CallGraphBuilder.reconstructCallGraph (Some Scenarios.someAnalysis)
               (Some Scenarios.swapData))
      = AuditReport.programAddress report :: AuditReport.dependencies report.
Proof.
  eexists. split; [reflexivity |].
  destruct (auditReport_dependencies (Some Scenarios.someAnalysis)
              Scenarios.loneAuthority (Some Scenarios.swapData)
              [Scenarios.authorityFinding] (Some SafetyAssessor.fallback) _ eq_refl)
    as [Hnot [[Hempty _] | Hnodes]].
  - exfalso. vm_compute in Hempty. discriminate.
  - split; [exact Hnot |]. split; [vm_compute; reflexivity | exact Hnodes].
Defined.

Section IdlFacts.
Import IdlGenerator.

Lemma nameOf_inj tx tx' (i j : nat) : nameOf tx i = nameOf tx' j → i = j.
Proof.
  unfold nameOf. repeat case_bool_decide; intros Heq.
  - apply (inj (String.append "governanceInstruction")) in Heq.
    by apply (inj pretty) in Heq.
  - exfalso. revert Heq. unfold String.append. fold String.append. discriminate.
  - exfalso. revert Heq. unfold String.append. fold String.append. discriminate.
  - apply (inj (String.append "instruction")) in Heq.
    by apply (inj pretty) in Heq.
Qed.

(** The entries of [mapFrom index txs]: one per transaction, named after
    the transaction and its position. *)
Lemma mapFrom_entries txs : ∀ index all,
  mapFrom index txs = Some all →
  length all = length txs
  ∧ ∀ i entry, all !! i = Some entry →
      ∃ tx ixs, txs !! i = Some tx ∧ txInstructions tx = Some ixs
        ∧ instructionName entry = nameOf tx (index + i)
        ∧ length (args entry) = length ixs
        ∧ returns entry = "void".
Proof.
  induction txs as [|tx txs IH]; intros index all; simpl.
  - intros [= <-]. split; [done |]. intros i entry Hi. done.
  - destruct (txInstructions tx) as [ixs|] eqn:Hixs; [| done]. simpl.
    destruct (mapFrom (S index) txs) as [rest|] eqn:Hrest; [| done]. simpl.
    intros [= <-]. destruct (IH (S index) rest Hrest) as [Hlen Hentries].
    split; [simpl; by rewrite Hlen |].
    intros [|i] entry Hi; simpl in Hi.
    + injection Hi as <-. exists tx, ixs. simpl.
      rewrite Nat.add_0_r. unfold argsOf. by rewrite length_imap.
    + destruct (Hentries i entry Hi) as (tx' & ixs' & Htx' & Hixs' & Hname & Hargs).
      exists tx', ixs'. simpl.
      by replace (index + S i)%nat with (S index + i)%nat by lia.
Qed.

Lemma mapFrom_is_Some txs : ∀ index,
  Forall (λ tx, is_Some (txInstructions tx)) txs → is_Some (mapFrom index txs).
Proof.
  induction txs as [|tx txs IH]; intros index Hall; simpl; [by eexists |].
  apply list.Forall_cons in Hall as [[ixs ->] Hall]. simpl.
  destruct (IH (S index) Hall) as [rest ->]. simpl. by eexists.
Qed.

Lemma mapFrom_names_NoDup txs index all :
  mapFrom index txs = Some all → NoDup (instructionName <$> all).
Proof.
  intros Hall. destruct (mapFrom_entries txs index all Hall) as [_ Hentries].
  apply NoDup_alt. intros i j name Hi Hj.
  rewrite list_lookup_fmap in Hi, Hj.
  destruct (all !! i) as [ei|] eqn:Hei; [| done].
  destruct (all !! j) as [ej|] eqn:Hej; [| done].
  simpl in Hi, Hj. injection Hi as Hi. injection Hj as Hj.
  destruct (Hentries i ei Hei) as (txi & _ & _ & _ & Hni & _).
  destruct (Hentries j ej Hej) as (txj & _ & _ & _ & Hnj & _).
  assert (Heq : nameOf txi (index + i) = nameOf txj (index + j)) by congruence.
  apply nameOf_inj in Heq. lia.
Qed.

Lemma programName_nonempty ins : programName ins ≠ "".
Proof.
  unfold programName. destruct (suspectedType ins) as [t|]; [| done].
  by case_bool_decide.
Qed.

End IdlFacts.

(** X24. [generateIDL] returns at most five instructions, whose names are
    pairwise distinct, with version "0.1.0" and a program name that is not
    empty.  On present inputs whose transactions all have an instruction
    list there are min(5, number of transactions) of them, the i-th named
    after the i-th transaction and its index, with one argument per
    instruction of that transaction. *)
Theorem generateIDL_instructions analysis transactionData :
  let idl := IdlGenerator.generateIDL analysis transactionData in
  (length (idlInstructions idl) ≤ 5)%nat
  ∧ NoDup (instructionName <$> idlInstructions idl)
  ∧ version idl = "0.1.0"
  ∧ idlName idl ≠ ""
  ∧ (∀ txs,
       is_Some (analysis ≫= insights) →
       transactionData ≫= transactions = Some txs →
       Forall (λ tx, is_Some (txInstructions tx)) txs →
       length (idlInstructions idl) = Nat.min 5 (length txs)
       ∧ ∀ i entry, idlInstructions idl !! i = Some entry →
           ∃ tx ixs, txs !! i = Some tx ∧ txInstructions tx = Some ixs
             ∧ instructionName entry = IdlGenerator.nameOf tx i
             ∧ length (args entry) = length ixs).
Proof.
  intros idl. subst idl.
  unfold IdlGenerator.generateIDL, IdlGenerator.generateIDL_try.
  destruct (analysis ≫= insights) as [ins|]; simpl.
  2: { split; [lia |]. split; [apply NoDup_nil_2 |]. split; [done |].
       split; [done |]. intros txs [? [=]]. }
  destruct (transactionData ≫= transactions) as [txs|]; simpl.
  2: { split; [lia |]. split; [apply NoDup_nil_2 |]. split; [done |].
       split; [done |]. intros txs _ [=]. }
  destruct (IdlGenerator.mapFrom 0 txs) as [all|] eqn:Hall; simpl.
  2: { split; [lia |]. split; [apply NoDup_nil_2 |]. split; [done |].
       split; [done |]. intros txs' _ [= <-] Hwf.
       destruct (mapFrom_is_Some txs 0 Hwf) as [? ?]. congruence. }
  split; [rewrite length_take; lia |].
  split.
  { rewrite fmap_take. eapply sublist_NoDup; [| apply sublist_take].
    by apply (mapFrom_names_NoDup txs 0). }
  split; [done |]. split; [apply programName_nonempty |].
  intros txs' _ [= <-] _.
  destruct (mapFrom_entries txs 0 all Hall) as [Hlen Hentries].
  split; [by rewrite length_take, Hlen |].
  intros i entry Hi. apply lookup_take_Some in Hi as [Hi _].
  destruct (Hentries i entry Hi) as (tx & ixs & Htx & Hixs & Hname & Hargs & _).
  by exists tx, ixs.
Qed.

Section DeepDiveFacts.
Import DeepDive.













End DeepDiveFacts.


(** X26. The [predictRisk] of predictRisk.js, on present inputs whose
    authority insights all have a [warnings] list up to the first warned
    one: the likelihood is one of 50, 60, 65, 70, 75, 80, 85 and 95, and 50
    exactly when no factor is listed; the prediction is never "Low risk, but
    verify", whose branch needs a likelihood of at most 40; it is the high
    one exactly above 70 and the moderate one otherwise. *)
Theorem predictRisk_variant_range authorityInsights transactionData eco
    safetyAssessment warned :
  economicInsights transactionData = Some eco →
  RiskPredictorVariant.someWarnings authorityInsights = Some warned →
  ∃ r,
    RiskPredictorVariant.predictRisk (Some authorityInsights)
      (Some transactionData) (Some safetyAssessment)
    = RiskPredictorVariant.Fulfilled r
    ∧ riskLikelihood r ∈ [50; 60; 65; 70; 75; 80; 85; 95]
    ∧ (riskFactors r = [] ↔ riskLikelihood r = 50)
    ∧ prediction r ≠ "Low risk, but verify"
    ∧ (prediction r = "High risk of future scams or laundering"
       ↔ 70 < riskLikelihood r)
    ∧ (prediction r = "Moderate risk, monitor closely"
       ↔ riskLikelihood r ≤ 70).
Proof.
  intros Heco Hwarned.
  unfold RiskPredictorVariant.predictRisk, RiskPredictorVariant.predictRisk_try.
  simpl. rewrite Heco. simpl. rewrite Hwarned. simpl.
  eexists. split; [reflexivity |].
  unfold RiskPredictorVariant.rule, RiskPredictorVariant.predictionOf, JS.min100.
  destruct (bool_decide (safetyScore safetyAssessment < 50)),
    (JS.gt (suspiciousVolume eco) (Some (1 # 10))), warned; simpl;
    (split; [repeat constructor |]);
    repeat split; try done; try lia.
Qed.

Lemma predictRisk_variant_range_witness :
  economicInsights Scenarios.suspiciousData = Some Scenarios.suspiciousEconomics
  ∧ RiskPredictorVariant.someWarnings [Scenarios.warnedAuthority] = Some true
  ∧ ∃ r,
      RiskPredictorVariant.predictRisk (Some [Scenarios.warnedAuthority])
        (Some Scenarios.suspiciousData) (Some SafetyAssessor.fallback)
      = RiskPredictorVariant.Fulfilled r
      ∧ riskLikelihood r = 75
      ∧ prediction r = "High risk of future scams or laundering".
Proof.
  split; [reflexivity |]. split; [reflexivity |].
  destruct (predictRisk_variant_range [Scenarios.warnedAuthority]
              Scenarios.suspiciousData Scenarios.suspiciousEconomics
              SafetyAssessor.fallback true eq_refl eq_refl)
    as (r & Hr & _).
  exists r. split; [exact Hr |].
  vm_compute in Hr. injection Hr as <-. split; reflexivity.
Defined.



Section PipelineFacts.
Import BehaviorInferer.

(** With exactly one authority holder the scam score starts from 20. *)
Lemma scamScore_single_holder ins eco holder :
  authorityHolders ins = Some [holder] →
  ∃ scam, scamScore ins eco = Some scam
    ∧ 20 ≤ scam ≤ 90 ∧ (hiddenMint ins = true → 50 ≤ scam).
Proof.
  intros Hholders. unfold scamScore. rewrite Hholders.
  cbn [mbind option_bind length].
  rewrite (bool_decide_eq_true_2 (1%nat = 1%nat)) by done.
  eexists. split; [reflexivity |]. unfold bump.
  destruct (hiddenMint ins),
    (JS.gt (suspiciousVolume eco) (JS.mul (totalVolumeSOL eco) (Some (1 # 2)))),
    (JS.lt (transactionCount eco) (JS.ofZ 10)
     && JS.gt (totalVolumeSOL eco) (JS.ofZ 100)); simpl;
    (split; [lia | try done; intros _; lia]).
Qed.

Lemma launderingScore_present ins eco flows vol oth sys :
  tokenFlowInsights eco = Some flows → transactionVolumeAnalysis eco = Some vol →
  transactionTypes eco ≫= others = Some oth → syscalls ins = Some sys →
  is_Some (launderingScore ins eco).
Proof.
  intros Hf Hv Ho Hs. unfold launderingScore.
  rewrite Hf. simpl. rewrite Hv. simpl. rewrite Ho. simpl. rewrite Hs. simpl.
  by eexists.
Qed.

(** A confidence map computed by the [try] block is one of the first four
    distributions. *)
Lemma typeConfidence_computed ins eco conf :
  typeConfidence ins eco = Some conf → conf ∈ take 4 distributions.
Proof.
  unfold typeConfidence, distributions. case_bool_decide.
  - intros [= <-]. repeat constructor.
  - destruct (transactionTypes eco ≫= swaps) as [sw|]; [| done]. simpl.
    destruct (shareAbove sw eco (1 # 2)).
    + intros [= <-]. repeat constructor.
    + destruct (transactionTypes eco ≫= nftMints) as [nm|]; [| done]. simpl.
      destruct (shareAbove nm eco (3 # 10)); intros [= <-]; repeat constructor.
Qed.

End PipelineFacts.

(** X29. The stages in sequence: on the analysis of any binary and the
    result computed by any fetch, [inferBehavior] does not take its [catch]
    block.  Since [analyzeBinary] always reports the one placeholder
    authority holder, the scam probability is at least 20, and at least 50
    when the binary contains the marker [mint]; it is at most 90.  The
    laundering likelihood lies between 10 and 80, and the confidence map is
    one of the four computed distributions, never the map of the [catch]
    block. *)
Theorem inferBehavior_of_fetch binary address answers flows stdDev :
  let analysis := BinaryProfiler.analyzeBinary binary address in
  let data := TransactionBuilder.resultOf
                (TransactionBuilder.buildAll address answers) flows stdDev in
  let behavior := BehaviorInferer.inferBehavior (Some analysis) (Some data) in
  20 ≤ scamProbability behavior ≤ 90
  ∧ (BinaryProfiler.includes binary (BinaryProfiler.bufferFrom "mint") = true →
     50 ≤ scamProbability behavior)
  ∧ 10 ≤ launderingLikelihood behavior ≤ 80
  ∧ programTypeConfidence behavior ∈ take 4 BehaviorInferer.distributions.
Proof.
  intros analysis data behavior.
  destruct (insights analysis) as [ins|] eqn:Hins; [| done].
  destruct (economicInsights data) as [eco|] eqn:Heco; [| done].
  assert (Hholders : authorityHolders ins = Some ["8x7y...z9k2"])
    by (injection Hins as <-; reflexivity).
  assert (Hmint : hiddenMint ins
                  = BinaryProfiler.includes binary (BinaryProfiler.bufferFrom "mint"))
    by (injection Hins as <-; reflexivity).
  destruct (scamScore_single_holder ins eco _ Hholders)
    as (scam & Hscam & Hrange & Hhidden).
  destruct (launderingScore_present ins eco flows
              {| meanVolumeSOL := Some (TransactionBuilder.meanVolumeOf
                                          (TransactionBuilder.buildAll address answers));
                 stdDevVolumeSOL := Some stdDev;
                 highVolatility :=
                   JS.Qgtb stdDev
                     (TransactionBuilder.meanVolumeOf
                        (TransactionBuilder.buildAll address answers) * (1 # 2)) |}
              (TransactionBuilder.typeStatOf ["unknown"; "custom"]
                 (TransactionBuilder.buildAll address answers))
              (BinaryProfiler.detectSyscalls binary))
    as [laundering Hlaundering];
    try (injection Heco as <-; reflexivity);
    try (injection Hins as <-; reflexivity).
  pose proof (launderingScore_bounds ins eco laundering Hlaundering) as Hl.
  destruct (BehaviorInferer.typeConfidence ins eco) as [conf|] eqn:Hconf.
  2: { exfalso. revert Hconf. injection Heco as <-.
       unfold BehaviorInferer.typeConfidence. simpl.
       case_bool_decide; [done |].
       destruct (BehaviorInferer.shareAbove _ _ _); [done |].
       by destruct (BehaviorInferer.shareAbove _ _ _). }
  assert (Hb : behavior
               = {| scamProbability := JS.min100 scam;
                    launderingLikelihood := JS.min100 laundering;
                    programTypeConfidence := conf |}).
  { subst behavior. unfold BehaviorInferer.inferBehavior,
      BehaviorInferer.inferBehavior_try.
    cbn [mbind option_bind]. rewrite Hins, Heco. cbn [mbind option_bind].
    rewrite Hscam. cbn [mbind option_bind]. rewrite Hlaundering.
    cbn [mbind option_bind]. rewrite Hconf. reflexivity. }
  rewrite Hb. cbn [scamProbability launderingLikelihood programTypeConfidence].
  unfold JS.min100.
  split; [lia |]. split; [intros Hm; rewrite <- Hmint in Hm; specialize (Hhidden Hm); lia |].
  split; [lia |]. by apply (typeConfidence_computed ins eco).
Qed.
